(** * Churn prediction: the feature-encoding contract

    A shallow embedding of [api/main.py] (the inference service) and of
    [src/preprocessing.py] (the training-time cleaning, engineering,
    encoding and scaling stages) and of the choice of the final model in
    [src/train.py], with the properties the specification states about
    them and further properties of the code.

    Modelling conventions.
    - Python [int] values are [Z]; Python [float] values are rationals [Q]
      (every finite double is a rational and comparisons of doubles are
      exact).  Arithmetic on them is exact: the embedding has no rounding,
      no infinities and no [OverflowError], so what it says of a number
      holds of the program while its numbers stay in the range of
      doubles.  A literal a value is compared with (the edges [0.2],
      [0.4], [0.6], [0.8] of the confidence bands) is the double Python
      reads it as; [0.5] is a double itself.  The quantile levels
      [0.33] and [0.66] enter arithmetic and are taken at their decimal
      value.  A dict or DataFrame cell that may hold an [int] or a
      [float] holds a [Q].
    - Python [str] values are [string]; a character is a code point below
      256, with Python's own whitespace and case tables on that range.
    - A Python [dict] with string keys is a [gmap string _].
    - Raised exceptions are values of [error] inside [result]. *)

From Stdlib Require Import ZArith QArith Qround Lqa String Ascii List Bool Lia.
From stdpp Require Import gmap strings list.

Local Open Scope string_scope.

(* ------------------------------------------------------------------ *)
(** ** Python strings *)

(** [str.isspace] on one character: U+0009..U+000D, U+001C..U+0020,
    U+0085 and U+00A0. *)
Definition py_isspace (a : ascii) : bool :=
  let n := N_of_ascii a in
  ((9 <=? n) && (n <=? 13) || (28 <=? n) && (n <=? 32)
   || (n =? 133) || (n =? 160))%N.

(** [str.lower] on one character: A..Z and the Latin-1 capitals
    U+00C0..U+00DE (the multiplication sign U+00D7 apart) move up by 32. *)
Definition py_lower_char (a : ascii) : ascii :=
  let n := N_of_ascii a in
  if ((65 <=? n) && (n <=? 90)
      || (192 <=? n) && (n <=? 222) && negb (n =? 215))%N
  then ascii_of_N (n + 32) else a.

Fixpoint lower (s : string) : string :=
  match s with
  | EmptyString => EmptyString
  | String a s' => String (py_lower_char a) (lower s')
  end.

Fixpoint lstrip (s : string) : string :=
  match s with
  | EmptyString => EmptyString
  | String a s' => if py_isspace a then lstrip s' else s
  end.

Fixpoint rstrip (s : string) : string :=
  match s with
  | EmptyString => EmptyString
  | String a s' =>
      match rstrip s' with
      | EmptyString => if py_isspace a then EmptyString else String a EmptyString
      | t => String a t
      end
  end.

(** [s.strip()] *)
Definition strip (s : string) : string := rstrip (lstrip s).

Fixpoint startswith (needle s : string) : bool :=
  match needle, s with
  | EmptyString, _ => true
  | String a n', String b s' => Ascii.eqb a b && startswith n' s'
  | String _ _, EmptyString => false
  end.

(** [needle in s] *)
Fixpoint str_in (needle s : string) : bool :=
  startswith needle s
  || match s with
     | EmptyString => false
     | String _ s' => str_in needle s'
     end.

(* ------------------------------------------------------------------ *)
(** ** Exceptions *)

Inductive error : Type :=
| HTTPException (status_code : Z) (detail : string)
| ValueError (msg : string)
| KeyError (key : string)
| TypeError (msg : string).

Inductive result (A : Type) : Type :=
| Ok (a : A)
| Raise (e : error).
Arguments Ok {A} a.
Arguments Raise {A} e.

#[global] Instance result_ret : MRet result := fun A a => Ok a.
#[global] Instance result_bind : MBind result := fun A B k r =>
  match r with
  | Ok a => k a
  | Raise e => Raise e
  end.

(* ------------------------------------------------------------------ *)
(** ** api/main.py *)

(** [class PredictRequest(BaseModel)].  [monthly_charges] is a finite
    float; [tenure] is an [int] of any size. *)
Record PredictRequest : Type := {
  tenure : Z;
  monthly_charges : Q;
  contract : string;
  internet_service : string;
  payment_method : string;
  paperless_billing : string;
  tech_support : string;
  online_security : string;
  gender : string;
  senior_citizen : Z;
  partner : string;
  dependents : string;
  phone_service : string;
  online_backup : string;
  device_protection : string;
  streaming_tv : string;
  streaming_movies : string;
  multiple_lines : string
}.

(** The [Field] constraints of [PredictRequest]: [ge=0] on [tenure] and
    [monthly_charges], [ge=0, le=1] on [senior_citizen]. *)
Definition valid_request (req : PredictRequest) : Prop :=
  (0 <= tenure req)%Z ∧ (0 <= monthly_charges req)%Q
  ∧ (0 <= senior_citizen req <= 1)%Z.

(** A request that gives the five required fields and leaves every
    optional field at its [Field] default. *)
Definition request_with_defaults
    (t : Z) (mc : Q) (c i pm : string) : PredictRequest :=
  {| tenure := t; monthly_charges := mc; contract := c;
     internet_service := i; payment_method := pm;
     paperless_billing := "Yes"; tech_support := "No";
     online_security := "No"; gender := "Male"; senior_citizen := 0;
     partner := "No"; dependents := "No"; phone_service := "Yes";
     online_backup := "No"; device_protection := "No";
     streaming_tv := "No"; streaming_movies := "No";
     multiple_lines := "No" |}.

(** [class PredictResponse(BaseModel)] *)
Record PredictResponse : Type := {
  churn_probability : Q;
  prediction : string;
  confidence : string
}.

Definition _bucket_tenure (tenure : Z) : string :=
  if (tenure <? 13)%Z then "0-12"
  else if (tenure <? 25)%Z then "13-24"
  else if (tenure <? 49)%Z then "25-48"
  else if (tenure <? 61)%Z then "49-60"
  else "60+".

Definition _bucket_monthly (monthly_charges q33 q66 : Q) : string :=
  if Qle_bool monthly_charges q33 then "low"
  else if Qle_bool monthly_charges q66 then "medium"
  else "high".

(** [1 if cond else 0] *)
Definition b2q (b : bool) : Q := if b then 1%Q else 0%Q.

(** [for c in keys: row[c] = 0] *)
Definition zero_fill (keys : list string) (row : gmap string Q)
  : gmap string Q :=
  foldl (fun r c => <[c := 0%Q]> r) row keys.

(** [if key in row: row[key] = 1] *)
Definition set_if_present (key : string) (row : gmap string Q)
  : gmap string Q :=
  match row !! key with
  | Some _ => <[key := 1%Q]> row
  | None => row
  end.

Definition yes (s : string) : bool := String.eqb (lower (strip s)) "yes".

(** The dict literal that opens [build_feature_row].  The two products
    are exact here; Python converts [tenure] to a float first and raises
    an [OverflowError] when it lies beyond the range of doubles. *)
Definition base_row (req : PredictRequest) : gmap string Q :=
  let total_charges := (inject_Z (tenure req) * monthly_charges req)%Q in
  let total_spend := (inject_Z (tenure req) * monthly_charges req)%Q in
  <["total_spend" := total_spend]> (
  <["TotalCharges" := total_charges]> (
  <["MonthlyCharges" := monthly_charges req]> (
  <["PaperlessBilling" := b2q (yes (paperless_billing req))]> (
  <["StreamingMovies" := b2q (yes (streaming_movies req))]> (
  <["StreamingTV" := b2q (yes (streaming_tv req))]> (
  <["TechSupport" := b2q (yes (tech_support req))]> (
  <["DeviceProtection" := b2q (yes (device_protection req))]> (
  <["OnlineBackup" := b2q (yes (online_backup req))]> (
  <["OnlineSecurity" := b2q (yes (online_security req))]> (
  <["PhoneService" := b2q (yes (phone_service req))]> (
  <["tenure" := inject_Z (tenure req)]> (
  <["Dependents" := b2q (yes (dependents req))]> (
  <["Partner" := b2q (yes (partner req))]> (
  <["SeniorCitizen" := inject_Z (senior_citizen req)]> (
  <["gender" := b2q (String.eqb (lower (strip (gender req))) "male")]>
    ∅))))))))))))))).

(** [# One-hot: Contract] *)
Definition onehot_contract (req : PredictRequest) (row : gmap string Q)
  : gmap string Q :=
  let row := zero_fill
    ["Contract_Month-to-month"; "Contract_One year"; "Contract_Two year"]
    row in
  let key := "Contract_" +:+ strip (contract req) in
  set_if_present key row.

(** [# One-hot: InternetService] *)
Definition onehot_internet (req : PredictRequest) (row : gmap string Q)
  : gmap string Q :=
  let row := zero_fill
    ["InternetService_DSL"; "InternetService_Fiber optic";
     "InternetService_No"] row in
  let key := "InternetService_" +:+ strip (internet_service req) in
  set_if_present key row.

(** [# One-hot: PaymentMethod (normalize common variants)] *)
Definition onehot_payment (req : PredictRequest) (row : gmap string Q)
  : gmap string Q :=
  let pm := strip (payment_method req) in
  let row := zero_fill
    ["PaymentMethod_Bank transfer (automatic)";
     "PaymentMethod_Credit card (automatic)";
     "PaymentMethod_Electronic check"; "PaymentMethod_Mailed check"] row in
  if str_in "Bank transfer" pm || str_in "automatic" pm && str_in "Bank" pm
  then <["PaymentMethod_Bank transfer (automatic)" := 1%Q]> row
  else if str_in "Credit card" pm || str_in "Credit card (automatic)" pm
  then <["PaymentMethod_Credit card (automatic)" := 1%Q]> row
  else if str_in "Electronic" pm
  then <["PaymentMethod_Electronic check" := 1%Q]> row
  else if str_in "Mailed" pm
  then <["PaymentMethod_Mailed check" := 1%Q]> row
  else <["PaymentMethod_Electronic check" := 1%Q]> row.

(** [# One-hot: MultipleLines] *)
Definition onehot_multiple_lines (req : PredictRequest)
    (row : gmap string Q) : gmap string Q :=
  let row := zero_fill
    ["MultipleLines_No"; "MultipleLines_No phone service";
     "MultipleLines_Yes"] row in
  let ml := lower (strip (multiple_lines req)) in
  if str_in "no phone" ml
  then <["MultipleLines_No phone service" := 1%Q]> row
  else if String.eqb ml "yes"
  then <["MultipleLines_Yes" := 1%Q]> row
  else <["MultipleLines_No" := 1%Q]> row.

(** [# One-hot: tenure_group] *)
Definition onehot_tenure_group (tenure_group : string)
    (row : gmap string Q) : gmap string Q :=
  let row := zero_fill
    ["tenure_group_0-12"; "tenure_group_13-24"; "tenure_group_25-48";
     "tenure_group_49-60"; "tenure_group_60+"] row in
  <["tenure_group_" +:+ tenure_group := 1%Q]> row.

(** [# One-hot: monthly_charges_bucket] *)
Definition onehot_monthly_bucket (monthly_bucket : string)
    (row : gmap string Q) : gmap string Q :=
  let row := zero_fill
    ["monthly_charges_bucket_low"; "monthly_charges_bucket_medium";
     "monthly_charges_bucket_high"] row in
  <["monthly_charges_bucket_" +:+ monthly_bucket := 1%Q]> row.

(** [build_feature_row]: the dict literal, then the six one-hot blocks
    in the order of the source, each updating the same dict. *)
Definition build_feature_row (req : PredictRequest) (q33 q66 : Q)
  : gmap string Q :=
  let tenure_group := _bucket_tenure (tenure req) in
  let monthly_bucket := _bucket_monthly (monthly_charges req) q33 q66 in
  onehot_monthly_bucket monthly_bucket (
  onehot_tenure_group tenure_group (
  onehot_multiple_lines req (
  onehot_payment req (
  onehot_internet req (
  onehot_contract req (
  base_row req)))))).

(** [sklearn.preprocessing.StandardScaler] after fitting: one mean and
    one scale per fitted feature. *)
Record StandardScaler : Type := {
  mean_ : list Q;
  scale_ : list Q
}.

(** [scaler.transform] on one sample: [(x - mean_) / scale_] feature by
    feature; a sample whose width differs from the fitted one is refused
    with a [ValueError].  (sklearn refuses NaN and infinities too; the
    numbers of the embedding are never either.) *)
Definition transform (scaler : StandardScaler) (x : list Q)
  : result (list Q) :=
  if (length x =? length (mean_ scaler))%nat
     && (length x =? length (scale_ scaler))%nat
  then Ok (zip_with (fun v ms => ((v - fst ms) / snd ms)%Q) x
             (zip (mean_ scaler) (scale_ scaler)))
  else Raise (ValueError "X has a different number of features").

(** [app_state]: the artifacts [lifespan] loads at startup, [None]
    before.  The model is used through [predict_proba(X)[0, 1]] only. *)
Record AppState : Type := {
  model : option (list Q → Q);
  scaler : option StandardScaler;
  feature_columns : option (list string);
  q33 : option Q;
  q66 : option Q
}.

Definition numerical_cols : list string :=
  ["tenure"; "MonthlyCharges"; "TotalCharges"; "total_spend"].

(** [lst.index(c)] *)
Fixpoint index (c : string) (l : list string) : option nat :=
  match l with
  | [] => None
  | x :: l' => if String.eqb x c then Some 0%nat else S <$> index c l'
  end.

(** [row[key]] *)
Definition getitem (row : gmap string Q) (key : string) : result Q :=
  match row !! key with
  | Some v => Ok v
  | None => Raise (KeyError key)
  end.

(** The loop of [predict] that fills [X_list]: one entry per manifest
    column, the scaled value for a numerical column and [row.get(c, 0)]
    for any other. *)
Definition assemble (feature_columns : list string) (scaled_num : list Q)
    (row : gmap string Q) : list Q :=
  map (fun c =>
         match index c numerical_cols with
         | Some i => nth i scaled_num 0%Q
         | None => default 0%Q (row !! c)
         end) feature_columns.

(** [round(x)] to an integer: ties go to the even neighbour. *)
Definition round_half_even (x : Q) : Z :=
  let f := Qfloor x in
  match (x - inject_Z f ?= 1 # 2)%Q with
  | Lt => f
  | Gt => (f + 1)%Z
  | Eq => if Z.even f then f else (f + 1)%Z
  end.

(** [round(x, 2)] *)
Definition round2 (x : Q) : Q :=
  (inject_Z (round_half_even (x * 100)) / 100)%Q.

Definition prediction_of (proba : Q) : string :=
  if Qle_bool (1 # 2) proba then "Likely to Churn" else "Not Likely".

(** The doubles Python reads the literals [0.2], [0.4], [0.6] and [0.8]
    as: a 53-bit mantissa over a power of two (2^55, 2^54, 2^53, 2^53). *)
Definition float_0_2 : Q := 7205759403792794 # 36028797018963968.
Definition float_0_4 : Q := 7205759403792794 # 18014398509481984.
Definition float_0_6 : Q := 5404319552844595 # 9007199254740992.
Definition float_0_8 : Q := 7205759403792794 # 9007199254740992.

Definition confidence_of (proba : Q) : string :=
  if Qle_bool float_0_8 proba || Qle_bool proba float_0_2 then "High"
  else if Qle_bool float_0_6 proba || Qle_bool proba float_0_4 then "Medium"
  else "Low".

(** [build_feature_row(request, q33, q66)] on the thresholds as the
    state holds them.  A threshold that is still [None] makes the
    comparison of [_bucket_monthly] that reaches it raise a [TypeError];
    the second threshold is not reached when the charge is at most the
    first. *)
Definition build_feature_row_from (request : PredictRequest)
    (q33 q66 : option Q) : result (gmap string Q) :=
  match q33, q66 with
  | Some q33, Some q66 => Ok (build_feature_row request q33 q66)
  | Some q33, None =>
      if Qle_bool (monthly_charges request) q33
      then Ok (build_feature_row request q33 q33)
      else Raise (TypeError "'<=' not supported between 'float' and 'NoneType'")
  | None, _ =>
      Raise (TypeError "'<=' not supported between 'float' and 'NoneType'")
  end.

(** The first half of [predict]: the guard on the loaded artifacts and
    the assembly of the vector [X] handed to the model. *)
Definition predict_vector (app_state : AppState) (request : PredictRequest)
  : result (list Q) :=
  match model app_state, scaler app_state, feature_columns app_state with
  | Some _, Some scaler, Some feature_columns =>
      row ← build_feature_row_from request (q33 app_state) (q66 app_state);
      a ← getitem row "tenure";
      b ← getitem row "MonthlyCharges";
      c ← getitem row "TotalCharges";
      d ← getitem row "total_spend";
      scaled_num ← transform scaler [a; b; c; d];
      Ok (assemble feature_columns scaled_num row)
  | _, _, _ => Raise (HTTPException 503 "Model not loaded")
  end.

(** [POST /predict] *)
Definition predict (app_state : AppState) (request : PredictRequest)
  : result PredictResponse :=
  X ← predict_vector app_state request;
  match model app_state with
  | Some predict_proba =>
      let proba := predict_proba X in
      Ok {| churn_probability := round2 proba;
            prediction := prediction_of proba;
            confidence := confidence_of proba |}
  | None => Raise (HTTPException 503 "Model not loaded")
  end.

(* ------------------------------------------------------------------ *)
(** ** pandas: the part of the DataFrame interface the pipeline uses *)

(** A column: [object] dtype (strings), a numeric dtype, or the
    [category] dtype [pd.cut] returns (its categories, in order, and one
    label per row).  [None] is a missing value (NaN). *)
Inductive Series : Type :=
| ObjectS (vals : list (option string))
| NumS (vals : list (option Q))
| CatS (cats : list string) (vals : list (option string)).

(** Columns in order, each with its name. *)
Definition DataFrame : Type := list (string * Series).

Definition columns (df : DataFrame) : list string := map fst df.

(** [name in df.columns] *)
Definition has_column (name : string) (df : DataFrame) : bool :=
  existsb (String.eqb name) (columns df).

Fixpoint df_get (name : string) (df : DataFrame) : option Series :=
  match df with
  | [] => None
  | (n, s) :: df' => if String.eqb n name then Some s else df_get name df'
  end.

(** [df[name]] *)
Definition getcol (df : DataFrame) (name : string) : result Series :=
  match df_get name df with
  | Some s => Ok s
  | None => Raise (KeyError name)
  end.

(** [df[name] = s]: an existing column is replaced where it stands, a
    new one is appended. *)
Fixpoint df_set (name : string) (s : Series) (df : DataFrame) : DataFrame :=
  match df with
  | [] => [(name, s)]
  | (n, s0) :: df' =>
      if String.eqb n name then (n, s) :: df'
      else (n, s0) :: df_set name s df'
  end.

(** [df.drop(columns=names)] for names that are present. *)
Definition df_drop (names : list string) (df : DataFrame) : DataFrame :=
  List.filter (fun c => negb (existsb (String.eqb (fst c)) names)) df.

(** The numeric cell of a column at a row, when there is one. *)
Definition num_at (s : Series) (i : nat) : option Q :=
  match s with
  | NumS vals => mjoin (vals !! i)
  | _ => None
  end.

(** [(s == lit).astype(int)] *)
Definition eq_astype_int (lit : string) (s : Series) : Series :=
  match s with
  | ObjectS vals | CatS _ vals =>
      NumS (map (fun v => Some (b2q (bool_decide (v = Some lit)))) vals)
  | NumS vals => NumS (map (fun _ => Some 0%Q) vals)
  end.

(** [a * b], row by row; a missing operand gives a missing product. *)
Definition mul_series (a b : Series) : result Series :=
  match a, b with
  | NumS xs, NumS ys =>
      Ok (NumS (zip_with (fun x y =>
                  match x, y with
                  | Some u, Some v => Some (u * v)%Q
                  | _, _ => None
                  end) xs ys))
  | _, _ => Raise (TypeError "can't multiply sequence by non-int")
  end.

Fixpoint insert_sorted_q (x : Q) (l : list Q) : list Q :=
  match l with
  | [] => [x]
  | y :: l' => if Qle_bool x y then x :: l else y :: insert_sorted_q x l'
  end.

(** The values present in a numeric column, ascending. *)
Definition sorted_present (vals : list (option Q)) : list Q :=
  foldr (fun v acc => match v with
                      | Some x => insert_sorted_q x acc
                      | None => acc
                      end) [] vals.

(** [s.median()]: missing values are skipped; NaN when none is left. *)
Definition median (s : Series) : option Q :=
  match s with
  | NumS vals =>
      let xs := sorted_present vals in
      let n := length xs in
      if (n =? 0)%nat then None
      else if Nat.odd n then xs !! (n / 2)%nat
      else match xs !! (n / 2 - 1)%nat, xs !! (n / 2)%nat with
           | Some a, Some b => Some ((a + b) / 2)%Q
           | _, _ => None
           end
  | _ => None
  end.

(** [s.fillna(v)]; filling with NaN changes nothing. *)
Definition fillna (v : option Q) (s : Series) : Series :=
  match s, v with
  | NumS vals, Some x => NumS (map (fun c => Some (default x c)) vals)
  | _, _ => s
  end.

(** [s.quantile(q)] with the default linear interpolation between the
    two nearest order statistics; missing values are skipped.  On a
    column with no value pandas returns NaN, and [pd.cut] then refuses
    the NaN bin edges; the model raises that [ValueError] here. *)
Definition quantile (q : Q) (s : Series) : result Q :=
  match s with
  | NumS vals =>
      let xs := sorted_present vals in
      let pos := (q * inject_Z (Z.of_nat (length xs) - 1))%Q in
      let lo := Z.to_nat (Qfloor pos) in
      let hi := Z.to_nat (Qceiling pos) in
      match xs !! lo, xs !! hi with
      | Some a, Some b => Ok (a + (b - a) * (pos - inject_Z (Qfloor pos)))%Q
      | _, _ => Raise (ValueError "Bin edges must be unique")
      end
  | _ => Raise (TypeError "quantile of a non-numeric column")
  end.

(** A bin edge: a number or one of [-np.inf], [np.inf]. *)
Inductive edge : Type := NegInf | Fin (q : Q) | PosInf.

Definition edge_ltb (a b : edge) : bool :=
  match a, b with
  | NegInf, NegInf => false
  | NegInf, _ => true
  | Fin x, Fin y => negb (Qle_bool y x)
  | Fin _, PosInf => true
  | _, _ => false
  end.

(** [lo < x] *)
Definition above (lo : edge) (x : Q) : bool := edge_ltb lo (Fin x).
(** [x < hi] *)
Definition below (x : Q) (hi : edge) : bool := edge_ltb (Fin x) hi.

Fixpoint strictly_increasing (bins : list edge) : bool :=
  match bins with
  | a :: ((b :: _) as rest) => edge_ltb a b && strictly_increasing rest
  | _ => true
  end.

(** The label of the first bin that holds [x]: bins are [(lo, hi]] when
    [right] and [[lo, hi)] otherwise. *)
Fixpoint find_bin (right : bool) (bins : list edge) (labels : list string)
    (x : Q) : option string :=
  match bins, labels with
  | lo :: ((hi :: _) as rest), lab :: labels' =>
      if (if right then above lo x && negb (above hi x)
          else negb (below x lo) && below x hi)
      then Some lab
      else find_bin right rest labels' x
  | _, _ => None
  end.

(** [pd.cut(s, bins=bins, labels=labels, right=right)] for a list of bin
    edges: edges that do not strictly increase are refused (a decreasing
    pair with "bins must increase monotonically", a repeated edge with
    "Bin edges must be unique", as [duplicates] defaults to ['raise']);
    a value outside every bin, or a missing one, gets no label. *)
Definition pd_cut (s : Series) (bins : list edge) (labels : list string)
    (right : bool) : result Series :=
  if negb (strictly_increasing bins)
  then Raise (ValueError "bins must increase monotonically and be unique")
  else if negb (length labels + 1 =? length bins)%nat
  then Raise (ValueError "Bin labels must be one fewer than the number of bin edges")
  else match s with
       | NumS vals =>
           Ok (CatS labels
                 (map (fun v => x ← v; find_bin right bins labels x) vals))
       | _ => Raise (TypeError "pd.cut of a non-numeric column")
       end.

Fixpoint insert_sorted (s : string) (l : list string) : list string :=
  match l with
  | [] => [s]
  | x :: l' =>
      match String.compare s x with
      | Lt => s :: l
      | Eq => l
      | Gt => x :: insert_sorted s l'
      end
  end.

(** The distinct values present in a column of strings, sorted. *)
Definition sorted_unique (vals : list (option string)) : list string :=
  foldr (fun v acc => match v with
                      | Some s => insert_sorted s acc
                      | None => acc
                      end) [] vals.

(** The indicator columns [pd.get_dummies] makes of one column: one per
    category, named [<column>_<category>], 1 where the row holds that
    category and 0 elsewhere (a missing value gives a row of zeros).  An
    [object] column has the sorted values it holds for categories, a
    [category] column all its categories, used or not. *)
Definition dummies (name : string) (s : Series) : DataFrame :=
  let mk cats vals :=
    map (fun cat =>
           (name +:+ "_" +:+ cat,
            NumS (map (fun v => Some (b2q (bool_decide (v = Some cat)))) vals)))
        cats in
  match s with
  | ObjectS vals => mk (sorted_unique vals) vals
  | CatS cats vals => mk cats vals
  | NumS _ => []
  end.

(** [pd.get_dummies(df, columns=to_encode, drop_first=False, dtype=int)]:
    the other columns as they stand, then the indicator columns of each
    encoded column, in the order of [to_encode]. *)
Definition get_dummies (df : DataFrame) (to_encode : list string)
  : DataFrame :=
  (df_drop to_encode df
   ++ concat (map (fun c => match df_get c df with
                            | Some s => dummies c s
                            | None => []
                            end) to_encode))%list.

(* ------------------------------------------------------------------ *)
(** ** src/preprocessing.py *)

Section Cleaning.

(** [pd.to_numeric]'s reading of one string, [None] when it is not a
    number. *)
Variable parse_float : string → option Q.

(** [pd.to_numeric(s, errors="coerce")] *)
Definition to_numeric (s : Series) : Series :=
  match s with
  | ObjectS vals | CatS _ vals => NumS (map (fun v => v ≫= parse_float) vals)
  | NumS vals => NumS vals
  end.

(** [load_and_clean_data], from the frame [pd.read_csv] returned. *)
Definition load_and_clean_data (df : DataFrame) : DataFrame :=
  let df := if has_column "customerID" df
            then df_drop ["customerID"] df else df in
  match df_get "TotalCharges" df with
  | Some s =>
      let s := to_numeric s in
      let median_total := median s in
      df_set "TotalCharges" (fillna median_total s) df
  | None => df
  end.

End Cleaning.

Definition encode_target (df : DataFrame) : result DataFrame :=
  match df_get "Churn" df with
  | None => Raise (ValueError "Target column 'Churn' not found")
  | Some s => Ok (df_set "Churn" (eq_astype_int "Yes" s) df)
  end.

Definition bins_tenure : list edge :=
  [Fin 0; Fin 13; Fin 25; Fin 49; Fin 61; PosInf].
Definition labels_tenure : list string :=
  ["0-12"; "13-24"; "25-48"; "49-60"; "60+"].

(** [pd.cut(df["MonthlyCharges"], bins=[-np.inf, q33, q66, np.inf],
    labels=["low", "medium", "high"])]; [right] defaults to [True]. *)
Definition cut_monthly (s : Series) (q33 q66 : Q) : result Series :=
  pd_cut s [NegInf; Fin q33; Fin q66; PosInf] ["low"; "medium"; "high"] true.

(** [add_engineered_features] with the computation of the two
    monthly-charge thresholds left to [thresholds]. *)
Definition add_engineered_features_from
    (thresholds : Series → result (Q * Q)) (df : DataFrame)
  : result DataFrame :=
  tenure ← getcol df "tenure";
  tenure_group ← pd_cut tenure bins_tenure labels_tenure false;
  let df := df_set "tenure_group" tenure_group df in
  mc ← getcol df "MonthlyCharges";
  q ← thresholds mc;
  bucket ← cut_monthly mc (fst q) (snd q);
  let df := df_set "monthly_charges_bucket" bucket df in
  t ← getcol df "tenure";
  m ← getcol df "MonthlyCharges";
  total_spend ← mul_series t m;
  Ok (df_set "total_spend" total_spend df).

(** [add_engineered_features]: the thresholds are the 0.33 and 0.66
    quantiles of the frame's own [MonthlyCharges]. *)
Definition add_engineered_features : DataFrame → result DataFrame :=
  add_engineered_features_from
    (fun mc => q33 ← quantile (33 # 100) mc;
               q66 ← quantile (66 # 100) mc;
               Ok (q33, q66)).

(** The same stage at given thresholds. *)
Definition add_engineered_features_at (q33 q66 : Q)
  : DataFrame → result DataFrame :=
  add_engineered_features_from (fun _ => Ok (q33, q66)).

Definition binary_cols : list string :=
  ["gender"; "Partner"; "Dependents"; "PhoneService"; "PaperlessBilling";
   "OnlineSecurity"; "OnlineBackup"; "DeviceProtection"; "TechSupport";
   "StreamingTV"; "StreamingMovies"].

(** [set(s.dropna().unique()).issubset({"Yes", "No"})] *)
Definition only_yes_no (s : Series) : bool :=
  match s with
  | ObjectS vals | CatS _ vals =>
      forallb (fun v => match v with
                        | Some x => String.eqb x "Yes" || String.eqb x "No"
                        | None => true
                        end) vals
  | NumS vals => forallb (fun v => match v with
                                   | Some _ => false
                                   | None => true
                                   end) vals
  end.

Definition encode_binary_columns (df : DataFrame) : DataFrame :=
  foldl (fun df col =>
           match df_get col df with
           | None => df
           | Some s =>
               if only_yes_no s
               then df_set col (eq_astype_int "Yes" s) df
               else df_set col (eq_astype_int "Yes" s) df
           end) df binary_cols.

Definition categorical_cols : list string :=
  ["Contract"; "InternetService"; "PaymentMethod"; "MultipleLines";
   "tenure_group"; "monthly_charges_bucket"].

(** [df[c].dtype in ("object", "category")] *)
Definition is_categorical (s : Series) : bool :=
  match s with
  | ObjectS _ | CatS _ _ => true
  | NumS _ => false
  end.

Definition one_hot_encode_categorical (df : DataFrame) : DataFrame :=
  let to_encode :=
    List.filter (fun c => match df_get c df with
                     | Some s => is_categorical s
                     | None => false
                     end) categorical_cols in
  match to_encode with
  | [] => df
  | _ => get_dummies df to_encode
  end.

(** Steps 1 to 5 of [preprocess]: clean, encode the target, engineer,
    encode the binary columns, one-hot encode; scaling comes after. *)
Definition preprocess_encoded (parse_float : string → option Q)
    (raw : DataFrame) : result DataFrame :=
  let df := load_and_clean_data parse_float raw in
  df ← encode_target df;
  df ← add_engineered_features df;
  let df := encode_binary_columns df in
  Ok (one_hot_encode_categorical df).

(** The same steps with the engineering stage at given thresholds. *)
Definition preprocess_encoded_at (parse_float : string → option Q)
    (q33 q66 : Q) (raw : DataFrame) : result DataFrame :=
  let df := load_and_clean_data parse_float raw in
  df ← encode_target df;
  df ← add_engineered_features_at q33 q66 df;
  let df := encode_binary_columns df in
  Ok (one_hot_encode_categorical df).

(** The thresholds [lifespan] leaves in [app_state]: the same two
    quantiles, of the [MonthlyCharges] of the cleaned file. *)
Definition lifespan_thresholds (parse_float : string → option Q)
    (raw : DataFrame) : result (Q * Q) :=
  let df := load_and_clean_data parse_float raw in
  mc ← getcol df "MonthlyCharges";
  q33 ← quantile (33 # 100) mc;
  q66 ← quantile (66 # 100) mc;
  Ok (q33, q66).

(** [get_feature_matrix_and_target] *)
Definition get_feature_matrix_and_target (df : DataFrame)
  : result (DataFrame * Series) :=
  match df_get "Churn" df with
  | None => Raise (ValueError "Churn column not found")
  | Some y => Ok (df_drop ["Churn"] df, y)
  end.

(* ------------------------------------------------------------------ *)
(** ** The training table *)

(** One record of the dataset the pipeline is written for, a column of
    [data/churn.csv] per field.  [TotalCharges] is the text of the file:
    it is blank for some records, so [pd.read_csv] keeps the column as
    strings. *)
Record TelcoRow : Type := {
  c_customerID : string;
  c_gender : string;
  c_SeniorCitizen : Z;
  c_Partner : string;
  c_Dependents : string;
  c_tenure : Z;
  c_PhoneService : string;
  c_MultipleLines : string;
  c_InternetService : string;
  c_OnlineSecurity : string;
  c_OnlineBackup : string;
  c_DeviceProtection : string;
  c_TechSupport : string;
  c_StreamingTV : string;
  c_StreamingMovies : string;
  c_Contract : string;
  c_PaperlessBilling : string;
  c_PaymentMethod : string;
  c_MonthlyCharges : Q;
  c_TotalCharges : string;
  c_Churn : string
}.

Definition str_col (f : TelcoRow → string) (t : list TelcoRow) : Series :=
  ObjectS (map (fun r => Some (f r)) t).
Definition int_col (f : TelcoRow → Z) (t : list TelcoRow) : Series :=
  NumS (map (fun r => Some (inject_Z (f r))) t).
Definition float_col (f : TelcoRow → Q) (t : list TelcoRow) : Series :=
  NumS (map (fun r => Some (f r)) t).

(** The frame [pd.read_csv] makes of such a table. *)
Definition read_csv (t : list TelcoRow) : DataFrame :=
  [("customerID", str_col c_customerID t);
   ("gender", str_col c_gender t);
   ("SeniorCitizen", int_col c_SeniorCitizen t);
   ("Partner", str_col c_Partner t);
   ("Dependents", str_col c_Dependents t);
   ("tenure", int_col c_tenure t);
   ("PhoneService", str_col c_PhoneService t);
   ("MultipleLines", str_col c_MultipleLines t);
   ("InternetService", str_col c_InternetService t);
   ("OnlineSecurity", str_col c_OnlineSecurity t);
   ("OnlineBackup", str_col c_OnlineBackup t);
   ("DeviceProtection", str_col c_DeviceProtection t);
   ("TechSupport", str_col c_TechSupport t);
   ("StreamingTV", str_col c_StreamingTV t);
   ("StreamingMovies", str_col c_StreamingMovies t);
   ("Contract", str_col c_Contract t);
   ("PaperlessBilling", str_col c_PaperlessBilling t);
   ("PaymentMethod", str_col c_PaymentMethod t);
   ("MonthlyCharges", float_col c_MonthlyCharges t);
   ("TotalCharges", str_col c_TotalCharges t);
   ("Churn", str_col c_Churn t)].

(** The request that carries the attribute values of a record. *)
Definition request_of_row (r : TelcoRow) : PredictRequest :=
  {| tenure := c_tenure r;
     monthly_charges := c_MonthlyCharges r;
     contract := c_Contract r;
     internet_service := c_InternetService r;
     payment_method := c_PaymentMethod r;
     paperless_billing := c_PaperlessBilling r;
     tech_support := c_TechSupport r;
     online_security := c_OnlineSecurity r;
     gender := c_gender r;
     senior_citizen := c_SeniorCitizen r;
     partner := c_Partner r;
     dependents := c_Dependents r;
     phone_service := c_PhoneService r;
     online_backup := c_OnlineBackup r;
     device_protection := c_DeviceProtection r;
     streaming_tv := c_StreamingTV r;
     streaming_movies := c_StreamingMovies r;
     multiple_lines := c_MultipleLines r |}.

(* ------------------------------------------------------------------ *)
(** ** Vocabulary of the statements *)

(** Keys of one family: a prefix followed by a category. *)
Definition family (p : string) (cats : list string) : list string :=
  map (String.append p) cats.

(** The keys of the dict literal of [build_feature_row]. *)
Definition base_keys : list string :=
  ["gender"; "SeniorCitizen"; "Partner"; "Dependents"; "tenure";
   "PhoneService"; "OnlineSecurity"; "OnlineBackup"; "DeviceProtection";
   "TechSupport"; "StreamingTV"; "StreamingMovies"; "PaperlessBilling";
   "MonthlyCharges"; "TotalCharges"; "total_spend"].

(** The categories whose indicator columns [build_feature_row] knows. *)
Definition contract_cats : list string :=
  ["Month-to-month"; "One year"; "Two year"].
Definition internet_cats : list string := ["DSL"; "Fiber optic"; "No"].
Definition payment_cats : list string :=
  ["Bank transfer (automatic)"; "Credit card (automatic)";
   "Electronic check"; "Mailed check"].
Definition multiple_lines_cats : list string :=
  ["No"; "No phone service"; "Yes"].
Definition monthly_cats : list string := ["low"; "medium"; "high"].

(** The payment-method fallback policy as the specification words it:
    "Bank transfer" or "automatic"+"Bank" gives bank-transfer, "Credit
    card" credit-card, "Electronic" electronic-check, "Mailed"
    mailed-check, anything else electronic-check. *)
Definition payment_policy (pm : string) : string :=
  if str_in "Bank transfer" pm || str_in "automatic" pm && str_in "Bank" pm
  then "Bank transfer (automatic)"
  else if str_in "Credit card" pm then "Credit card (automatic)"
  else if str_in "Electronic" pm then "Electronic check"
  else if str_in "Mailed" pm then "Mailed check"
  else "Electronic check".

(** The multiple-lines category the inference encoder selects. *)
Definition multiple_lines_choice (ml : string) : string :=
  if str_in "no phone" ml then "No phone service"
  else if String.eqb ml "yes" then "Yes"
  else "No".

(** The artifacts are loaded as [lifespan] leaves them after a training
    run: a model, the manifest, both thresholds, and a scaler fitted on
    the four numerical columns. *)
Definition loaded (app_state : AppState) : Prop :=
  is_Some (model app_state)
  ∧ is_Some (feature_columns app_state)
  ∧ is_Some (q33 app_state) ∧ is_Some (q66 app_state)
  ∧ ∃ sc, scaler app_state = Some sc
          ∧ length (mean_ sc) = 4%nat ∧ length (scale_ sc) = 4%nat.

(** The scaled value of a numerical column: [(x - mean) / scale] with
    the scaler's statistics at the column's place in [numerical_cols]. *)
Definition scaled (sc : StandardScaler) (i : nat) (x : Q) : Q :=
  ((x - nth i (mean_ sc) 0) / nth i (scale_ sc) 0)%Q.

(** The entry of the model's input vector for one manifest column. *)
Definition vector_entry (sc : StandardScaler) (row : gmap string Q)
    (c : string) : Q :=
  match index c numerical_cols with
  | Some i => scaled sc i (default 0%Q (row !! c))
  | None => default 0%Q (row !! c)
  end.

(** One cell of a column. *)
Inductive cell : Type := CStr (s : string) | CNum (q : Q) | CNaN.

Definition cell_at (s : Series) (i : nat) : option cell :=
  match s with
  | ObjectS vals | CatS _ vals =>
      (fun v => match v with Some x => CStr x | None => CNaN end) <$> vals !! i
  | NumS vals =>
      (fun v => match v with Some x => CNum x | None => CNaN end) <$> vals !! i
  end.

(** The cell is the exact string "Yes". *)
Definition is_yes (c : cell) : bool :=
  match c with
  | CStr s => String.eqb s "Yes"
  | _ => false
  end.

(** The training table's [TotalCharges] after cleaning: the text read
    as a number, a blank or malformed one replaced by the median of the
    others. *)
Definition cleaned_total_charges (parse_float : string → option Q)
    (t : list TelcoRow) : Series :=
  let s := to_numeric parse_float (str_col c_TotalCharges t) in
  fillna (median s) s.

(** The frame the pipeline makes of a training table, column by column,
    at thresholds q33 < q66. *)
Definition encoded_frame (parse_float : string → option Q) (q33 q66 : Q)
    (t : list TelcoRow) : DataFrame :=
  ([("gender", eq_astype_int "Yes" (str_col c_gender t));
    ("SeniorCitizen", int_col c_SeniorCitizen t);
    ("Partner", eq_astype_int "Yes" (str_col c_Partner t));
    ("Dependents", eq_astype_int "Yes" (str_col c_Dependents t));
    ("tenure", int_col c_tenure t);
    ("PhoneService", eq_astype_int "Yes" (str_col c_PhoneService t));
    ("OnlineSecurity", eq_astype_int "Yes" (str_col c_OnlineSecurity t));
    ("OnlineBackup", eq_astype_int "Yes" (str_col c_OnlineBackup t));
    ("DeviceProtection", eq_astype_int "Yes" (str_col c_DeviceProtection t));
    ("TechSupport", eq_astype_int "Yes" (str_col c_TechSupport t));
    ("StreamingTV", eq_astype_int "Yes" (str_col c_StreamingTV t));
    ("StreamingMovies", eq_astype_int "Yes" (str_col c_StreamingMovies t));
    ("PaperlessBilling", eq_astype_int "Yes" (str_col c_PaperlessBilling t));
    ("MonthlyCharges", float_col c_MonthlyCharges t);
    ("TotalCharges", cleaned_total_charges parse_float t);
    ("Churn", eq_astype_int "Yes" (str_col c_Churn t));
    ("total_spend",
     NumS (map (fun r => Some (inject_Z (c_tenure r) * c_MonthlyCharges r)%Q)
             t))]
   ++ dummies "Contract" (str_col c_Contract t)
   ++ dummies "InternetService" (str_col c_InternetService t)
   ++ dummies "PaymentMethod" (str_col c_PaymentMethod t)
   ++ dummies "MultipleLines" (str_col c_MultipleLines t)
   ++ dummies "tenure_group"
        (CatS labels_tenure
           (map (fun r => find_bin false bins_tenure labels_tenure
                            (inject_Z (c_tenure r))) t))
   ++ dummies "monthly_charges_bucket"
        (CatS monthly_cats
           (map (fun r => Some (_bucket_monthly (c_MonthlyCharges r) q33 q66))
              t)))%list.

(** The words the dataset uses: the values [PredictRequest] documents
    for each field, and for a yes/no service field also the "not
    applicable" values. *)
Definition yes_no_cats : list string :=
  ["Yes"; "No"; "No internet service"; "No phone service"].

Definition in_cats (cats : list string) (s : string) : bool :=
  existsb (String.eqb s) cats.

(** A record whose attribute values are all words of the dataset. *)
Definition canonical_row (r : TelcoRow) : bool :=
  in_cats yes_no_cats (c_Partner r)
  && in_cats yes_no_cats (c_Dependents r)
  && in_cats yes_no_cats (c_PhoneService r)
  && in_cats yes_no_cats (c_OnlineSecurity r)
  && in_cats yes_no_cats (c_OnlineBackup r)
  && in_cats yes_no_cats (c_DeviceProtection r)
  && in_cats yes_no_cats (c_TechSupport r)
  && in_cats yes_no_cats (c_StreamingTV r)
  && in_cats yes_no_cats (c_StreamingMovies r)
  && in_cats yes_no_cats (c_PaperlessBilling r)
  && in_cats contract_cats (c_Contract r)
  && in_cats internet_cats (c_InternetService r)
  && in_cats payment_cats (c_PaymentMethod r)
  && in_cats multiple_lines_cats (c_MultipleLines r).

(** Row [i] of the frame agrees with the dict [row]: every column of
    the frame outside [skip] holds at row [i] the number [row.get(c, 0)]
    gives for the column's name. *)
Definition rows_agree (skip : list string) (df : DataFrame) (i : nat)
    (row : gmap string Q) : Prop :=
  ∀ c s, (c, s) ∈ df → c ∉ skip →
    num_at s i = Some (default 0%Q (row !! c)).

(** Two records in the words of the dataset; the second has the blank
    [TotalCharges] of a new customer. *)
Definition example_customer : TelcoRow :=
  {| c_customerID := "0001-A"; c_gender := "Male"; c_SeniorCitizen := 0;
     c_Partner := "Yes"; c_Dependents := "No"; c_tenure := 2;
     c_PhoneService := "Yes"; c_MultipleLines := "No";
     c_InternetService := "DSL"; c_OnlineSecurity := "Yes";
     c_OnlineBackup := "No"; c_DeviceProtection := "No";
     c_TechSupport := "No"; c_StreamingTV := "No";
     c_StreamingMovies := "No"; c_Contract := "One year";
     c_PaperlessBilling := "Yes"; c_PaymentMethod := "Mailed check";
     c_MonthlyCharges := 50; c_TotalCharges := "105"; c_Churn := "Yes" |}.

Definition example_new_customer : TelcoRow :=
  {| c_customerID := "0002-B"; c_gender := "Female"; c_SeniorCitizen := 1;
     c_Partner := "No"; c_Dependents := "No"; c_tenure := 0;
     c_PhoneService := "No"; c_MultipleLines := "No phone service";
     c_InternetService := "No"; c_OnlineSecurity := "No internet service";
     c_OnlineBackup := "No internet service";
     c_DeviceProtection := "No internet service";
     c_TechSupport := "No internet service";
     c_StreamingTV := "No internet service";
     c_StreamingMovies := "No internet service";
     c_Contract := "Two year"; c_PaperlessBilling := "No";
     c_PaymentMethod := "Electronic check";
     c_MonthlyCharges := 80; c_TotalCharges := " "; c_Churn := "No" |}.

(** A training table of the two. *)
Definition example_table : list TelcoRow :=
  [example_customer; example_new_customer].

(** The first record with its [Partner] typed in lower case: a valid
    request, not in the words of the dataset. *)
Definition example_informal_customer : TelcoRow :=
  {| c_customerID := "0003-C"; c_gender := "Male"; c_SeniorCitizen := 0;
     c_Partner := "yes"; c_Dependents := "No"; c_tenure := 2;
     c_PhoneService := "Yes"; c_MultipleLines := "No";
     c_InternetService := "DSL"; c_OnlineSecurity := "Yes";
     c_OnlineBackup := "No"; c_DeviceProtection := "No";
     c_TechSupport := "No"; c_StreamingTV := "No";
     c_StreamingMovies := "No"; c_Contract := "One year";
     c_PaperlessBilling := "Yes"; c_PaymentMethod := "Mailed check";
     c_MonthlyCharges := 50; c_TotalCharges := "105"; c_Churn := "Yes" |}.

Definition example_informal_table : list TelcoRow :=
  [example_informal_customer; example_new_customer].

(** A reader of numbers that knows the one number of [example_table]. *)
Definition example_parse (s : string) : option Q :=
  if String.eqb s "105" then Some 105%Q else None.

(** A needle whose last character, if any, is not whitespace. *)
Fixpoint ends_solid (n : string) : bool :=
  match n with
  | EmptyString => true
  | String a EmptyString => negb (py_isspace a)
  | String _ n' => ends_solid n'
  end.

(** A needle that begins with a character that is not whitespace. *)
Definition begins_solid (n : string) : bool :=
  match n with
  | EmptyString => false
  | String a _ => negb (py_isspace a)
  end.

(** A request whose multiple-lines value names no indicator column. *)
Definition request_unknown_lines : PredictRequest :=
  {| tenure := 5; monthly_charges := 70; contract := "Month-to-month";
     internet_service := "Fiber optic"; payment_method := "Electronic check";
     paperless_billing := "Yes"; tech_support := "No";
     online_security := "No"; gender := "Male"; senior_citizen := 0;
     partner := "No"; dependents := "No"; phone_service := "Yes";
     online_backup := "No"; device_protection := "No";
     streaming_tv := "No"; streaming_movies := "No";
     multiple_lines := "Maybe" |}.

(** Artifacts for examples: a constant model, an identity scaler, and a
    manifest that names a numerical column, a known indicator and a
    column the row never has. *)
Definition example_state : AppState :=
  {| model := Some (fun _ => (1 # 2)%Q);
     scaler := Some {| mean_ := [0; 0; 0; 0]%Q; scale_ := [1; 1; 1; 1]%Q |};
     feature_columns :=
       Some ["tenure"; "Contract_One year"; "PaymentMethod_Cash"];
     q33 := Some 45%Q;
     q66 := Some 75%Q |}.

(* ------------------------------------------------------------------ *)
(** ** src/preprocessing.py: scaling *)

Section Scaling.

(** [float(s)] on the text of a cell, [None] when it raises. *)
Variable to_float : string → option Q.

(** [StandardScaler().fit(X)]: the statistics sklearn takes of the
    columns of [X]. *)
Variable fit : list (list (option Q)) → StandardScaler.

(** [s.astype(float)]: a numeric column as it is; a column of strings
    cell by cell, with a [ValueError] at the first text that is not a
    number. *)
Definition astype_float (s : Series) : result (list (option Q)) :=
  match s with
  | NumS vals => Ok vals
  | ObjectS vals | CatS _ vals =>
      if forallb (fun v => match v with
                           | Some x => bool_decide (is_Some (to_float x))
                           | None => true
                           end) vals
      then Ok (map (fun v => v ≫= to_float) vals)
      else Raise (ValueError "could not convert string to float")
  end.

(** [df[cols].astype(float)], column by column. *)
Fixpoint numeric_block (df : DataFrame) (cols : list string)
  : result (list (list (option Q))) :=
  match cols with
  | [] => Ok []
  | c :: cols' =>
      s ← getcol df c;
      vals ← astype_float s;
      rest ← numeric_block df cols';
      Ok (vals :: rest)
  end.

(** [scaler.transform(X)] on a block of columns: [(x - mean_) / scale_]
    in each column with that column's statistics, missing cells left
    missing; a block of another width than the fitted one is refused. *)
Definition transform_columns (scaler : StandardScaler)
    (X : list (list (option Q))) : result (list (list (option Q))) :=
  if (length X =? length (mean_ scaler))%nat
     && (length X =? length (scale_ scaler))%nat
  then Ok (zip_with (fun col ms =>
                       map (fun v => (fun x => ((x - fst ms) / snd ms)%Q) <$> v)
                         col)
             X (zip (mean_ scaler) (scale_ scaler)))
  else Raise (ValueError "X has a different number of features").

(** [df[cols] = X] *)
Definition assign_columns (df : DataFrame) (cols : list string)
    (X : list (list (option Q))) : DataFrame :=
  foldl (fun df cx => df_set (fst cx) (NumS (snd cx)) df) df (zip cols X).

(** [scale_numerical_features(df, fit=True)], the call [preprocess]
    makes: the scaler is fitted on the numerical columns the frame has
    and those columns are replaced by their scaled values; a frame with
    none of them is returned as it is, with no scaler. *)
Definition scale_numerical_features (df : DataFrame)
  : result (DataFrame * option StandardScaler) :=
  let existing_num := List.filter (fun c => has_column c df) numerical_cols in
  match existing_num with
  | [] => Ok (df, None)
  | _ =>
      X_num ← numeric_block df existing_num;
      let scaler := fit X_num in
      X_num_scaled ← transform_columns scaler X_num;
      Ok (assign_columns df existing_num X_num_scaled, Some scaler)
  end.

(** [preprocess]: clean, encode the target, engineer, encode, one-hot
    encode, scale; the frame and the fitted scaler. *)
Definition preprocess (parse_float : string → option Q) (raw : DataFrame)
  : result (DataFrame * option StandardScaler) :=
  df ← preprocess_encoded parse_float raw;
  scale_numerical_features df.

End Scaling.

(* ------------------------------------------------------------------ *)
(** ** src/train.py and the start of the service *)

(** [df_results["roc_auc"].idxmax()]: the name of the first row that
    holds the greatest score; [best] is the best row so far. *)
Fixpoint idxmax_from (best : string * Q) (rows : list (string * Q))
  : string * Q :=
  match rows with
  | [] => best
  | r :: rows' =>
      if Qle_bool (snd r) (snd best) then idxmax_from best rows'
      else idxmax_from r rows'
  end.

Definition idxmax (rows : list (string * Q)) : option (string * Q) :=
  match rows with
  | [] => None
  | r :: rows' => Some (idxmax_from r rows')
  end.

(** The choice [main] makes among the three baseline models, in the
    order they are trained, and the tuned XGBoost: the baseline with the
    greatest ROC-AUC, replaced by the tuned model only when that one's
    ROC-AUC is strictly greater. *)
Definition select_final (lr rf xgb tuned : Q) : string * Q :=
  let best := idxmax_from ("Logistic Regression", lr)
                [("Random Forest", rf); ("XGBoost", xgb)] in
  if Qle_bool tuned (snd best) then best else ("XGBoost_tuned", tuned).

(** The state [lifespan] builds from the three artifacts it found on
    disk and the thresholds it computes from the dataset. *)
Definition startup_state (parse_float : string → option Q)
    (predict_proba : list Q → Q) (sc : StandardScaler)
    (manifest : list string) (raw : DataFrame) : result AppState :=
  q ← lifespan_thresholds parse_float raw;
  Ok {| model := Some predict_proba; scaler := Some sc;
        feature_columns := Some manifest;
        q33 := Some (fst q); q66 := Some (snd q) |}.

(* ------------------------------------------------------------------ *)
(** ** Vocabulary of the further properties *)

(** Every key [build_feature_row] writes: the dict literal's, then the
    six families in the order of the source. *)
Definition row_keys : list string :=
  (base_keys
   ++ family "Contract_" contract_cats
   ++ family "InternetService_" internet_cats
   ++ family "PaymentMethod_" payment_cats
   ++ family "MultipleLines_" multiple_lines_cats
   ++ family "tenure_group_" labels_tenure
   ++ family "monthly_charges_bucket_" monthly_cats)%list.

(** The keys whose value is a number of the request rather than a flag. *)
Definition number_keys : list string :=
  ["SeniorCitizen"; "tenure"; "MonthlyCharges"; "TotalCharges"; "total_spend"].

(** The request with [f] applied to every string field. *)
Definition map_strings (f : string → string) (req : PredictRequest)
  : PredictRequest :=
  {| tenure := tenure req;
     monthly_charges := monthly_charges req;
     contract := f (contract req);
     internet_service := f (internet_service req);
     payment_method := f (payment_method req);
     paperless_billing := f (paperless_billing req);
     tech_support := f (tech_support req);
     online_security := f (online_security req);
     gender := f (gender req);
     senior_citizen := senior_citizen req;
     partner := f (partner req);
     dependents := f (dependents req);
     phone_service := f (phone_service req);
     online_backup := f (online_backup req);
     device_protection := f (device_protection req);
     streaming_tv := f (streaming_tv req);
     streaming_movies := f (streaming_movies req);
     multiple_lines := f (multiple_lines req) |}.

(** The request with [f] applied to the fields [build_feature_row]
    lower-cases before it tests them: the yes/no fields, [gender] and
    [multiple_lines]. *)
Definition map_flags (f : string → string) (req : PredictRequest)
  : PredictRequest :=
  {| tenure := tenure req;
     monthly_charges := monthly_charges req;
     contract := contract req;
     internet_service := internet_service req;
     payment_method := payment_method req;
     paperless_billing := f (paperless_billing req);
     tech_support := f (tech_support req);
     online_security := f (online_security req);
     gender := f (gender req);
     senior_citizen := senior_citizen req;
     partner := f (partner req);
     dependents := f (dependents req);
     phone_service := f (phone_service req);
     online_backup := f (online_backup req);
     device_protection := f (device_protection req);
     streaming_tv := f (streaming_tv req);
     streaming_movies := f (streaming_movies req);
     multiple_lines := f (multiple_lines req) |}.

(** A list of numbers in ascending order. *)
Fixpoint ascending (l : list Q) : Prop :=
  match l with
  | [] => True
  | x :: l' => Forall (Qle x) l' ∧ ascending l'
  end.

(** A column of numbers scaled with the statistics of place [j]. *)
Definition scale_cells (sc : StandardScaler) (j : nat)
    (col : list (option Q)) : list (option Q) :=
  map (fun v => scaled sc j <$> v) col.

(** The cells of a numeric column. *)
Definition cells_of (s : Series) : list (option Q) :=
  match s with
  | NumS vals => vals
  | _ => []
  end.

(** The numerical columns of the encoded frame of a training table, in
    the order of [numerical_cols]. *)
Definition numerical_block (parse_float : string → option Q)
    (t : list TelcoRow) : list (list (option Q)) :=
  [map (fun r => Some (inject_Z (c_tenure r))) t;
   map (fun r => Some (c_MonthlyCharges r)) t;
   cells_of (cleaned_total_charges parse_float t);
   map (fun r => Some (inject_Z (c_tenure r) * c_MonthlyCharges r)%Q) t].

(** The frame [preprocess] returns for a training table: the encoded
    frame with its four numerical columns scaled. *)
Definition scaled_frame (sc : StandardScaler)
    (parse_float : string → option Q) (q33 q66 : Q) (t : list TelcoRow)
  : DataFrame :=
  assign_columns (encoded_frame parse_float q33 q66 t) numerical_cols
    (zip_with (scale_cells sc) [0; 1; 2; 3]%nat
       (numerical_block parse_float t)).

(** [example_state] with a model that answers 0.497 to every vector. *)
Definition example_state_below_half : AppState :=
  {| model := Some (fun _ => (497 # 1000)%Q);
     scaler := scaler example_state;
     feature_columns := feature_columns example_state;
     q33 := q33 example_state;
     q66 := q66 example_state |}.

(** The median as it is taken by hand from the numbers in ascending
    order: the middle one, or the mean of the two middle ones when their
    count is even; none when there is no number. *)
Definition middle_of (sorted : list Q) : option Q :=
  let n := length sorted in
  if (n =? 0)%nat then None
  else if Nat.odd n then sorted !! (n / 2)%nat
  else match sorted !! (n / 2 - 1)%nat, sorted !! (n / 2)%nat with
       | Some a, Some b => Some ((a + b) / 2)%Q
       | _, _ => None
       end.


(* ------------------------------------------------------------------ *)
(** * Properties *)

(** ** Arithmetic of the model *)

Lemma Qle_bool_false (x y : Q) : Qle_bool x y = false ↔ (y < x)%Q.
Proof.
  split; intros H.
  - apply Qnot_le_lt. intros Hle. apply Qle_bool_iff in Hle. congruence.
  - destruct (Qle_bool x y) eqn:E; [|reflexivity].
    apply Qle_bool_iff in E. lra.
Qed.

Lemma inject_Z_lt (a b : Z) : (a < b)%Z → (inject_Z a < inject_Z b)%Q.
Proof. intros H. rewrite <- Zlt_Qlt. exact H. Qed.

Lemma inject_Z_le (a b : Z) : (a <= b)%Z → (inject_Z a <= inject_Z b)%Q.
Proof. intros H. rewrite <- Zle_Qle. exact H. Qed.

(** Case analysis on a comparison of rationals, as a tactic. *)
Ltac qcases x y :=
  let E := fresh "E" in
  destruct (Qle_bool x y) eqn:E;
  [apply Qle_bool_iff in E | apply Qle_bool_false in E].

(* ------------------------------------------------------------------ *)
(** ** Tenure buckets *)

Lemma find_bin_tenure (t : Z) :
  (0 <= t)%Z →
  find_bin false bins_tenure labels_tenure (inject_Z t)
  = Some (_bucket_tenure t).
Proof.
  intros Ht. unfold _bucket_tenure, bins_tenure, labels_tenure.
  cbn [find_bin below above edge_ltb negb andb].
  assert (H0 : Qle_bool 0 (inject_Z t) = true).
  { apply Qle_bool_iff. change 0%Q with (inject_Z 0). now apply inject_Z_le. }
  assert (Hb : ∀ k : Z, Qle_bool (inject_Z k) (inject_Z t) = negb (t <? k)%Z).
  { intros k. destruct (Z.ltb_spec t k) as [Hlt|Hge]; cbn.
    - apply Qle_bool_false. now apply inject_Z_lt.
    - apply Qle_bool_iff. now apply inject_Z_le. }
  rewrite H0. cbn [negb andb].
  change 13%Q with (inject_Z 13). change 25%Q with (inject_Z 25).
  change 49%Q with (inject_Z 49). change 61%Q with (inject_Z 61).
  rewrite !Hb.
  destruct (t <? 13)%Z eqn:E13; cbn; [reflexivity|].
  destruct (t <? 25)%Z eqn:E25; cbn; [reflexivity|].
  destruct (t <? 49)%Z eqn:E49; cbn; [reflexivity|].
  destruct (t <? 61)%Z eqn:E61; cbn; reflexivity.
Qed.

Lemma bucket_tenure_bins (t : Z) :
  (_bucket_tenure t = "0-12" ↔ (t < 13)%Z)
  ∧ (_bucket_tenure t = "13-24" ↔ (13 <= t < 25)%Z)
  ∧ (_bucket_tenure t = "25-48" ↔ (25 <= t < 49)%Z)
  ∧ (_bucket_tenure t = "49-60" ↔ (49 <= t < 61)%Z)
  ∧ (_bucket_tenure t = "60+" ↔ (61 <= t)%Z).
Proof.
  unfold _bucket_tenure.
  destruct (Z.ltb_spec t 13); [|destruct (Z.ltb_spec t 25);
    [|destruct (Z.ltb_spec t 49); [|destruct (Z.ltb_spec t 61)]]];
    repeat split; intros; try lia; try discriminate; reflexivity.
Qed.

(* ------------------------------------------------------------------ *)
(** ** Monthly-charge buckets *)

Lemma bucket_monthly_spec (v q33 q66 : Q) :
  (q33 <= q66)%Q →
  ((v <= q33)%Q → _bucket_monthly v q33 q66 = "low")
  ∧ ((q33 < v)%Q ∧ (v <= q66)%Q → _bucket_monthly v q33 q66 = "medium")
  ∧ ((q66 < v)%Q → _bucket_monthly v q33 q66 = "high").
Proof.
  intros Hq. unfold _bucket_monthly.
  qcases v q33; qcases v q66; repeat split; intros; try reflexivity; lra.
Qed.

Lemma find_bin_monthly (v q33 q66 : Q) :
  find_bin true [NegInf; Fin q33; Fin q66; PosInf] ["low"; "medium"; "high"] v
  = Some (_bucket_monthly v q33 q66).
Proof.
  unfold _bucket_monthly. cbn [find_bin above edge_ltb andb negb].
  rewrite !negb_involutive.
  qcases v q33; cbn; [reflexivity|].
  qcases v q66; reflexivity.
Qed.

Lemma cut_monthly_ok (vals : list (option Q)) (q33 q66 : Q) :
  (q33 < q66)%Q →
  cut_monthly (NumS vals) q33 q66
  = Ok (CatS ["low"; "medium"; "high"]
          (map (fun v => (fun x => _bucket_monthly x q33 q66) <$> v) vals)).
Proof.
  intros Hq. unfold cut_monthly, pd_cut.
  cbn [strictly_increasing edge_ltb andb].
  replace (Qle_bool q66 q33) with false
    by (symmetry; now apply Qle_bool_false).
  cbn. do 2 f_equal. apply map_ext. intros [x|]; [|reflexivity].
  cbn. apply find_bin_monthly.
Qed.

Lemma cut_monthly_raises (s : Series) (q33 q66 : Q) :
  (q66 <= q33)%Q →
  cut_monthly s q33 q66
  = Raise (ValueError "bins must increase monotonically and be unique").
Proof.
  intros Hq. unfold cut_monthly, pd_cut.
  cbn [strictly_increasing edge_ltb andb].
  replace (Qle_bool q66 q33) with true
    by (symmetry; now apply Qle_bool_iff).
  reflexivity.
Qed.

(* ------------------------------------------------------------------ *)
(** ** Strings and keys *)

Lemma startswith_append (p s : string) : startswith p (p +:+ s) = true.
Proof.
  induction p as [|a p IH]; [reflexivity|].
  change (String a p +:+ s) with (String a (p +:+ s)).
  cbn [startswith]. now rewrite Ascii.eqb_refl, IH.
Qed.

Lemma append_inj (p a b : string) : p +:+ a = p +:+ b → a = b.
Proof.
  induction p as [|c p IH]; [auto|].
  change (String c p +:+ a) with (String c (p +:+ a)).
  change (String c p +:+ b) with (String c (p +:+ b)).
  intros H. injection H as H. auto.
Qed.

Lemma eqb_bool_decide (a b : string) : String.eqb a b = bool_decide (a = b).
Proof.
  destruct (String.eqb_spec a b) as [->|Hne].
  - now rewrite bool_decide_eq_true_2.
  - now rewrite bool_decide_eq_false_2.
Qed.

Lemma in_cats_elem (cats : list string) (s : string) :
  in_cats cats s = true ↔ s ∈ cats.
Proof.
  unfold in_cats. rewrite existsb_exists, list_elem_of_In. split.
  - intros (x & Hin & Heq). apply String.eqb_eq in Heq. now subst.
  - intros Hin. exists s. split; [exact Hin|apply String.eqb_refl].
Qed.

(** ** Lookups in the feature row *)

Lemma zero_fill_cons (key : string) (keys : list string) (row : gmap string Q) :
  zero_fill (key :: keys) row = zero_fill keys (<[key := 0%Q]> row).
Proof. reflexivity. Qed.

Lemma zero_fill_lookup (keys : list string) (row : gmap string Q) (k : string) :
  zero_fill keys row !! k
  = if bool_decide (k ∈ keys) then Some 0%Q else row !! k.
Proof.
  revert row. induction keys as [|key keys IH]; intros row.
  - cbn. now rewrite bool_decide_eq_false_2 by apply not_elem_of_nil.
  - rewrite zero_fill_cons, IH.
    destruct (decide (k ∈ keys)) as [Hin|Hnin].
    + rewrite !bool_decide_eq_true_2; auto.
      rewrite elem_of_cons. tauto.
    + rewrite (bool_decide_eq_false_2 _ Hnin).
      destruct (decide (k = key)) as [->|Hne].
      * rewrite lookup_insert_eq, bool_decide_eq_true_2; auto.
        rewrite elem_of_cons. tauto.
      * rewrite lookup_insert_ne by auto.
        rewrite bool_decide_eq_false_2; auto.
        rewrite elem_of_cons. tauto.
Qed.

Lemma set_if_present_lookup (key : string) (row : gmap string Q) (k : string) :
  set_if_present key row !! k
  = if bool_decide (key = k) then (fun _ => 1%Q) <$> row !! k else row !! k.
Proof.
  unfold set_if_present.
  destruct (decide (key = k)) as [->|Hne].
  - rewrite bool_decide_eq_true_2 by reflexivity.
    destruct (row !! k) eqn:E; cbn.
    + now rewrite lookup_insert_eq.
    + exact E.
  - rewrite bool_decide_eq_false_2 by exact Hne.
    destruct (row !! key); [now rewrite lookup_insert_ne|reflexivity].
Qed.

Lemma elem_of_family (p : string) (cats : list string) (cat : string) :
  p +:+ cat ∈ family p cats ↔ cat ∈ cats.
Proof.
  unfold family. rewrite list_elem_of_In, in_map_iff. split.
  - intros (c & Heq & Hin). apply append_inj in Heq. subst.
    now apply list_elem_of_In.
  - intros Hin. exists cat. split; [reflexivity|now apply list_elem_of_In].
Qed.

Lemma not_elem_of_family (p : string) (cats : list string) (k : string) :
  startswith p k = false → k ∉ family p cats.
Proof.
  intros Hk Hin. unfold family in Hin.
  apply list_elem_of_In, in_map_iff in Hin.
  destruct Hin as (c & <- & _). now rewrite startswith_append in Hk.
Qed.

Section OneHot.

Variables (p : string) (cats : list string) (row : gmap string Q).

(** The dict held no key of the family before the block ran. *)
Hypothesis fresh : ∀ cat, row !! (p +:+ cat) = None.

(** Zero-fill, then [if key in row: row[key] = 1]. *)
Lemma onehot_present_lookup (s cat : string) :
  set_if_present (p +:+ s) (zero_fill (family p cats) row) !! (p +:+ cat)
  = if bool_decide (cat ∈ cats) then Some (b2q (String.eqb s cat)) else None.
Proof.
  rewrite set_if_present_lookup, !zero_fill_lookup, fresh.
  rewrite (bool_decide_ext _ _ (elem_of_family p cats cat)).
  rewrite eqb_bool_decide.
  destruct (decide (s = cat)) as [->|Hne].
  - rewrite (bool_decide_eq_true_2 (cat = cat)) by reflexivity.
    rewrite (bool_decide_eq_true_2 (_ +:+ _ = _)) by reflexivity.
    destruct (bool_decide (cat ∈ cats)); reflexivity.
  - rewrite (bool_decide_eq_false_2 (s = cat)) by exact Hne.
    rewrite bool_decide_eq_false_2
      by (intros H; now apply append_inj in H).
    destruct (bool_decide (cat ∈ cats)); reflexivity.
Qed.

(** Zero-fill, then [row[key] = 1] for a key of the family. *)
Lemma onehot_chosen_lookup (s cat : string) :
  s ∈ cats →
  <[p +:+ s := 1%Q]> (zero_fill (family p cats) row) !! (p +:+ cat)
  = if bool_decide (cat ∈ cats) then Some (b2q (String.eqb s cat)) else None.
Proof.
  intros Hs. rewrite eqb_bool_decide.
  destruct (decide (s = cat)) as [->|Hne].
  - rewrite lookup_insert_eq, !bool_decide_eq_true_2; auto.
  - rewrite lookup_insert_ne by (intros H; now apply append_inj in H).
    rewrite zero_fill_lookup, fresh.
    rewrite (bool_decide_ext _ _ (elem_of_family p cats cat)).
    rewrite (bool_decide_eq_false_2 (s = cat)) by exact Hne.
    destruct (bool_decide (cat ∈ cats)); reflexivity.
Qed.

(** Neither block touches a key outside the family. *)
Lemma onehot_present_frame (s k : string) :
  startswith p k = false →
  set_if_present (p +:+ s) (zero_fill (family p cats) row) !! k = row !! k.
Proof.
  intros Hk. rewrite set_if_present_lookup, zero_fill_lookup.
  rewrite (bool_decide_eq_false_2 (k ∈ _))
    by now apply not_elem_of_family.
  rewrite bool_decide_eq_false_2; [reflexivity|].
  intros <-. now rewrite startswith_append in Hk.
Qed.

End OneHot.

Lemma onehot_chosen_frame (p : string) (cats : list string)
    (row : gmap string Q) (s k : string) :
  startswith p k = false →
  <[p +:+ s := 1%Q]> (zero_fill (family p cats) row) !! k = row !! k.
Proof.
  intros Hk. rewrite lookup_insert_ne.
  - rewrite zero_fill_lookup.
    now rewrite bool_decide_eq_false_2 by now apply not_elem_of_family.
  - intros <-. now rewrite startswith_append in Hk.
Qed.

(** ** The blocks of [build_feature_row] *)

Lemma startswith_prefix (a b s : string) :
  startswith (a +:+ b) s = true → startswith a s = true.
Proof.
  revert s. induction a as [|c a IH]; intros s; [reflexivity|].
  change (String c a +:+ b) with (String c (a +:+ b)).
  destruct s as [|d s]; cbn [startswith]; [discriminate|].
  intros H. apply andb_true_iff in H as [H1 H2].
  rewrite H1. cbn. now apply IH.
Qed.

Lemma str_in_prefix (a b s : string) :
  str_in (a +:+ b) s = true → str_in a s = true.
Proof.
  induction s as [|d s IH]; cbn [str_in]; intros H.
  - apply orb_true_iff in H as [H|H]; [|discriminate].
    apply startswith_prefix in H. now rewrite H.
  - apply orb_true_iff in H as [H|H].
    + apply startswith_prefix in H. now rewrite H.
    + rewrite (IH H). apply orb_true_r.
Qed.

Lemma onehot_contract_family (req : PredictRequest) (row : gmap string Q) :
  onehot_contract req row
  = set_if_present ("Contract_" +:+ strip (contract req))
      (zero_fill (family "Contract_" contract_cats) row).
Proof. reflexivity. Qed.

Lemma onehot_internet_family (req : PredictRequest) (row : gmap string Q) :
  onehot_internet req row
  = set_if_present ("InternetService_" +:+ strip (internet_service req))
      (zero_fill (family "InternetService_" internet_cats) row).
Proof. reflexivity. Qed.

Lemma onehot_payment_family (req : PredictRequest) (row : gmap string Q) :
  onehot_payment req row
  = <["PaymentMethod_" +:+ payment_policy (strip (payment_method req)) := 1%Q]>
      (zero_fill (family "PaymentMethod_" payment_cats) row).
Proof.
  unfold onehot_payment, payment_policy. cbv zeta.
  set (pm := strip (payment_method req)).
  destruct (str_in "Bank transfer" pm || str_in "automatic" pm && str_in "Bank" pm);
    [reflexivity|].
  assert (Hcc : str_in "Credit card" pm || str_in "Credit card (automatic)" pm
                = str_in "Credit card" pm).
  { destruct (str_in "Credit card" pm) eqn:E1; [reflexivity|].
    destruct (str_in "Credit card (automatic)" pm) eqn:E2; [|reflexivity].
    apply (str_in_prefix "Credit card" " (automatic)") in E2. congruence. }
  rewrite Hcc.
  destruct (str_in "Credit card" pm); [reflexivity|].
  destruct (str_in "Electronic" pm); [reflexivity|].
  destruct (str_in "Mailed" pm); reflexivity.
Qed.

Lemma onehot_multiple_lines_family (req : PredictRequest)
    (row : gmap string Q) :
  onehot_multiple_lines req row
  = <["MultipleLines_"
      +:+ multiple_lines_choice (lower (strip (multiple_lines req))) := 1%Q]>
      (zero_fill (family "MultipleLines_" multiple_lines_cats) row).
Proof.
  unfold onehot_multiple_lines, multiple_lines_choice. cbv zeta.
  destruct (str_in "no phone" _); [reflexivity|].
  destruct (String.eqb _ "yes"); reflexivity.
Qed.

Lemma onehot_tenure_group_family (g : string) (row : gmap string Q) :
  onehot_tenure_group g row
  = <["tenure_group_" +:+ g := 1%Q]>
      (zero_fill (family "tenure_group_" labels_tenure) row).
Proof. reflexivity. Qed.

Lemma onehot_monthly_bucket_family (b : string) (row : gmap string Q) :
  onehot_monthly_bucket b row
  = <["monthly_charges_bucket_" +:+ b := 1%Q]>
      (zero_fill (family "monthly_charges_bucket_" monthly_cats) row).
Proof. reflexivity. Qed.

(** Each block leaves the keys outside its family as they were. *)
Lemma onehot_contract_frame req row k :
  startswith "Contract_" k = false → onehot_contract req row !! k = row !! k.
Proof. rewrite onehot_contract_family. apply onehot_present_frame. Qed.

Lemma onehot_internet_frame req row k :
  startswith "InternetService_" k = false →
  onehot_internet req row !! k = row !! k.
Proof. rewrite onehot_internet_family. apply onehot_present_frame. Qed.

Lemma onehot_payment_frame req row k :
  startswith "PaymentMethod_" k = false →
  onehot_payment req row !! k = row !! k.
Proof. rewrite onehot_payment_family. apply onehot_chosen_frame. Qed.

Lemma onehot_multiple_lines_frame req row k :
  startswith "MultipleLines_" k = false →
  onehot_multiple_lines req row !! k = row !! k.
Proof. rewrite onehot_multiple_lines_family. apply onehot_chosen_frame. Qed.

Lemma onehot_tenure_group_frame g row k :
  startswith "tenure_group_" k = false →
  onehot_tenure_group g row !! k = row !! k.
Proof. rewrite onehot_tenure_group_family. apply onehot_chosen_frame. Qed.

Lemma onehot_monthly_bucket_frame b row k :
  startswith "monthly_charges_bucket_" k = false →
  onehot_monthly_bucket b row !! k = row !! k.
Proof. rewrite onehot_monthly_bucket_family. apply onehot_chosen_frame. Qed.

(** Step over every block whose family the key is visibly outside of. *)
Ltac skip_blocks :=
  repeat first
    [ rewrite onehot_monthly_bucket_frame by reflexivity
    | rewrite onehot_tenure_group_frame by reflexivity
    | rewrite onehot_multiple_lines_frame by reflexivity
    | rewrite onehot_payment_frame by reflexivity
    | rewrite onehot_internet_frame by reflexivity
    | rewrite onehot_contract_frame by reflexivity ].

Lemma base_row_fresh (req : PredictRequest) (k : string) :
  k ∉ base_keys → base_row req !! k = None.
Proof.
  intros H. unfold base_keys in H.
  repeat (apply not_elem_of_cons in H as [? H]).
  unfold base_row. cbv zeta.
  rewrite !lookup_insert_ne by congruence. apply lookup_empty.
Qed.

Lemma prefixed_not_base (p cat : string) :
  forallb (fun key => negb (startswith p key)) base_keys = true →
  p +:+ cat ∉ base_keys.
Proof.
  intros H Hin. rewrite forallb_forall in H.
  apply list_elem_of_In in Hin. specialize (H _ Hin).
  now rewrite startswith_append in H.
Qed.

Lemma base_row_no_family (req : PredictRequest) (p cat : string) :
  forallb (fun key => negb (startswith p key)) base_keys = true →
  base_row req !! (p +:+ cat) = None.
Proof. intros H. now apply base_row_fresh, prefixed_not_base. Qed.

(** The value of every key of the dict literal in the finished row. *)
Lemma build_feature_row_base (req : PredictRequest) (q33 q66 : Q) (k : string) :
  k ∈ base_keys →
  build_feature_row req q33 q66 !! k = base_row req !! k.
Proof.
  intros H. unfold base_keys in H. unfold build_feature_row. cbv zeta.
  repeat (apply elem_of_cons in H as [->|H]; [skip_blocks; reflexivity|]).
  now apply elem_of_nil in H.
Qed.

(** The value of every indicator key in the finished row. *)
Lemma row_contract (req : PredictRequest) (q33 q66 : Q) (cat : string) :
  build_feature_row req q33 q66 !! ("Contract_" +:+ cat)
  = if bool_decide (cat ∈ contract_cats)
    then Some (b2q (String.eqb (strip (contract req)) cat)) else None.
Proof.
  unfold build_feature_row. cbv zeta. skip_blocks.
  rewrite onehot_contract_family. apply onehot_present_lookup.
  intros c. now apply base_row_no_family.
Qed.

Lemma row_internet (req : PredictRequest) (q33 q66 : Q) (cat : string) :
  build_feature_row req q33 q66 !! ("InternetService_" +:+ cat)
  = if bool_decide (cat ∈ internet_cats)
    then Some (b2q (String.eqb (strip (internet_service req)) cat)) else None.
Proof.
  unfold build_feature_row. cbv zeta. skip_blocks.
  rewrite onehot_internet_family. apply onehot_present_lookup.
  intros c. skip_blocks. now apply base_row_no_family.
Qed.

Lemma payment_policy_cats (pm : string) : payment_policy pm ∈ payment_cats.
Proof.
  unfold payment_policy, payment_cats.
  repeat match goal with
         | |- context [if ?b then _ else _] => destruct b
         end; set_solver.
Qed.

Lemma multiple_lines_choice_cats (ml : string) :
  multiple_lines_choice ml ∈ multiple_lines_cats.
Proof.
  unfold multiple_lines_choice, multiple_lines_cats.
  repeat match goal with
         | |- context [if ?b then _ else _] => destruct b
         end; set_solver.
Qed.

Lemma bucket_tenure_cats (t : Z) : _bucket_tenure t ∈ labels_tenure.
Proof.
  unfold _bucket_tenure, labels_tenure.
  repeat match goal with
         | |- context [if ?b then _ else _] => destruct b
         end; set_solver.
Qed.

Lemma bucket_monthly_cats (v q33 q66 : Q) :
  _bucket_monthly v q33 q66 ∈ monthly_cats.
Proof.
  unfold _bucket_monthly, monthly_cats.
  repeat match goal with
         | |- context [if ?b then _ else _] => destruct b
         end; set_solver.
Qed.

Lemma row_payment (req : PredictRequest) (q33 q66 : Q) (cat : string) :
  build_feature_row req q33 q66 !! ("PaymentMethod_" +:+ cat)
  = if bool_decide (cat ∈ payment_cats)
    then Some (b2q (String.eqb (payment_policy (strip (payment_method req))) cat))
    else None.
Proof.
  unfold build_feature_row. cbv zeta. skip_blocks.
  rewrite onehot_payment_family.
  apply onehot_chosen_lookup; [|apply payment_policy_cats].
  intros c. skip_blocks. now apply base_row_no_family.
Qed.

Lemma row_multiple_lines (req : PredictRequest) (q33 q66 : Q) (cat : string) :
  build_feature_row req q33 q66 !! ("MultipleLines_" +:+ cat)
  = if bool_decide (cat ∈ multiple_lines_cats)
    then Some (b2q (String.eqb
                      (multiple_lines_choice (lower (strip (multiple_lines req))))
                      cat))
    else None.
Proof.
  unfold build_feature_row. cbv zeta. skip_blocks.
  rewrite onehot_multiple_lines_family.
  apply onehot_chosen_lookup; [|apply multiple_lines_choice_cats].
  intros c. skip_blocks. now apply base_row_no_family.
Qed.

Lemma row_tenure_group (req : PredictRequest) (q33 q66 : Q) (cat : string) :
  build_feature_row req q33 q66 !! ("tenure_group_" +:+ cat)
  = if bool_decide (cat ∈ labels_tenure)
    then Some (b2q (String.eqb (_bucket_tenure (tenure req)) cat)) else None.
Proof.
  unfold build_feature_row. cbv zeta. skip_blocks.
  rewrite onehot_tenure_group_family.
  apply onehot_chosen_lookup; [|apply bucket_tenure_cats].
  intros c. skip_blocks. now apply base_row_no_family.
Qed.

Lemma row_monthly_bucket (req : PredictRequest) (q33 q66 : Q) (cat : string) :
  build_feature_row req q33 q66 !! ("monthly_charges_bucket_" +:+ cat)
  = if bool_decide (cat ∈ monthly_cats)
    then Some (b2q (String.eqb
                      (_bucket_monthly (monthly_charges req) q33 q66) cat))
    else None.
Proof.
  unfold build_feature_row. cbv zeta.
  rewrite onehot_monthly_bucket_family.
  apply onehot_chosen_lookup; [|apply bucket_monthly_cats].
  intros c. skip_blocks. now apply base_row_no_family.
Qed.

(** ** Stripping and substring tests *)

Lemma ends_solid_tail (a : ascii) (n : string) :
  ends_solid (String a n) = true → ends_solid n = true.
Proof. destruct n; [reflexivity|auto]. Qed.

Lemma startswith_rstrip (n s : string) :
  ends_solid n = true → startswith n (rstrip s) = startswith n s.
Proof.
  revert n. induction s as [|c s IH]; intros n Hn; [reflexivity|].
  destruct n as [|a n]; [reflexivity|].
  specialize (IH n (ends_solid_tail a n Hn)).
  cbn [rstrip startswith].
  destruct (rstrip s) as [|d t] eqn:E.
  - rewrite <- IH. destruct (py_isspace c) eqn:Ec; [|reflexivity].
    destruct n as [|b n]; cbn [startswith]; [|now rewrite andb_false_r].
    cbn [ends_solid] in Hn. rewrite andb_true_r.
    destruct (Ascii.eqb_spec a c) as [->|]; [|reflexivity].
    rewrite Ec in Hn. discriminate.
  - now rewrite <- IH.
Qed.

Lemma str_in_rstrip (n s : string) :
  ends_solid n = true → str_in n (rstrip s) = str_in n s.
Proof.
  intros Hn. induction s as [|c s IH]; [reflexivity|].
  cbn [str_in]. rewrite <- IH, <- (startswith_rstrip n (String c s) Hn).
  cbn [rstrip]. destruct (rstrip s) as [|d t] eqn:E.
  - destruct (py_isspace c); cbn [str_in]; now destruct (startswith n _).
  - reflexivity.
Qed.

Lemma str_in_lstrip (n s : string) :
  begins_solid n = true → str_in n (lstrip s) = str_in n s.
Proof.
  intros Hn. destruct n as [|a n]; [discriminate|]. cbn in Hn.
  induction s as [|c s IH]; [reflexivity|].
  cbn [lstrip]. destruct (py_isspace c) eqn:Ec; [|reflexivity].
  rewrite IH. cbn [str_in startswith].
  destruct (Ascii.eqb_spec a c) as [->|]; [|reflexivity].
  rewrite Ec in Hn. discriminate.
Qed.

Lemma str_in_strip (n s : string) :
  begins_solid n = true → ends_solid n = true →
  str_in n (strip s) = str_in n s.
Proof.
  intros Hb He. unfold strip.
  now rewrite str_in_rstrip, str_in_lstrip.
Qed.

Lemma payment_policy_strip (pm : string) :
  payment_policy (strip pm) = payment_policy pm.
Proof.
  unfold payment_policy. now rewrite !str_in_strip by reflexivity.
Qed.

(* ------------------------------------------------------------------ *)
(** ** Payment method *)

(** C8. For every request the payment-method block sets exactly one of
    the four payment-method indicator columns to 1 and the other three to
    0; the column set is the one the documented substring policy selects
    for the request's payment method ("Bank transfer" or "automatic"
    with "Bank", then "Credit card", then "Electronic", then "Mailed",
    else the electronic-check default); "Direct Debit" selects
    "Electronic check". *)
Theorem payment_method_one_hot (req : PredictRequest) (q33 q66 : Q) :
  let row := build_feature_row req q33 q66 in
  let chosen := payment_policy (payment_method req) in
  chosen ∈ payment_cats
  ∧ map (fun cat => row !! ("PaymentMethod_" +:+ cat)) payment_cats
    = map (fun cat => Some (b2q (String.eqb chosen cat))) payment_cats
  ∧ ((map (fun cat => row !! ("PaymentMethod_" +:+ cat)) payment_cats
      = [Some 1; Some 0; Some 0; Some 0]%Q)
     ∨ (map (fun cat => row !! ("PaymentMethod_" +:+ cat)) payment_cats
        = [Some 0; Some 1; Some 0; Some 0]%Q)
     ∨ (map (fun cat => row !! ("PaymentMethod_" +:+ cat)) payment_cats
        = [Some 0; Some 0; Some 1; Some 0]%Q)
     ∨ (map (fun cat => row !! ("PaymentMethod_" +:+ cat)) payment_cats
        = [Some 0; Some 0; Some 0; Some 1]%Q))
  ∧ payment_policy "Direct Debit" = "Electronic check".
Proof.
  cbv zeta.
  assert (Hmap : map (fun cat => build_feature_row req q33 q66
                                   !! ("PaymentMethod_" +:+ cat)) payment_cats
                 = map (fun cat => Some (b2q (String.eqb
                          (payment_policy (payment_method req)) cat)))
                     payment_cats).
  { unfold payment_cats. cbn [map].
    now rewrite !row_payment, payment_policy_strip. }
  split; [apply payment_policy_cats|].
  split; [exact Hmap|].
  split; [|reflexivity].
  rewrite Hmap.
  pose proof (payment_policy_cats (payment_method req)) as Hin.
  unfold payment_cats in *.
  repeat (apply elem_of_cons in Hin as [->|Hin]; [cbn; tauto|]).
  now apply elem_of_nil in Hin.
Qed.

(** The request of the specification's example with the payment method
    "Direct Debit": the electronic-check indicator alone is set. *)
Example direct_debit_row :
  map (fun cat =>
         build_feature_row
           (request_with_defaults 5 70 "Month-to-month" "Fiber optic"
              "Direct Debit") 45 75
         !! ("PaymentMethod_" +:+ cat)) payment_cats
  = [Some 0; Some 0; Some 1; Some 0]%Q.
Proof. vm_compute. reflexivity. Qed.

(* ------------------------------------------------------------------ *)
(** ** Unknown categorical values *)

(** C7, as the specification states it, fails for the multiple-lines
    field: the value "Maybe" matches none of its three indicator columns,
    yet the row has [MultipleLines_No] set to 1. *)
Lemma unknown_multiple_lines_sets_no :
  (strip (multiple_lines request_unknown_lines) ∉ multiple_lines_cats)
  ∧ build_feature_row request_unknown_lines 45 75 !! "MultipleLines_No"
    = Some 1%Q.
Proof.
  split; [|vm_compute; reflexivity].
  vm_compute. intros H. repeat (apply elem_of_cons in H as [H|H]; [discriminate|]).
  now apply elem_of_nil in H.
Qed.

(** C7, amended. For every request the row is built (no value is
    rejected).  A contract value that matches none of the three contract
    indicator columns leaves all three at 0, and likewise for the
    internet-service value.  The multiple-lines field instead always has
    exactly one indicator at 1: "No phone service" when the lower-cased
    value contains "no phone", "Yes" when it is "yes", and "No" for every
    other value, known or not. *)
Theorem unknown_category_indicators (req : PredictRequest) (q33 q66 : Q) :
  let row := build_feature_row req q33 q66 in
  (strip (contract req) ∉ contract_cats →
   map (fun cat => row !! ("Contract_" +:+ cat)) contract_cats
   = [Some 0; Some 0; Some 0]%Q)
  ∧ (strip (internet_service req) ∉ internet_cats →
     map (fun cat => row !! ("InternetService_" +:+ cat)) internet_cats
     = [Some 0; Some 0; Some 0]%Q)
  ∧ map (fun cat => row !! ("MultipleLines_" +:+ cat)) multiple_lines_cats
    = (let ml := lower (strip (multiple_lines req)) in
       if str_in "no phone" ml then [Some 0; Some 1; Some 0]%Q
       else if String.eqb ml "yes" then [Some 0; Some 0; Some 1]%Q
       else [Some 1; Some 0; Some 0]%Q).
Proof.
  cbv zeta. split; [|split].
  - intros H. unfold contract_cats in *. cbn [map].
    rewrite !row_contract.
    repeat (apply not_elem_of_cons in H as [? H]).
    rewrite !eqb_bool_decide.
    rewrite !(bool_decide_eq_false_2 (strip _ = _)) by assumption.
    reflexivity.
  - intros H. unfold internet_cats in *. cbn [map].
    rewrite !row_internet.
    repeat (apply not_elem_of_cons in H as [? H]).
    rewrite !eqb_bool_decide.
    rewrite !(bool_decide_eq_false_2 (strip _ = _)) by assumption.
    reflexivity.
  - unfold multiple_lines_cats. cbn [map].
    rewrite !row_multiple_lines. unfold multiple_lines_choice.
    destruct (str_in "no phone" _); [reflexivity|].
    destruct (String.eqb _ "yes"); reflexivity.
Qed.

Lemma unknown_category_indicators_witness :
  map (fun cat =>
         build_feature_row
           (request_with_defaults 5 70 "Weekly" "Satellite" "Mailed check")
           45 75 !! ("Contract_" +:+ cat)) contract_cats
  = [Some 0; Some 0; Some 0]%Q
  ∧ map (fun cat =>
           build_feature_row
             (request_with_defaults 5 70 "Weekly" "Satellite" "Mailed check")
             45 75 !! ("InternetService_" +:+ cat)) internet_cats
    = [Some 0; Some 0; Some 0]%Q.
Proof.
  destruct (unknown_category_indicators
              (request_with_defaults 5 70 "Weekly" "Satellite" "Mailed check")
              45 75) as (Hc & Hi & _).
  split; [apply Hc|apply Hi];
    intros H; apply in_cats_elem in H; discriminate H.
Defined.

(* ------------------------------------------------------------------ *)
(** ** Total charges at inference *)

Lemma row_total_charges (req : PredictRequest) (q33 q66 : Q) :
  build_feature_row req q33 q66 !! "TotalCharges"
  = Some (inject_Z (tenure req) * monthly_charges req)%Q
  ∧ build_feature_row req q33 q66 !! "total_spend"
    = Some (inject_Z (tenure req) * monthly_charges req)%Q.
Proof.
  split; (rewrite build_feature_row_base by (apply in_cats_elem; reflexivity));
    reflexivity.
Qed.

(* ------------------------------------------------------------------ *)
(** ** The vector handed to the model *)

Lemma transform_four (sc : StandardScaler) (a b c d : Q) :
  length (mean_ sc) = 4%nat → length (scale_ sc) = 4%nat →
  transform sc [a; b; c; d]
  = Ok [scaled sc 0 a; scaled sc 1 b; scaled sc 2 c; scaled sc 3 d].
Proof.
  intros Hm Hs. unfold transform, scaled. rewrite Hm, Hs. cbn [length Nat.eqb andb].
  destruct sc as [m s]. cbn in *.
  destruct m as [|m0 [|m1 [|m2 [|m3 [|]]]]]; try discriminate.
  destruct s as [|s0 [|s1 [|s2 [|s3 [|]]]]]; try discriminate.
  reflexivity.
Qed.

Lemma predict_vector_loaded (st : AppState) (req : PredictRequest)
    (f : list Q → Q) (sc : StandardScaler) (fc : list string) (a b : Q) :
  model st = Some f → scaler st = Some sc → feature_columns st = Some fc →
  q33 st = Some a → q66 st = Some b →
  length (mean_ sc) = 4%nat → length (scale_ sc) = 4%nat →
  predict_vector st req
  = Ok (map (vector_entry sc (build_feature_row req a b)) fc).
Proof.
  intros Hf Hsc Hfc Ha Hb Hm Hs. unfold predict_vector.
  rewrite Hf, Hsc, Hfc, Ha, Hb. cbn [build_feature_row_from mbind result_bind].
  unfold getitem.
  rewrite !build_feature_row_base by (apply in_cats_elem; reflexivity).
  change (base_row req !! "tenure") with (Some (inject_Z (tenure req))).
  change (base_row req !! "MonthlyCharges") with (Some (monthly_charges req)).
  change (base_row req !! "TotalCharges")
    with (Some (inject_Z (tenure req) * monthly_charges req)%Q).
  change (base_row req !! "total_spend")
    with (Some (inject_Z (tenure req) * monthly_charges req)%Q).
  cbn [mbind result_bind].
  rewrite transform_four by assumption. cbn [mbind result_bind].
  f_equal. unfold assemble. apply map_ext_in. intros c _.
  unfold vector_entry.
  destruct (index c numerical_cols) as [i|] eqn:Ei; [|reflexivity].
  unfold numerical_cols in Ei. cbn [index] in Ei.
  destruct (String.eqb_spec "tenure" c) as [<-|_].
  { injection Ei as <-.
    rewrite build_feature_row_base by (apply in_cats_elem; reflexivity).
    reflexivity. }
  destruct (String.eqb_spec "MonthlyCharges" c) as [<-|_].
  { injection Ei as <-.
    rewrite build_feature_row_base by (apply in_cats_elem; reflexivity).
    reflexivity. }
  destruct (String.eqb_spec "TotalCharges" c) as [<-|_].
  { injection Ei as <-.
    rewrite build_feature_row_base by (apply in_cats_elem; reflexivity).
    reflexivity. }
  destruct (String.eqb_spec "total_spend" c) as [<-|_].
  { injection Ei as <-.
    rewrite build_feature_row_base by (apply in_cats_elem; reflexivity).
    reflexivity. }
  discriminate.
Qed.

(** C2. With the artifacts loaded, for every request (valid or not,
    whatever its categorical values) [predict] assembles a vector of
    exactly the manifest's length, whose entry at each place is the one
    of the manifest column at that place: the scaled value for a
    numerical column, the row's value (0 when the row has no such key)
    for any other. *)
Theorem vector_follows_manifest (st : AppState) (req : PredictRequest)
    (fc : list string) :
  loaded st → feature_columns st = Some fc →
  ∃ X, predict_vector st req = Ok X
       ∧ length X = length fc
       ∧ ∀ sc a b, scaler st = Some sc → q33 st = Some a → q66 st = Some b →
           ∀ i c, fc !! i = Some c →
             X !! i = Some (vector_entry sc (build_feature_row req a b) c).
Proof.
  intros ([f Hf] & _ & [a Ha] & [b Hb] & sc & Hsc & Hm & Hs) Hfc.
  eexists. split; [|split].
  - apply (predict_vector_loaded st req f sc fc a b); assumption.
  - apply length_map.
  - intros sc' a' b' Hsc' Ha' Hb' i c Hi.
    assert (sc' = sc) as -> by congruence.
    assert (a' = a) as -> by congruence.
    assert (b' = b) as -> by congruence.
    clear -Hi. revert i Hi. induction fc as [|c0 fc IH]; intros [|i] Hi;
      try discriminate.
    + injection Hi as ->. reflexivity.
    + cbn. apply IH. exact Hi.
Qed.

Lemma example_state_loaded : loaded example_state.
Proof.
  unfold loaded, example_state. cbn.
  repeat split; eauto.
Qed.

Lemma vector_follows_manifest_witness :
  ∃ X, predict_vector example_state request_unknown_lines = Ok X
       ∧ length X = 3%nat
       ∧ ∀ sc a b, scaler example_state = Some sc →
           q33 example_state = Some a → q66 example_state = Some b →
           ∀ i c, ["tenure"; "Contract_One year"; "PaymentMethod_Cash"] !! i
                  = Some c →
             X !! i = Some (vector_entry sc
                              (build_feature_row request_unknown_lines a b) c).
Proof.
  apply (vector_follows_manifest example_state request_unknown_lines
           ["tenure"; "Contract_One year"; "PaymentMethod_Cash"]).
  - exact example_state_loaded.
  - reflexivity.
Defined.

(* ------------------------------------------------------------------ *)
(** ** Probability, label and confidence *)

Lemma round_half_even_near (x : Q) :
  (inject_Z (round_half_even x) - x <= 1 # 2)%Q
  ∧ (x - inject_Z (round_half_even x) <= 1 # 2)%Q.
Proof.
  unfold round_half_even.
  pose proof (Qfloor_le x) as Hlo. pose proof (Qlt_floor x) as Hhi.
  rewrite inject_Z_plus in Hhi. change (inject_Z 1) with 1%Q in Hhi.
  destruct (Qcompare_spec (x - inject_Z (Qfloor x)) (1 # 2)) as [E|E|E].
  - destruct (Z.even (Qfloor x)).
    + split; lra.
    + rewrite inject_Z_plus. change (inject_Z 1) with 1%Q. split; lra.
  - split; lra.
  - rewrite inject_Z_plus. change (inject_Z 1) with 1%Q. split; lra.
Qed.

Lemma round_half_even_range (x : Q) (lo hi : Z) :
  (inject_Z lo <= x)%Q → (x <= inject_Z hi)%Q →
  (lo <= round_half_even x <= hi)%Z.
Proof.
  intros Hlo Hhi. unfold round_half_even.
  assert (Hf1 : (lo <= Qfloor x)%Z).
  { rewrite <- (Qfloor_Z lo). now apply Qfloor_resp_le. }
  assert (Hf2 : (Qfloor x <= hi)%Z).
  { rewrite <- (Qfloor_Z hi). now apply Qfloor_resp_le. }
  assert (Hstep : (inject_Z (Qfloor x) < x)%Q → (Qfloor x + 1 <= hi)%Z).
  { intros Hlt. assert (Qfloor x < hi)%Z; [|lia].
    rewrite Zlt_Qlt. lra. }
  destruct (Qcompare_spec (x - inject_Z (Qfloor x)) (1 # 2)) as [E|E|E].
  - destruct (Z.even (Qfloor x)); [lia|].
    split; [lia|]. apply Hstep. lra.
  - lia.
  - split; [lia|]. apply Hstep. lra.
Qed.

Lemma round2_spec (p : Q) :
  (0 <= p)%Q → (p <= 1)%Q →
  (0 <= round2 p)%Q ∧ (round2 p <= 1)%Q
  ∧ (round2 p - p <= 1 # 200)%Q ∧ (p - round2 p <= 1 # 200)%Q
  ∧ ∃ k : Z, (0 <= k <= 100)%Z ∧ round2 p = (inject_Z k / 100)%Q.
Proof.
  intros H0 H1. unfold round2.
  pose proof (round_half_even_near (p * 100)) as [Ha Hb].
  pose proof (round_half_even_range (p * 100) 0 100) as Hr.
  destruct Hr as [Hr0 Hr1];
    [change (0 <= p * 100)%Q; lra | change (p * 100 <= 100)%Q; lra |].
  apply inject_Z_le in Hr0, Hr1.
  change (inject_Z 0) with 0%Q in Hr0. change (inject_Z 100) with 100%Q in Hr1.
  set (k := round_half_even (p * 100)) in *.
  assert (Hdiv : (inject_Z k / 100 == inject_Z k * (1 # 100))%Q) by (field).
  repeat split; try (rewrite Hdiv; lra).
  exists k. split; [|reflexivity].
  split; rewrite Zle_Qle; assumption.
Qed.

Lemma predict_response (st : AppState) (req : PredictRequest)
    (f : list Q → Q) (X : list Q) :
  model st = Some f → predict_vector st req = Ok X →
  predict st req
  = Ok {| churn_probability := round2 (f X);
          prediction := prediction_of (f X);
          confidence := confidence_of (f X) |}.
Proof. intros Hf HX. unfold predict. rewrite HX. cbn. now rewrite Hf. Qed.

Lemma loaded_vector (st : AppState) (req : PredictRequest) :
  loaded st → ∃ X, predict_vector st req = Ok X.
Proof.
  intros ([f Hf] & [fc Hfc] & [a Ha] & [b Hb] & sc & Hsc & Hm & Hs).
  eexists. apply (predict_vector_loaded st req f sc fc a b); assumption.
Qed.

(** C3, amended. With the artifacts loaded and a model whose probability
    is in [0,1], [predict] answers every request; the response's churn
    probability is the model's probability rounded to two decimals (a
    whole number of hundredths within half a hundredth of it) and lies
    in [0,1]; and the label is "Likely to Churn" exactly when the
    model's probability, before rounding, is at least 0.5.  Of the
    probability in the response this leaves two implications: a response
    labelled "Likely to Churn" carries a probability of at least 0.5,
    and a response that carries more than 0.5 is labelled "Likely to
    Churn". *)
Theorem probability_and_label (st : AppState) (req : PredictRequest)
    (f : list Q → Q) :
  loaded st → model st = Some f →
  (∀ X, (0 <= f X)%Q ∧ (f X <= 1)%Q) →
  ∃ X resp,
    predict_vector st req = Ok X ∧ predict st req = Ok resp
    ∧ churn_probability resp = round2 (f X)
    ∧ (0 <= churn_probability resp)%Q ∧ (churn_probability resp <= 1)%Q
    ∧ (∃ k : Z, churn_probability resp = (inject_Z k / 100)%Q)
    ∧ (churn_probability resp - f X <= 1 # 200)%Q
    ∧ (f X - churn_probability resp <= 1 # 200)%Q
    ∧ (prediction resp = "Likely to Churn" ↔ (1 # 2 <= f X)%Q)
    ∧ (prediction resp = "Likely to Churn" →
       (1 # 2 <= churn_probability resp)%Q)
    ∧ ((1 # 2 < churn_probability resp)%Q →
       prediction resp = "Likely to Churn").
Proof.
  intros Hst Hf Hrange.
  destruct (loaded_vector st req Hst) as [X HX].
  exists X. eexists. split; [exact HX|].
  split; [apply (predict_response st req f X Hf HX)|]. cbn.
  destruct (Hrange X) as [H0 H1].
  destruct (round2_spec (f X) H0 H1) as (R0 & R1 & R2 & R3 & k & _ & Hk).
  assert (Hlabel : prediction_of (f X) = "Likely to Churn" ↔ (1 # 2 <= f X)%Q).
  { unfold prediction_of. qcases (1 # 2)%Q (f X); split; intros H;
      try reflexivity; try assumption; try discriminate H. lra. }
  assert (Hdiv : (inject_Z k / 100 == inject_Z k * (1 # 100))%Q) by field.
  repeat split; try assumption; try (apply Hlabel; assumption).
  - exists k. exact Hk.
  - intros H. apply Hlabel in H. rewrite Hk in R3 |- *.
    assert (Hk49 : (49 < k)%Z).
    { rewrite Zlt_Qlt. change (inject_Z 49) with 49%Q. lra. }
    assert (Hk50 : (inject_Z 50 <= inject_Z k)%Q) by (apply inject_Z_le; lia).
    change (inject_Z 50) with 50%Q in Hk50. lra.
  - intros H. apply Hlabel. rewrite Hk in R2, H.
    assert (Hk50 : (50 < k)%Z).
    { rewrite Zlt_Qlt. change (inject_Z 50) with 50%Q. lra. }
    assert (Hk51 : (inject_Z 51 <= inject_Z k)%Q) by (apply inject_Z_le; lia).
    change (inject_Z 51) with 51%Q in Hk51. lra.
Qed.

Lemma probability_and_label_witness :
  ∃ X resp,
    predict_vector example_state request_unknown_lines = Ok X
    ∧ predict example_state request_unknown_lines = Ok resp
    ∧ churn_probability resp = round2 (1 # 2)
    ∧ (0 <= churn_probability resp)%Q ∧ (churn_probability resp <= 1)%Q
    ∧ (∃ k : Z, churn_probability resp = (inject_Z k / 100)%Q)
    ∧ (churn_probability resp - (1 # 2) <= 1 # 200)%Q
    ∧ ((1 # 2) - churn_probability resp <= 1 # 200)%Q
    ∧ (prediction resp = "Likely to Churn" ↔ (1 # 2 <= 1 # 2)%Q)
    ∧ (prediction resp = "Likely to Churn" →
       (1 # 2 <= churn_probability resp)%Q)
    ∧ ((1 # 2 < churn_probability resp)%Q →
       prediction resp = "Likely to Churn").
Proof.
  apply (probability_and_label example_state request_unknown_lines
           (fun _ => (1 # 2)%Q)).
  - exact example_state_loaded.
  - reflexivity.
  - intros _. split; lra.
Defined.

(** The label is decided on the model's probability, before rounding:
    at p = 0.497 the response carries the probability 0.50 and the label
    "Not Likely". *)
Lemma label_decided_before_rounding :
  (round2 (497 # 1000) == 1 # 2)%Q
  ∧ prediction_of (497 # 1000) = "Not Likely".
Proof. split; reflexivity. Qed.

(** C3, as the specification states it, fails when the threshold is read
    on the probability in the response: with a model that answers 0.497
    the response carries 0.50, which is at least 0.5, and the label
    "Not Likely". *)
Lemma label_not_read_off_the_response :
  ¬ (∀ (st : AppState) (req : PredictRequest) (f : list Q → Q)
       (resp : PredictResponse),
       loaded st → model st = Some f →
       (∀ X, (0 <= f X)%Q ∧ (f X <= 1)%Q) →
       predict st req = Ok resp →
       (prediction resp = "Likely to Churn"
        ↔ (1 # 2 <= churn_probability resp)%Q)).
Proof.
  intros H.
  assert (Hl : loaded example_state_below_half).
  { destruct example_state_loaded as (_ & H2 & H3 & H4 & H5).
    split; [eexists; reflexivity|]. repeat split; assumption. }
  specialize (H example_state_below_half request_unknown_lines
                (fun _ => (497 # 1000)%Q)
                {| churn_probability := round2 (497 # 1000);
                   prediction := "Not Likely"; confidence := "Low" |}
                Hl eq_refl).
  destruct H as [_ H].
  - intros _. split; lra.
  - vm_compute. reflexivity.
  - cbn [prediction churn_probability] in H.
    assert (Hd : "Not Likely" = "Likely to Churn"); [|discriminate Hd].
    apply H. destruct label_decided_before_rounding as [Hr _].
    rewrite Hr. lra.
Qed.

(** The four constants are the doubles nearest to 0.2, 0.4, 0.6 and
    0.8: each is within half a unit in the last place of its decimal,
    above it for 0.2, 0.4 and 0.8 and below it for 0.6. *)
Lemma float_literals_nearest :
  ((2 # 10) < float_0_2 ∧ float_0_2 - (2 # 10) < 1 # 72057594037927936)%Q
  ∧ ((4 # 10) < float_0_4 ∧ float_0_4 - (4 # 10) < 1 # 36028797018963968)%Q
  ∧ (float_0_6 < (6 # 10) ∧ (6 # 10) - float_0_6 < 1 # 18014398509481984)%Q
  ∧ ((8 # 10) < float_0_8 ∧ float_0_8 - (8 # 10) < 1 # 18014398509481984)%Q.
Proof. repeat split; vm_compute; reflexivity. Qed.

(** C4. With the artifacts loaded, for the probability p the model
    returns, the confidence tier of the response is "High" exactly when
    p >= 0.8 or p <= 0.2, "Medium" exactly when p >= 0.6 or p <= 0.4
    outside the High region (High is tested first and wins where the
    two overlap), and "Low" exactly in the remaining case; 0.2, 0.4, 0.6
    and 0.8 are the doubles of these literals, with which the code
    compares. *)
Theorem confidence_tiers (st : AppState) (req : PredictRequest)
    (f : list Q → Q) :
  loaded st → model st = Some f →
  ∃ X resp,
    predict_vector st req = Ok X ∧ predict st req = Ok resp
    ∧ let p := f X in
      let high := ((float_0_8 <= p)%Q ∨ (p <= float_0_2)%Q) in
      let medium := ((float_0_6 <= p)%Q ∨ (p <= float_0_4)%Q) in
      (confidence resp = "High" ↔ high)
      ∧ (confidence resp = "Medium" ↔ medium ∧ ¬ high)
      ∧ (confidence resp = "Low" ↔ ¬ medium ∧ ¬ high).
Proof.
  intros Hst Hf.
  destruct (loaded_vector st req Hst) as [X HX].
  exists X. eexists. split; [exact HX|].
  split; [apply (predict_response st req f X Hf HX)|]. cbn.
  unfold confidence_of.
  qcases float_0_8 (f X); qcases (f X) float_0_2;
    qcases float_0_6 (f X); qcases (f X) float_0_4; cbn;
    unfold float_0_2, float_0_4, float_0_6, float_0_8 in *;
    repeat split; intros; try discriminate; try reflexivity;
    try tauto; try lra;
    repeat match goal with
           | H : _ ∧ _ |- _ => destruct H
           | H : _ ∨ _ |- _ => destruct H
           | H : ¬ _ |- _ => exfalso; apply H; clear H
           | |- ¬ _ => intros ?
           | |- _ ∨ _ => solve [left; lra | right; lra]
           end; try lra.
Qed.

Lemma confidence_tiers_witness :
  ∃ X resp,
    predict_vector example_state request_unknown_lines = Ok X
    ∧ predict example_state request_unknown_lines = Ok resp
    ∧ let p := (1 # 2)%Q in
      let high := ((float_0_8 <= p)%Q ∨ (p <= float_0_2)%Q) in
      let medium := ((float_0_6 <= p)%Q ∨ (p <= float_0_4)%Q) in
      (confidence resp = "High" ↔ high)
      ∧ (confidence resp = "Medium" ↔ medium ∧ ¬ high)
      ∧ (confidence resp = "Low" ↔ ¬ medium ∧ ¬ high).
Proof.
  apply (confidence_tiers example_state request_unknown_lines
           (fun _ => (1 # 2)%Q)).
  - exact example_state_loaded.
  - reflexivity.
Defined.

(* ------------------------------------------------------------------ *)
(** ** Frames *)

Lemma map_lookup {A B} (f : A → B) (l : list A) (i : nat) :
  map f l !! i = f <$> l !! i.
Proof.
  revert i. induction l as [|x l IH]; intros [|i]; cbn; auto.
Qed.

Lemma has_column_get (name : string) (df : DataFrame) :
  has_column name df = true ↔ is_Some (df_get name df).
Proof.
  unfold has_column, columns.
  induction df as [|[n s] df IH]; cbn.
  - split; [discriminate|intros [? ?]; discriminate].
  - rewrite (String.eqb_sym name n).
    destruct (String.eqb n name); cbn; [|exact IH].
    split; eauto.
Qed.

Lemma has_column_false (name : string) (df : DataFrame) :
  has_column name df = false ↔ df_get name df = None.
Proof.
  pose proof (has_column_get name df) as H.
  destruct (has_column name df), (df_get name df) as [s|].
  - split; intros E; discriminate E.
  - destruct (proj1 H eq_refl) as [s E]; discriminate E.
  - destruct H as [_ H]. discriminate H. eauto.
  - tauto.
Qed.

Lemma df_get_set_eq (name : string) (s s0 : Series) (df : DataFrame) :
  df_get name (df_set name s df) = Some s.
Proof.
  induction df as [|[n s1] df IH]; cbn.
  - now rewrite String.eqb_refl.
  - destruct (String.eqb n name) eqn:E; cbn; rewrite E; auto.
Qed.

Lemma df_get_set_ne (name other : string) (s : Series) (df : DataFrame) :
  name ≠ other → df_get other (df_set name s df) = df_get other df.
Proof.
  intros Hne. induction df as [|[n s1] df IH]; cbn.
  - destruct (String.eqb_spec name other); [contradiction|reflexivity].
  - destruct (String.eqb_spec n name) as [->|Hn]; cbn.
    + destruct (String.eqb_spec name other); [contradiction|reflexivity].
    + now rewrite IH.
Qed.

Lemma columns_set (name : string) (s : Series) (df : DataFrame) :
  has_column name df = true → columns (df_set name s df) = columns df.
Proof.
  unfold has_column, columns.
  induction df as [|[n s1] df IH]; cbn; [discriminate|].
  rewrite (String.eqb_sym name n).
  destruct (String.eqb n name); cbn; [reflexivity|].
  intros H. now rewrite IH.
Qed.

Lemma df_drop_set (name : string) (s : Series) (df : DataFrame) :
  has_column name df = true →
  df_drop [name] (df_set name s df) = df_drop [name] df.
Proof.
  unfold has_column, columns, df_drop.
  induction df as [|[n s1] df IH]; [discriminate|].
  cbn [map fst existsb df_set List.filter].
  rewrite (String.eqb_sym name n).
  destruct (String.eqb n name) eqn:E.
  - intros _. cbn [List.filter existsb fst]. now rewrite E.
  - cbn [orb]. intros H. cbn [List.filter existsb fst]. rewrite E.
    cbn [orb negb]. f_equal. apply IH. exact H.
Qed.

(* ------------------------------------------------------------------ *)
(** ** Target encoding *)

Lemma eq_astype_int_cell (s : Series) (i : nat) (v : cell) :
  cell_at s i = Some v →
  num_at (eq_astype_int "Yes" s) i = Some (if is_yes v then 1 else 0)%Q.
Proof.
  unfold cell_at, num_at, eq_astype_int.
  destruct s as [vals|vals|cats vals]; rewrite map_lookup;
    destruct (vals !! i) as [[x|]|]; cbn; try discriminate;
    intros [= <-]; cbn; try reflexivity;
    (rewrite eqb_bool_decide;
     destruct (decide (x = "Yes")) as [->|Hne];
     [now rewrite !bool_decide_eq_true_2
     |rewrite !bool_decide_eq_false_2; [reflexivity|congruence..]]).
Qed.

(** C9. [encode_target] raises (a [ValueError]) exactly when the frame
    has no [Churn] column, and the error aborts the whole pipeline.  When
    it returns, the frame has the same columns in the same order, every
    column other than [Churn] is unchanged, and each cell of [Churn] is 1
    where the label was the exact string "Yes" and 0 for every other
    value. *)
Theorem encode_target_spec (df : DataFrame) :
  ((∃ e, encode_target df = Raise e) ↔ has_column "Churn" df = false)
  ∧ (∀ parse raw e, encode_target (load_and_clean_data parse raw) = Raise e →
       preprocess_encoded parse raw = Raise e)
  ∧ ∀ df', encode_target df = Ok df' →
      columns df' = columns df
      ∧ df_drop ["Churn"] df' = df_drop ["Churn"] df
      ∧ (∀ name, name ≠ "Churn" → df_get name df' = df_get name df)
      ∧ ∃ s s', df_get "Churn" df = Some s ∧ df_get "Churn" df' = Some s'
          ∧ ∀ i v, cell_at s i = Some v →
              num_at s' i = Some (if is_yes v then 1 else 0)%Q.
Proof.
  unfold encode_target. split; [|split].
  - rewrite has_column_false.
    destruct (df_get "Churn" df); split; eauto; try discriminate.
    intros [e He]. discriminate.
  - intros parse raw e H. unfold preprocess_encoded, encode_target.
    now rewrite H.
  - intros df' H.
    destruct (df_get "Churn" df) as [s|] eqn:E; [|discriminate].
    injection H as <-.
    assert (Hc : has_column "Churn" df = true)
      by (apply has_column_get; eauto).
    split; [now apply columns_set|].
    split; [now apply df_drop_set|].
    split; [intros name Hn; apply df_get_set_ne; congruence|].
    exists s, (eq_astype_int "Yes" s).
    split; [reflexivity|]. split; [now apply df_get_set_eq|].
    apply eq_astype_int_cell.
Qed.

Lemma encode_target_spec_witness :
  ∃ df', encode_target (read_csv example_table) = Ok df'
         ∧ columns df' = columns (read_csv example_table)
         ∧ df_get "Churn" df' = Some (NumS [Some 1; Some 0]%Q).
Proof.
  destruct (encode_target_spec (read_csv example_table)) as (_ & _ & H).
  eexists. split; [reflexivity|].
  split; [apply H; reflexivity|]. vm_compute. reflexivity.
Defined.

(* ------------------------------------------------------------------ *)
(** ** The training pipeline on a table *)

Lemma add_engineered_features_at_ok (q33 q66 : Q) (df : DataFrame)
    (tv mv : list (option Q)) :
  df_get "tenure" df = Some (NumS tv) →
  df_get "MonthlyCharges" df = Some (NumS mv) →
  (q33 < q66)%Q →
  add_engineered_features_at q33 q66 df
  = Ok (df_set "total_spend"
          (NumS (zip_with (fun x y => match x, y with
                                      | Some u, Some v => Some (u * v)%Q
                                      | _, _ => None
                                      end) tv mv))
          (df_set "monthly_charges_bucket"
             (CatS ["low"; "medium"; "high"]
                (map (fun v => (fun x => _bucket_monthly x q33 q66) <$> v) mv))
             (df_set "tenure_group"
                (CatS labels_tenure
                   (map (fun v => x ← v; find_bin false bins_tenure labels_tenure x) tv))
                df))).
Proof.
  intros Ht Hm Hq.
  unfold add_engineered_features_at, add_engineered_features_from, getcol.
  rewrite Ht. cbn [mbind result_bind].
  change (pd_cut (NumS tv) bins_tenure labels_tenure false)
    with (Ok (CatS labels_tenure
                (map (fun v => x ← v; find_bin false bins_tenure labels_tenure x) tv))).
  cbn [mbind result_bind].
  rewrite (df_get_set_ne "tenure_group" "MonthlyCharges") by discriminate.
  rewrite Hm. cbn [mbind result_bind fst snd].
  rewrite cut_monthly_ok by exact Hq. cbn [mbind result_bind].
  rewrite (df_get_set_ne "monthly_charges_bucket" "tenure") by discriminate.
  rewrite (df_get_set_ne "tenure_group" "tenure") by discriminate.
  rewrite Ht. cbn [mbind result_bind].
  rewrite (df_get_set_ne "monthly_charges_bucket" "MonthlyCharges") by discriminate.
  rewrite (df_get_set_ne "tenure_group" "MonthlyCharges") by discriminate.
  rewrite Hm. cbn [mbind result_bind].
  reflexivity.
Qed.

Lemma zip_with_rows {A B C D} (f : B → C → D) (g : A → B) (h : A → C)
    (l : list A) :
  zip_with f (map g l) (map h l) = map (fun x => f (g x) (h x)) l.
Proof. induction l as [|x l IH]; cbn; [reflexivity|now rewrite IH]. Qed.

Lemma foldl_ext_eq {A B} (f g : A → B → A) (l : list B) (a : A) :
  (∀ x y, f x y = g x y) → foldl f a l = foldl g a l.
Proof.
  intros H. revert a. induction l as [|y l IH]; intros a; cbn; [reflexivity|].
  now rewrite H, IH.
Qed.

(** Both branches of the test on the column's values encode alike. *)
Lemma encode_binary_columns_plain (df : DataFrame) :
  encode_binary_columns df
  = foldl (fun df col =>
             match df_get col df with
             | None => df
             | Some s => df_set col (eq_astype_int "Yes" s) df
             end) df binary_cols.
Proof.
  unfold encode_binary_columns. apply foldl_ext_eq.
  intros d col. destruct (df_get col d) as [s|]; [|reflexivity].
  now destruct (only_yes_no s).
Qed.

Lemma preprocess_encoded_at_read_csv (parse : string → option Q)
    (q33 q66 : Q) (t : list TelcoRow) :
  (q33 < q66)%Q →
  preprocess_encoded_at parse q33 q66 (read_csv t)
  = Ok (encoded_frame parse q33 q66 t).
Proof.
  intros Hq. unfold preprocess_encoded_at.
  set (D0 := load_and_clean_data parse (read_csv t)).
  assert (HT : encode_target D0
               = Ok (df_set "Churn" (eq_astype_int "Yes" (str_col c_Churn t)) D0))
    by reflexivity.
  rewrite HT. cbn [mbind result_bind].
  rewrite (add_engineered_features_at_ok q33 q66 _
             (map (fun r => Some (inject_Z (c_tenure r))) t)
             (map (fun r => Some (c_MonthlyCharges r)) t));
    [|reflexivity|reflexivity|exact Hq].
  rewrite zip_with_rows, !map_map. cbn [mbind result_bind fmap option_fmap option_map mbind option_bind].
  f_equal. rewrite encode_binary_columns_plain.
  reflexivity.
Qed.

(** ** Training row against inference row *)

(** Case analysis on a word known to be one of a literal list. *)
Ltac word_cases H :=
  apply in_cats_elem in H;
  repeat (apply elem_of_cons in H as [->|H]);
  [..|now apply elem_of_nil in H].

Lemma yes_word (v : string) :
  in_cats yes_no_cats v = true → b2q (String.eqb v "Yes") = b2q (yes v).
Proof. intros H. unfold yes_no_cats in H. word_cases H; reflexivity. Qed.

Lemma contract_word (v : string) :
  in_cats contract_cats v = true → strip v = v.
Proof. intros H. unfold contract_cats in H. word_cases H; reflexivity. Qed.

Lemma internet_word (v : string) :
  in_cats internet_cats v = true → strip v = v.
Proof. intros H. unfold internet_cats in H. word_cases H; reflexivity. Qed.

Lemma payment_word (v : string) :
  in_cats payment_cats v = true → payment_policy (strip v) = v.
Proof. intros H. unfold payment_cats in H. word_cases H; reflexivity. Qed.

Lemma multiple_lines_word (v : string) :
  in_cats multiple_lines_cats v = true →
  multiple_lines_choice (lower (strip v)) = v.
Proof.
  intros H. unfold multiple_lines_cats in H. word_cases H; reflexivity.
Qed.

Section Rows.

Variables (t : list TelcoRow) (i : nat) (r : TelcoRow).
Hypothesis Hi : t !! i = Some r.

Lemma num_at_int_col (f : TelcoRow → Z) :
  num_at (int_col f t) i = Some (inject_Z (f r)).
Proof. unfold num_at, int_col. now rewrite map_lookup, Hi. Qed.

Lemma num_at_float_col (f : TelcoRow → Q) :
  num_at (float_col f t) i = Some (f r).
Proof. unfold num_at, float_col. now rewrite map_lookup, Hi. Qed.

Lemma num_at_rows (f : TelcoRow → option Q) :
  num_at (NumS (map f t)) i = f r.
Proof. unfold num_at. now rewrite map_lookup, Hi. Qed.

Lemma num_at_yes (f : TelcoRow → string) :
  num_at (eq_astype_int "Yes" (str_col f t)) i
  = Some (b2q (String.eqb (f r) "Yes")).
Proof.
  unfold num_at, eq_astype_int, str_col.
  rewrite !map_lookup, Hi. cbn. do 2 f_equal.
  rewrite eqb_bool_decide. apply bool_decide_ext.
  split; congruence.
Qed.

(** An indicator column of the training frame at row [i]. *)
Lemma dummies_rows (name : string) (s : Series) (f : TelcoRow → option string)
    (c : string) (col : Series) :
  (s = ObjectS (map f t) ∨ ∃ cats, s = CatS cats (map f t)) →
  (c, col) ∈ dummies name s →
  ∃ cat, c = name +:+ "_" +:+ cat
         ∧ num_at col i = Some (b2q (bool_decide (f r = Some cat))).
Proof.
  intros Hs Hin.
  assert (Hmk : ∃ cats, (c, col) ∈ map (fun cat =>
             (name +:+ "_" +:+ cat,
              NumS (map (fun v => Some (b2q (bool_decide (v = Some cat))))
                      (map f t)))) cats).
  { destruct Hs as [->|[cats ->]]; cbn in Hin; eauto. }
  destruct Hmk as [cats Hmk].
  apply list_elem_of_In, in_map_iff in Hmk as (cat & Heq & _).
  injection Heq as <- <-. exists cat. split; [reflexivity|].
  unfold num_at. now rewrite !map_lookup, Hi.
Qed.

End Rows.

(** The inference row agrees with an indicator cell when the record's
    value is one of the known categories. *)
Lemma indicator_agree (v chosen cat : string) (cats : list string)
    (o : option Q) :
  chosen = v → v ∈ cats →
  o = (if bool_decide (cat ∈ cats)
       then Some (b2q (String.eqb chosen cat)) else None) →
  Some (b2q (bool_decide (Some v = Some cat))) = Some (default 0%Q o).
Proof.
  intros -> Hv ->. f_equal.
  destruct (decide (v = cat)) as [->|Hne].
  - rewrite !bool_decide_eq_true_2 by auto.
    cbn. now rewrite String.eqb_refl.
  - rewrite (bool_decide_eq_false_2 (Some v = Some cat)) by congruence.
    destruct (bool_decide (cat ∈ cats)); cbn; [|reflexivity].
    rewrite eqb_bool_decide. now rewrite bool_decide_eq_false_2.
Qed.

Lemma encoded_frame_agrees (parse : string → option Q) (q33 q66 : Q)
    (t : list TelcoRow) (i : nat) (r : TelcoRow) :
  t !! i = Some r → (0 <= c_tenure r)%Z → canonical_row r = true →
  rows_agree ["Churn"; "gender"; "TotalCharges"]
    (encoded_frame parse q33 q66 t) i
    (build_feature_row (request_of_row r) q33 q66).
Proof.
  intros Hi Hten Hc. unfold canonical_row in Hc.
  repeat (apply andb_prop in Hc as [Hc ?]).
  intros c s Hin Hskip. unfold encoded_frame in Hin.
  rewrite !elem_of_app in Hin.
  destruct Hin as [Hin|[Hin|[Hin|[Hin|[Hin|[Hin|Hin]]]]]].
  - repeat (apply elem_of_cons in Hin as [Hin|Hin];
            [apply pair_equal_spec in Hin as [-> ->]|]);
      try (now apply elem_of_nil in Hin);
      try (exfalso; apply Hskip, in_cats_elem; reflexivity);
      rewrite build_feature_row_base by (apply in_cats_elem; reflexivity);
      try (rewrite (num_at_yes t i r Hi), yes_word by assumption;
           reflexivity).
    + now rewrite (num_at_int_col t i r Hi).
    + now rewrite (num_at_int_col t i r Hi).
    + now rewrite (num_at_float_col t i r Hi).
    + now rewrite (num_at_rows t i r Hi).
  - apply (dummies_rows t i r Hi _ _ (fun r => Some (c_Contract r)))
      in Hin as (cat & -> & ->); [|now left].
    change ("Contract" +:+ "_" +:+ cat) with ("Contract_" +:+ cat).
    apply (indicator_agree _ (strip (contract (request_of_row r))) _
             contract_cats).
    + now apply contract_word.
    + now apply in_cats_elem.
    + apply row_contract.
  - apply (dummies_rows t i r Hi _ _ (fun r => Some (c_InternetService r)))
      in Hin as (cat & -> & ->); [|now left].
    change ("InternetService" +:+ "_" +:+ cat)
      with ("InternetService_" +:+ cat).
    apply (indicator_agree _ (strip (internet_service (request_of_row r))) _
             internet_cats).
    + now apply internet_word.
    + now apply in_cats_elem.
    + apply row_internet.
  - apply (dummies_rows t i r Hi _ _ (fun r => Some (c_PaymentMethod r)))
      in Hin as (cat & -> & ->); [|now left].
    change ("PaymentMethod" +:+ "_" +:+ cat) with ("PaymentMethod_" +:+ cat).
    apply (indicator_agree _
             (payment_policy (strip (payment_method (request_of_row r)))) _
             payment_cats).
    + now apply payment_word.
    + now apply in_cats_elem.
    + apply row_payment.
  - apply (dummies_rows t i r Hi _ _ (fun r => Some (c_MultipleLines r)))
      in Hin as (cat & -> & ->); [|now left].
    change ("MultipleLines" +:+ "_" +:+ cat) with ("MultipleLines_" +:+ cat).
    apply (indicator_agree _
             (multiple_lines_choice
                (lower (strip (multiple_lines (request_of_row r))))) _
             multiple_lines_cats).
    + now apply multiple_lines_word.
    + now apply in_cats_elem.
    + apply row_multiple_lines.
  - apply (dummies_rows t i r Hi _ _
             (fun r => find_bin false bins_tenure labels_tenure
                         (inject_Z (c_tenure r))))
      in Hin as (cat & -> & ->); [|right; eauto].
    rewrite find_bin_tenure by exact Hten.
    change ("tenure_group" +:+ "_" +:+ cat) with ("tenure_group_" +:+ cat).
    apply (indicator_agree _ (_bucket_tenure (tenure (request_of_row r))) _
             labels_tenure).
    + reflexivity.
    + apply bucket_tenure_cats.
    + apply row_tenure_group.
  - apply (dummies_rows t i r Hi _ _
             (fun r => Some (_bucket_monthly (c_MonthlyCharges r) q33 q66)))
      in Hin as (cat & -> & ->); [|right; eauto].
    change ("monthly_charges_bucket" +:+ "_" +:+ cat)
      with ("monthly_charges_bucket_" +:+ cat).
    apply (indicator_agree _
             (_bucket_monthly (monthly_charges (request_of_row r)) q33 q66) _
             monthly_cats).
    + reflexivity.
    + apply bucket_monthly_cats.
    + apply row_monthly_bucket.
Qed.

Lemma add_engineered_features_thresholds (df : DataFrame)
    (tv mv : list (option Q)) (a b : Q) :
  df_get "tenure" df = Some (NumS tv) →
  df_get "MonthlyCharges" df = Some (NumS mv) →
  quantile (33 # 100) (NumS mv) = Ok a →
  quantile (66 # 100) (NumS mv) = Ok b →
  add_engineered_features df = add_engineered_features_at a b df.
Proof.
  intros Ht Hm Ha Hb.
  unfold add_engineered_features, add_engineered_features_at,
    add_engineered_features_from, getcol.
  rewrite Ht. cbn [mbind result_bind].
  change (pd_cut (NumS tv) bins_tenure labels_tenure false)
    with (Ok (CatS labels_tenure
                (map (fun v => x ← v; find_bin false bins_tenure labels_tenure x) tv))).
  cbn [mbind result_bind].
  rewrite (df_get_set_ne "tenure_group" "MonthlyCharges") by discriminate.
  rewrite Hm. cbn [mbind result_bind].
  rewrite Ha. cbn [mbind result_bind]. rewrite Hb. reflexivity.
Qed.

(** With its own thresholds the pipeline is the pipeline at those
    thresholds. *)
Lemma preprocess_encoded_thresholds (parse : string → option Q)
    (t : list TelcoRow) (a b : Q) :
  quantile (33 # 100) (float_col c_MonthlyCharges t) = Ok a →
  quantile (66 # 100) (float_col c_MonthlyCharges t) = Ok b →
  preprocess_encoded parse (read_csv t)
  = preprocess_encoded_at parse a b (read_csv t).
Proof.
  intros Ha Hb. unfold preprocess_encoded, preprocess_encoded_at.
  set (D0 := load_and_clean_data parse (read_csv t)).
  assert (HT : encode_target D0
               = Ok (df_set "Churn" (eq_astype_int "Yes" (str_col c_Churn t)) D0))
    by reflexivity.
  rewrite HT. cbn [mbind result_bind].
  now rewrite (add_engineered_features_thresholds _
                 (map (fun r => Some (inject_Z (c_tenure r))) t)
                 (map (fun r => Some (c_MonthlyCharges r)) t) a b).
Qed.

(** On the training file the service computes the thresholds the
    training run used. *)
Lemma lifespan_thresholds_read_csv (parse : string → option Q)
    (t : list TelcoRow) (a b : Q) :
  quantile (33 # 100) (float_col c_MonthlyCharges t) = Ok a →
  quantile (66 # 100) (float_col c_MonthlyCharges t) = Ok b →
  lifespan_thresholds parse (read_csv t) = Ok (a, b).
Proof.
  intros Ha Hb. unfold lifespan_thresholds.
  change (getcol (load_and_clean_data parse (read_csv t)) "MonthlyCharges")
    with (Ok (float_col c_MonthlyCharges t)).
  cbn [mbind result_bind]. rewrite Ha. cbn [mbind result_bind].
  now rewrite Hb.
Qed.

(* ------------------------------------------------------------------ *)
(** ** Encoding parity between training and inference *)

Lemma elem_of_df_drop (names : list string) (df : DataFrame)
    (c : string) (s : Series) :
  (c, s) ∈ df_drop names df → (c, s) ∈ df ∧ in_cats names c = false.
Proof.
  unfold df_drop. rewrite !list_elem_of_In, filter_In. cbn.
  intros [Hin Hn]. split; [exact Hin|].
  now apply negb_true_iff in Hn.
Qed.

(** C1, as the specification states it, fails in three ways.  On the
    first record of [example_table], a valid request in the words of the
    dataset, the training feature matrix holds 0 in its [gender] column
    (the column is compared with "Yes") where the inference row holds 1,
    and 105, the charge on file, in [TotalCharges] where the inference
    row holds 2 x 50.  And on a valid request that is not in the words
    of the dataset the rows differ in a third column: for the partner
    "yes" training compares with the exact string "Yes" and writes 0,
    inference strips and lower-cases and writes 1. *)
Lemma training_row_differs :
  (∃ df X y r,
     preprocess_encoded example_parse (read_csv example_table) = Ok df
     ∧ get_feature_matrix_and_target df = Ok (X, y)
     ∧ quantile (33 # 100) (float_col c_MonthlyCharges example_table)
       = Ok (5990 # 100)%Q
     ∧ quantile (66 # 100) (float_col c_MonthlyCharges example_table)
       = Ok (6980 # 100)%Q
     ∧ example_table !! 0%nat = Some r
     ∧ valid_request (request_of_row r) ∧ canonical_row r = true
     ∧ ¬ rows_agree ["TotalCharges"] X 0
           (build_feature_row (request_of_row r) (5990 # 100) (6980 # 100))
     ∧ ¬ rows_agree ["gender"] X 0
           (build_feature_row (request_of_row r) (5990 # 100) (6980 # 100)))
  ∧ (∃ df X y r,
       preprocess_encoded example_parse (read_csv example_informal_table)
       = Ok df
       ∧ get_feature_matrix_and_target df = Ok (X, y)
       ∧ quantile (33 # 100)
           (float_col c_MonthlyCharges example_informal_table)
         = Ok (5990 # 100)%Q
       ∧ quantile (66 # 100)
           (float_col c_MonthlyCharges example_informal_table)
         = Ok (6980 # 100)%Q
       ∧ example_informal_table !! 0%nat = Some r
       ∧ valid_request (request_of_row r) ∧ canonical_row r = false
       ∧ ¬ rows_agree ["gender"; "TotalCharges"] X 0
             (build_feature_row (request_of_row r)
                (5990 # 100) (6980 # 100))).
Proof.
  split.
  - exists (encoded_frame example_parse (5990 # 100) (6980 # 100)
              example_table).
    exists (df_drop ["Churn"]
              (encoded_frame example_parse (5990 # 100) (6980 # 100)
                 example_table)).
    eexists. eexists.
    split; [vm_compute; reflexivity|].
    split; [reflexivity|].
    split; [reflexivity|]. split; [reflexivity|].
    split; [reflexivity|].
    split; [unfold valid_request; cbn; repeat split; (lia || lra)|].
    split; [reflexivity|].
    split.
    + intros H.
      assert (Hin : ("gender", NumS [Some 0%Q; Some 0%Q])
                    ∈ df_drop ["Churn"]
                        (encoded_frame example_parse (5990 # 100) (6980 # 100)
                           example_table))
        by (apply list_elem_of_In; vm_compute; tauto).
      assert (Hns : "gender" ∉ ["TotalCharges"])
        by (intros Hs; apply in_cats_elem in Hs; discriminate Hs).
      specialize (H _ _ Hin Hns). vm_compute in H. discriminate H.
    + intros H.
      assert (Hin : ("TotalCharges", NumS [Some 105%Q; Some 105%Q])
                    ∈ df_drop ["Churn"]
                        (encoded_frame example_parse (5990 # 100) (6980 # 100)
                           example_table))
        by (apply list_elem_of_In; vm_compute; tauto).
      assert (Hns : "TotalCharges" ∉ ["gender"])
        by (intros Hs; apply in_cats_elem in Hs; discriminate Hs).
      specialize (H _ _ Hin Hns). vm_compute in H. discriminate H.
  - exists (encoded_frame example_parse (5990 # 100) (6980 # 100)
              example_informal_table).
    exists (df_drop ["Churn"]
              (encoded_frame example_parse (5990 # 100) (6980 # 100)
                 example_informal_table)).
    eexists. eexists.
    split; [vm_compute; reflexivity|].
    split; [reflexivity|].
    split; [reflexivity|]. split; [reflexivity|].
    split; [reflexivity|].
    split; [unfold valid_request; cbn; repeat split; (lia || lra)|].
    split; [reflexivity|].
    intros H.
    assert (Hin : ("Partner", NumS [Some 0%Q; Some 0%Q])
                  ∈ df_drop ["Churn"]
                      (encoded_frame example_parse (5990 # 100) (6980 # 100)
                         example_informal_table))
      by (apply list_elem_of_In; vm_compute; tauto).
    assert (Hns : "Partner" ∉ ["gender"; "TotalCharges"])
      by (intros Hs; apply in_cats_elem in Hs; discriminate Hs).
    specialize (H _ _ Hin Hns). vm_compute in H. discriminate H.
Qed.

(** C1, amended. Let a training table have thresholds q33 < q66 (the
    0.33 and 0.66 quantiles of its monthly charges), and let one of its
    records be in the words of the dataset and make a valid request.
    Then the training pipeline returns a frame and its feature matrix,
    and for every column of the feature matrix other than [gender] and
    [TotalCharges] the cell of the record's row is the value the row
    built by [build_feature_row] at the same thresholds gives for that
    column (0 when the row has no such key): the same 0/1 for every
    binary and indicator column, the same unscaled number for
    [SeniorCitizen], [tenure], [MonthlyCharges] and [total_spend].  At
    inference [TotalCharges] is tenure x monthly charge. *)
Theorem encoding_parity (parse : string → option Q) (t : list TelcoRow)
    (q33 q66 : Q) (i : nat) (r : TelcoRow) :
  quantile (33 # 100) (float_col c_MonthlyCharges t) = Ok q33 →
  quantile (66 # 100) (float_col c_MonthlyCharges t) = Ok q66 →
  (q33 < q66)%Q →
  t !! i = Some r → canonical_row r = true →
  valid_request (request_of_row r) →
  ∃ df X y,
    preprocess_encoded parse (read_csv t) = Ok df
    ∧ get_feature_matrix_and_target df = Ok (X, y)
    ∧ rows_agree ["gender"; "TotalCharges"] X i
        (build_feature_row (request_of_row r) q33 q66)
    ∧ build_feature_row (request_of_row r) q33 q66 !! "TotalCharges"
      = Some (inject_Z (c_tenure r) * c_MonthlyCharges r)%Q.
Proof.
  intros Ha Hb Hq Hi Hc (Hten & _ & _).
  exists (encoded_frame parse q33 q66 t).
  exists (df_drop ["Churn"] (encoded_frame parse q33 q66 t)).
  eexists. split; [|split; [|split]].
  - rewrite (preprocess_encoded_thresholds parse t q33 q66 Ha Hb).
    now apply preprocess_encoded_at_read_csv.
  - reflexivity.
  - intros c s Hin Hskip. apply elem_of_df_drop in Hin as [Hin Hchurn].
    apply (encoded_frame_agrees parse q33 q66 t i r Hi Hten Hc c s Hin).
    rewrite !not_elem_of_cons in *. cbn in Hchurn.
    rewrite orb_false_r in Hchurn. apply String.eqb_neq in Hchurn.
    tauto.
  - apply row_total_charges.
Qed.

Lemma encoding_parity_witness :
  ∃ df X y,
    preprocess_encoded example_parse (read_csv example_table) = Ok df
    ∧ get_feature_matrix_and_target df = Ok (X, y)
    ∧ rows_agree ["gender"; "TotalCharges"] X 1
        (build_feature_row (request_of_row example_new_customer)
           (5990 # 100) (6980 # 100))
    ∧ build_feature_row (request_of_row example_new_customer)
        (5990 # 100) (6980 # 100) !! "TotalCharges"
      = Some (inject_Z 0 * 80)%Q.
Proof.
  apply (encoding_parity example_parse example_table
           (5990 # 100) (6980 # 100) 1 example_new_customer);
    try reflexivity.
  unfold valid_request. cbn. repeat split; (lia || lra).
Defined.

(* ------------------------------------------------------------------ *)
(** ** Total charges *)

(** C10. For every request the inference row has [TotalCharges] and
    [total_spend] both set to tenure x monthly charge, so the two are
    equal; the request has no total-charge field to read.  At training
    the [TotalCharges] column of the encoded frame is instead the cleaned
    column of the file (its text read as a number, the median where it is
    blank), and [total_spend] alone is tenure x monthly charge: in
    [example_table] the first record has 105 on file against 2 x 50. *)
Theorem total_charges_is_total_spend (req : PredictRequest) (q33 q66 : Q) :
  let row := build_feature_row req q33 q66 in
  row !! "TotalCharges" = Some (inject_Z (tenure req) * monthly_charges req)%Q
  ∧ row !! "total_spend" = Some (inject_Z (tenure req) * monthly_charges req)%Q
  ∧ row !! "TotalCharges" = row !! "total_spend"
  ∧ (∀ parse a b t, (a < b)%Q →
       ∃ df, preprocess_encoded_at parse a b (read_csv t) = Ok df
             ∧ df_get "TotalCharges" df = Some (cleaned_total_charges parse t)
             ∧ df_get "total_spend" df
               = Some (NumS (map (fun r => Some (inject_Z (c_tenure r)
                                                 * c_MonthlyCharges r)%Q) t)))
  ∧ (∃ df s,
       preprocess_encoded example_parse (read_csv example_table) = Ok df
       ∧ df_get "TotalCharges" df = Some s
       ∧ num_at s 0 = Some 105%Q
       ∧ build_feature_row (request_of_row example_customer) q33 q66
           !! "TotalCharges" = Some (inject_Z 2 * 50)%Q).
Proof.
  cbv zeta. destruct (row_total_charges req q33 q66) as [H1 H2].
  split; [exact H1|]. split; [exact H2|].
  split; [now rewrite H1, H2|]. split.
  - intros parse a b t Hab. eexists.
    split; [now apply preprocess_encoded_at_read_csv|].
    split; reflexivity.
  - eexists. eexists. split; [vm_compute; reflexivity|].
    split; [reflexivity|]. split; [reflexivity|].
    apply row_total_charges.
Qed.

Lemma total_charges_is_total_spend_witness :
  ∃ df, preprocess_encoded_at example_parse 45 75 (read_csv example_table)
        = Ok df
        ∧ df_get "TotalCharges" df
          = Some (cleaned_total_charges example_parse example_table).
Proof.
  destruct (total_charges_is_total_spend
              (request_of_row example_customer) 45 75) as (_ & _ & _ & H & _).
  destruct (H example_parse 45%Q 75%Q example_table) as (df & H1 & H2 & _);
    [reflexivity|].
  exists df. split; assumption.
Defined.

(* ------------------------------------------------------------------ *)
(** * Further properties of the inference service *)

(** ** The keys of the feature row *)

Lemma startswith_split (p k : string) :
  startswith p k = true → ∃ cat, k = p +:+ cat.
Proof.
  revert k. induction p as [|a p IH]; intros k H.
  - exists k. reflexivity.
  - destruct k as [|b k]; [discriminate|]. cbn [startswith] in H.
    apply andb_true_iff in H as [Hab Hk].
    apply Ascii.eqb_eq in Hab as ->.
    destruct (IH k Hk) as [cat ->]. exists cat. reflexivity.
Qed.

Lemma base_row_is_Some (req : PredictRequest) (k : string) :
  k ∈ base_keys → is_Some (base_row req !! k).
Proof.
  intros H. unfold base_keys in H.
  repeat (apply elem_of_cons in H as [->|H]; [eexists; reflexivity|]).
  now apply elem_of_nil in H.
Qed.

(** A key outside the six families is looked up in the dict literal. *)
Lemma row_outside_families (req : PredictRequest) (q33 q66 : Q) (k : string) :
  startswith "Contract_" k = false →
  startswith "InternetService_" k = false →
  startswith "PaymentMethod_" k = false →
  startswith "MultipleLines_" k = false →
  startswith "tenure_group_" k = false →
  startswith "monthly_charges_bucket_" k = false →
  build_feature_row req q33 q66 !! k = base_row req !! k.
Proof.
  intros H1 H2 H3 H4 H5 H6. unfold build_feature_row. cbv zeta.
  rewrite onehot_monthly_bucket_frame, onehot_tenure_group_frame,
    onehot_multiple_lines_frame, onehot_payment_frame,
    onehot_internet_frame, onehot_contract_frame by assumption.
  reflexivity.
Qed.

(** Membership of a family key in [row_keys]. *)
Ltac family_key p cats cat :=
  unfold row_keys; rewrite !elem_of_app, <- (elem_of_family p cats cat);
  (split; [|tauto]);
  intros ?;
  repeat match goal with
         | Hx : _ ∨ _ |- _ => destruct Hx as [Hx|Hx]
         end;
  try assumption; exfalso;
  match goal with
  | Hx : _ ∈ _ |- _ =>
      revert Hx;
      first [ apply prefixed_not_base; reflexivity
            | apply not_elem_of_family; reflexivity ]
  end.

Lemma contract_key_in_row_keys (cat : string) :
  "Contract_" +:+ cat ∈ row_keys ↔ cat ∈ contract_cats.
Proof. family_key "Contract_" contract_cats cat. Qed.

Lemma internet_key_in_row_keys (cat : string) :
  "InternetService_" +:+ cat ∈ row_keys ↔ cat ∈ internet_cats.
Proof. family_key "InternetService_" internet_cats cat. Qed.

Lemma payment_key_in_row_keys (cat : string) :
  "PaymentMethod_" +:+ cat ∈ row_keys ↔ cat ∈ payment_cats.
Proof. family_key "PaymentMethod_" payment_cats cat. Qed.

Lemma multiple_lines_key_in_row_keys (cat : string) :
  "MultipleLines_" +:+ cat ∈ row_keys ↔ cat ∈ multiple_lines_cats.
Proof. family_key "MultipleLines_" multiple_lines_cats cat. Qed.

Lemma tenure_group_key_in_row_keys (cat : string) :
  "tenure_group_" +:+ cat ∈ row_keys ↔ cat ∈ labels_tenure.
Proof. family_key "tenure_group_" labels_tenure cat. Qed.

Lemma monthly_bucket_key_in_row_keys (cat : string) :
  "monthly_charges_bucket_" +:+ cat ∈ row_keys ↔ cat ∈ monthly_cats.
Proof. family_key "monthly_charges_bucket_" monthly_cats cat. Qed.

Lemma outside_key_in_row_keys (k : string) :
  startswith "Contract_" k = false →
  startswith "InternetService_" k = false →
  startswith "PaymentMethod_" k = false →
  startswith "MultipleLines_" k = false →
  startswith "tenure_group_" k = false →
  startswith "monthly_charges_bucket_" k = false →
  k ∈ row_keys ↔ k ∈ base_keys.
Proof.
  intros H1 H2 H3 H4 H5 H6. unfold row_keys. rewrite !elem_of_app.
  split; [|tauto].
  intros H.
  repeat match goal with
         | Hx : _ ∨ _ |- _ => destruct Hx as [Hx|Hx]
         end;
    try assumption; exfalso; revert H; now apply not_elem_of_family.
Qed.

(** Case analysis on a key: in one of the six families, or outside. *)
Ltac key_cases k :=
  destruct (startswith "Contract_" k) eqn:?E1;
  [|destruct (startswith "InternetService_" k) eqn:?E2;
    [|destruct (startswith "PaymentMethod_" k) eqn:?E3;
      [|destruct (startswith "MultipleLines_" k) eqn:?E4;
        [|destruct (startswith "tenure_group_" k) eqn:?E5;
          [|destruct (startswith "monthly_charges_bucket_" k) eqn:?E6]]]]].

Lemma row_is_Some (req : PredictRequest) (q33 q66 : Q) (k : string) :
  is_Some (build_feature_row req q33 q66 !! k) ↔ k ∈ row_keys.
Proof.
  key_cases k;
    try match goal with
        | H : startswith _ k = true |- _ =>
            apply startswith_split in H as [cat ->]
        end.
  - rewrite row_contract, contract_key_in_row_keys.
    case_bool_decide; [split; eauto|split; [intros [? ?]; discriminate|tauto]].
  - rewrite row_internet, internet_key_in_row_keys.
    case_bool_decide; [split; eauto|split; [intros [? ?]; discriminate|tauto]].
  - rewrite row_payment, payment_key_in_row_keys.
    case_bool_decide; [split; eauto|split; [intros [? ?]; discriminate|tauto]].
  - rewrite row_multiple_lines, multiple_lines_key_in_row_keys.
    case_bool_decide; [split; eauto|split; [intros [? ?]; discriminate|tauto]].
  - rewrite row_tenure_group, tenure_group_key_in_row_keys.
    case_bool_decide; [split; eauto|split; [intros [? ?]; discriminate|tauto]].
  - rewrite row_monthly_bucket, monthly_bucket_key_in_row_keys.
    case_bool_decide; [split; eauto|split; [intros [? ?]; discriminate|tauto]].
  - rewrite row_outside_families, outside_key_in_row_keys by assumption.
    split; [|apply base_row_is_Some].
    intros [v Hv]. destruct (decide (k ∈ base_keys)) as [|Hn]; [assumption|].
    rewrite base_row_fresh in Hv by exact Hn. discriminate.
Qed.

(** The row has the same 37 keys for every request and every pair of
    thresholds: the 16 of the dict literal and the 21 indicator keys. *)
Theorem row_keys_fixed (req : PredictRequest) (q33 q66 : Q) :
  dom (build_feature_row req q33 q66) = list_to_set row_keys
  ∧ size (build_feature_row req q33 q66) = 37%nat.
Proof.
  assert (Hdom : dom (build_feature_row req q33 q66)
                 = (list_to_set row_keys : gset string)).
  { apply set_eq. intros k.
    rewrite elem_of_dom, elem_of_list_to_set. apply row_is_Some. }
  split; [exact Hdom|].
  rewrite <- size_dom, Hdom. reflexivity.
Qed.

Lemma base_row_value (req : PredictRequest) (k : string) (v : Q) :
  base_row req !! k = Some v → k ∈ number_keys ∨ ∃ b, v = b2q b.
Proof.
  unfold base_row. cbv zeta. intros H.
  repeat (apply lookup_insert_Some in H as [[<- <-]|[_ H]];
          [first [ left; apply in_cats_elem; reflexivity
                 | right; eexists; reflexivity ]|]).
  now rewrite lookup_empty in H.
Qed.

(** Every value of the row other than the five numbers of the request
    ([SeniorCitizen], [tenure], [MonthlyCharges], [TotalCharges],
    [total_spend]) is 0 or 1. *)
Theorem flags_are_bits (req : PredictRequest) (q33 q66 : Q)
    (k : string) (v : Q) :
  build_feature_row req q33 q66 !! k = Some v →
  k ∉ number_keys →
  v = 0%Q ∨ v = 1%Q.
Proof.
  intros H Hk.
  assert (Hb : ∀ b, b2q b = 0%Q ∨ b2q b = 1%Q) by (intros []; cbn; tauto).
  key_cases k;
    try match goal with
        | E : startswith _ k = true |- _ =>
            apply startswith_split in E as [cat ->]
        end.
  - rewrite row_contract in H. case_bool_decide; [|discriminate].
    injection H as <-. apply Hb.
  - rewrite row_internet in H. case_bool_decide; [|discriminate].
    injection H as <-. apply Hb.
  - rewrite row_payment in H. case_bool_decide; [|discriminate].
    injection H as <-. apply Hb.
  - rewrite row_multiple_lines in H. case_bool_decide; [|discriminate].
    injection H as <-. apply Hb.
  - rewrite row_tenure_group in H. case_bool_decide; [|discriminate].
    injection H as <-. apply Hb.
  - rewrite row_monthly_bucket in H. case_bool_decide; [|discriminate].
    injection H as <-. apply Hb.
  - rewrite row_outside_families in H by assumption.
    apply base_row_value in H as [H|[b ->]]; [contradiction|apply Hb].
Qed.

Lemma flags_are_bits_witness :
  (1 = 0 ∨ 1 = 1)%Q.
Proof.
  apply (flags_are_bits request_unknown_lines 45 75 "PaperlessBilling" 1).
  - vm_compute. reflexivity.
  - intros H. apply in_cats_elem in H. discriminate H.
Defined.

(** ** Whitespace and letter case *)

Lemma lstrip_idem (s : string) : lstrip (lstrip s) = lstrip s.
Proof.
  induction s as [|a s IH]; [reflexivity|].
  cbn [lstrip]. destruct (py_isspace a) eqn:E; [exact IH|].
  cbn [lstrip]. now rewrite E.
Qed.

Lemma rstrip_idem (s : string) : rstrip (rstrip s) = rstrip s.
Proof.
  induction s as [|a s IH]; [reflexivity|].
  cbn [rstrip]. destruct (rstrip s) as [|b t] eqn:E.
  - destruct (py_isspace a) eqn:Ea; [reflexivity|].
    cbn [rstrip]. now rewrite Ea.
  - change (rstrip (String a (String b t)))
      with (match rstrip (String b t) with
            | EmptyString =>
                if py_isspace a then EmptyString else String a EmptyString
            | u => String a u
            end).
    now rewrite IH.
Qed.

Lemma lstrip_rstrip (s : string) : lstrip (rstrip s) = rstrip (lstrip s).
Proof.
  induction s as [|a s IH]; [reflexivity|].
  cbn [lstrip rstrip]. destruct (py_isspace a) eqn:Ea.
  - rewrite <- IH. destruct (rstrip s) as [|b t]; [reflexivity|].
    cbn [lstrip]. now rewrite Ea.
  - cbn [rstrip].
    destruct (rstrip s) as [|b t]; cbn [lstrip]; now rewrite Ea.
Qed.

Lemma strip_idem (s : string) : strip (strip s) = strip s.
Proof.
  unfold strip. now rewrite lstrip_rstrip, lstrip_idem, rstrip_idem.
Qed.

(** Surrounding whitespace in the string fields of a request never
    changes the row: the request with every string field stripped gives
    the row of the request itself. *)
Theorem row_ignores_surrounding_whitespace (req : PredictRequest)
    (q33 q66 : Q) :
  build_feature_row (map_strings strip req) q33 q66
  = build_feature_row req q33 q66.
Proof.
  unfold build_feature_row, base_row, onehot_contract, onehot_internet,
    onehot_payment, onehot_multiple_lines, yes.
  cbn [map_strings tenure monthly_charges contract internet_service
       payment_method paperless_billing tech_support online_security gender
       senior_citizen partner dependents phone_service online_backup
       device_protection streaming_tv streaming_movies multiple_lines].
  now rewrite !strip_idem.
Qed.

Lemma isspace_lower (a : ascii) : py_isspace (py_lower_char a) = py_isspace a.
Proof. destruct a as [[] [] [] [] [] [] [] []]; reflexivity. Qed.

Lemma lower_char_idem (a : ascii) :
  py_lower_char (py_lower_char a) = py_lower_char a.
Proof. destruct a as [[] [] [] [] [] [] [] []]; reflexivity. Qed.

Lemma lower_idem (s : string) : lower (lower s) = lower s.
Proof.
  induction s as [|a s IH]; [reflexivity|].
  cbn [lower]. now rewrite lower_char_idem, IH.
Qed.

Lemma lstrip_lower (s : string) : lstrip (lower s) = lower (lstrip s).
Proof.
  induction s as [|a s IH]; [reflexivity|].
  cbn [lower lstrip]. rewrite isspace_lower.
  now destruct (py_isspace a).
Qed.

Lemma rstrip_lower (s : string) : rstrip (lower s) = lower (rstrip s).
Proof.
  induction s as [|a s IH]; [reflexivity|].
  cbn [lower rstrip]. rewrite IH, isspace_lower.
  destruct (rstrip s); cbn [lower]; [now destruct (py_isspace a)|reflexivity].
Qed.

Lemma lower_strip_lower (s : string) :
  lower (strip (lower s)) = lower (strip s).
Proof.
  unfold strip. now rewrite lstrip_lower, rstrip_lower, lower_idem.
Qed.

(** The yes/no fields, [gender] and [multiple_lines] are read without
    regard to letter case: lower-casing them does not change the row. *)
Theorem row_ignores_case_of_flags (req : PredictRequest) (q33 q66 : Q) :
  build_feature_row (map_flags lower req) q33 q66
  = build_feature_row req q33 q66.
Proof.
  unfold build_feature_row, base_row, onehot_contract, onehot_internet,
    onehot_payment, onehot_multiple_lines, yes.
  cbn [map_flags tenure monthly_charges contract internet_service
       payment_method paperless_billing tech_support online_security gender
       senior_citizen partner dependents phone_service online_backup
       device_protection streaming_tv streaming_movies multiple_lines].
  now rewrite !lower_strip_lower.
Qed.

(** ** When [predict] answers *)

Lemma getitem_base (req : PredictRequest) (q33 q66 : Q) (k : string) :
  k ∈ base_keys →
  ∃ v, getitem (build_feature_row req q33 q66) k = Ok v.
Proof.
  intros Hk. unfold getitem.
  rewrite build_feature_row_base by exact Hk.
  destruct (base_row_is_Some req k Hk) as [v ->]. eauto.
Qed.

(** After the guard, [predict_vector] fails only by a [TypeError] (a
    threshold is missing) or a [ValueError] (the scaler's width). *)
Lemma predict_vector_errors (st : AppState) (req : PredictRequest)
    (f : list Q → Q) (sc : StandardScaler) (fc : list string) :
  model st = Some f → scaler st = Some sc → feature_columns st = Some fc →
  (∃ X, predict_vector st req = Ok X)
  ∨ (∃ msg, predict_vector st req = Raise (TypeError msg))
  ∨ (∃ msg, predict_vector st req = Raise (ValueError msg)).
Proof.
  intros Hf Hsc Hfc. unfold predict_vector. rewrite Hf, Hsc, Hfc.
  assert (Hrow : ∀ a b,
            (∃ X, (a0 ← getitem (build_feature_row req a b) "tenure";
                   b0 ← getitem (build_feature_row req a b) "MonthlyCharges";
                   c0 ← getitem (build_feature_row req a b) "TotalCharges";
                   d0 ← getitem (build_feature_row req a b) "total_spend";
                   scaled_num ← transform sc [a0; b0; c0; d0];
                   Ok (assemble fc scaled_num (build_feature_row req a b)))
                  = Ok X)
            ∨ (∃ msg,
                 (a0 ← getitem (build_feature_row req a b) "tenure";
                  b0 ← getitem (build_feature_row req a b) "MonthlyCharges";
                  c0 ← getitem (build_feature_row req a b) "TotalCharges";
                  d0 ← getitem (build_feature_row req a b) "total_spend";
                  scaled_num ← transform sc [a0; b0; c0; d0];
                  Ok (assemble fc scaled_num (build_feature_row req a b)))
                 = Raise (ValueError msg))).
  { intros a b.
    destruct (getitem_base req a b "tenure") as [v1 ->];
      [apply in_cats_elem; reflexivity|].
    destruct (getitem_base req a b "MonthlyCharges") as [v2 ->];
      [apply in_cats_elem; reflexivity|].
    destruct (getitem_base req a b "TotalCharges") as [v3 ->];
      [apply in_cats_elem; reflexivity|].
    destruct (getitem_base req a b "total_spend") as [v4 ->];
      [apply in_cats_elem; reflexivity|].
    cbn [mbind result_bind]. unfold transform.
    destruct (_ && _); cbn [mbind result_bind]; eauto. }
  unfold build_feature_row_from.
  destruct (q33 st) as [a|]; [|right; left; eauto].
  destruct (q66 st) as [b|].
  - cbn [mbind result_bind]. destruct (Hrow a b); eauto.
  - destruct (Qle_bool (monthly_charges req) a);
      [|right; left; eauto].
    cbn [mbind result_bind]. destruct (Hrow a a); eauto.
Qed.

(** [predict] raises an HTTP error exactly when the model, the scaler
    or the manifest is not loaded, and the error is then the 503 "Model
    not loaded", whatever the request. *)
Theorem service_unavailable_iff_not_loaded (st : AppState)
    (req : PredictRequest) :
  ((∃ code detail, predict st req = Raise (HTTPException code detail))
   ↔ model st = None ∨ scaler st = None ∨ feature_columns st = None)
  ∧ (model st = None ∨ scaler st = None ∨ feature_columns st = None →
     predict st req = Raise (HTTPException 503 "Model not loaded")).
Proof.
  assert (Hmiss : model st = None ∨ scaler st = None
                  ∨ feature_columns st = None →
                  predict st req = Raise (HTTPException 503 "Model not loaded")).
  { intros H. unfold predict, predict_vector.
    destruct (model st), (scaler st), (feature_columns st);
      try reflexivity.
    destruct H as [H|[H|H]]; discriminate H. }
  split; [|exact Hmiss]. split; [|intros H; rewrite (Hmiss H); eauto].
  intros (code & detail & H).
  destruct (model st) as [f|] eqn:Hf; [|tauto].
  destruct (scaler st) as [sc|] eqn:Hsc; [|tauto].
  destruct (feature_columns st) as [fc|] eqn:Hfc; [|tauto].
  exfalso. unfold predict in H.
  destruct (predict_vector_errors st req f sc fc Hf Hsc Hfc)
    as [[X HX]|[[msg HX]|[msg HX]]]; rewrite HX in H;
    cbn [mbind result_bind] in H; [rewrite Hf in H|..]; discriminate H.
Qed.

(** [predict] returns a response only when everything it reads is in
    place: the three artifacts are loaded, the first threshold is
    loaded, the second one too unless the charge is at most the first
    (the second comparison is then not reached), and the scaler was
    fitted on four features.  The response is then made of the model's
    probability for a vector as long as the manifest. *)
Theorem predict_answers_only_when_ready (st : AppState)
    (req : PredictRequest) (resp : PredictResponse) :
  predict st req = Ok resp →
  ∃ f sc fc a X,
    model st = Some f ∧ scaler st = Some sc ∧ feature_columns st = Some fc
    ∧ q33 st = Some a
    ∧ (q66 st = None → (monthly_charges req <= a)%Q)
    ∧ length (mean_ sc) = 4%nat ∧ length (scale_ sc) = 4%nat
    ∧ predict_vector st req = Ok X ∧ length X = length fc
    ∧ resp = {| churn_probability := round2 (f X);
                prediction := prediction_of (f X);
                confidence := confidence_of (f X) |}.
Proof.
  intros H. unfold predict in H.
  destruct (predict_vector st req) as [X|e] eqn:HX; [|discriminate H].
  cbn [mbind result_bind] in H.
  destruct (model st) as [f|] eqn:Hf; [|discriminate H].
  assert (Hresp : resp = {| churn_probability := round2 (f X);
                            prediction := prediction_of (f X);
                            confidence := confidence_of (f X) |})
    by congruence.
  clear H. unfold predict_vector in HX. rewrite Hf in HX.
  destruct (scaler st) as [sc|] eqn:Hsc; [|discriminate HX].
  destruct (feature_columns st) as [fc|] eqn:Hfc; [|discriminate HX].
  assert (Hrow : ∀ a b,
            (a0 ← getitem (build_feature_row req a b) "tenure";
             b0 ← getitem (build_feature_row req a b) "MonthlyCharges";
             c0 ← getitem (build_feature_row req a b) "TotalCharges";
             d0 ← getitem (build_feature_row req a b) "total_spend";
             scaled_num ← transform sc [a0; b0; c0; d0];
             Ok (assemble fc scaled_num (build_feature_row req a b)))
            = Ok X →
            length (mean_ sc) = 4%nat ∧ length (scale_ sc) = 4%nat
            ∧ length X = length fc).
  { intros a b HR.
    destruct (getitem_base req a b "tenure") as [v1 E1];
      [apply in_cats_elem; reflexivity|].
    destruct (getitem_base req a b "MonthlyCharges") as [v2 E2];
      [apply in_cats_elem; reflexivity|].
    destruct (getitem_base req a b "TotalCharges") as [v3 E3];
      [apply in_cats_elem; reflexivity|].
    destruct (getitem_base req a b "total_spend") as [v4 E4];
      [apply in_cats_elem; reflexivity|].
    rewrite E1, E2, E3, E4 in HR. cbn [mbind result_bind] in HR.
    unfold transform in HR. cbn [length] in HR.
    destruct (Nat.eqb_spec 4 (length (mean_ sc))) as [M|M];
      [|discriminate HR].
    destruct (Nat.eqb_spec 4 (length (scale_ sc))) as [S|S];
      [|discriminate HR].
    cbn [andb mbind result_bind] in HR.
    split; [congruence|]. split; [congruence|].
    assert (HXe : X = assemble fc
                        (zip_with (fun v ms => ((v - ms.1) / ms.2)%Q)
                           [v1; v2; v3; v4] (zip (mean_ sc) (scale_ sc)))
                        (build_feature_row req a b)) by congruence.
    rewrite HXe. unfold assemble. apply length_map. }
  unfold build_feature_row_from in HX.
  destruct (q33 st) as [a|] eqn:Ha; [|discriminate HX].
  exists f, sc, fc, a, X.
  destruct (q66 st) as [b|] eqn:Hb.
  - cbn [mbind result_bind] in HX. destruct (Hrow a b HX) as (M & S & L).
    repeat split; try assumption; try reflexivity.
    intros E. discriminate E.
  - destruct (Qle_bool (monthly_charges req) a) eqn:Hle; [|discriminate HX].
    cbn [mbind result_bind] in HX. destruct (Hrow a a HX) as (M & S & L).
    repeat split; try assumption; try reflexivity.
    intros _. now apply Qle_bool_iff.
Qed.

Lemma predict_answers_only_when_ready_witness :
  ∃ f sc fc a X,
    model example_state = Some f ∧ scaler example_state = Some sc
    ∧ feature_columns example_state = Some fc
    ∧ q33 example_state = Some a
    ∧ (q66 example_state = None →
       (monthly_charges request_unknown_lines <= a)%Q)
    ∧ length (mean_ sc) = 4%nat ∧ length (scale_ sc) = 4%nat
    ∧ predict_vector example_state request_unknown_lines = Ok X
    ∧ length X = length fc
    ∧ {| churn_probability := round2 (1 # 2);
         prediction := "Likely to Churn"; confidence := "Low" |}
      = {| churn_probability := round2 (f X);
           prediction := prediction_of (f X);
           confidence := confidence_of (f X) |}.
Proof.
  apply (predict_answers_only_when_ready example_state request_unknown_lines
           {| churn_probability := round2 (1 # 2);
              prediction := "Likely to Churn"; confidence := "Low" |}).
  reflexivity.
Defined.

(** A manifest column that is none of the row's 37 keys contributes 0
    to the model's input, silently: [row.get(c, 0)]. *)
Theorem unknown_manifest_column_is_zero (st : AppState)
    (req : PredictRequest) (fc : list string) (i : nat) (c : string) :
  loaded st → feature_columns st = Some fc →
  fc !! i = Some c → c ∉ row_keys →
  ∃ X, predict_vector st req = Ok X ∧ X !! i = Some 0%Q.
Proof.
  intros ([f Hf] & _ & [a Ha] & [b Hb] & sc & Hsc & Hm & Hs) Hfc Hi Hc.
  eexists. split.
  - apply (predict_vector_loaded st req f sc fc a b); assumption.
  - rewrite map_lookup, Hi. cbn. f_equal. unfold vector_entry.
    assert (Hnone : build_feature_row req a b !! c = None).
    { destruct (build_feature_row req a b !! c) eqn:E; [|reflexivity].
      exfalso. apply Hc. apply (proj1 (row_is_Some req a b c)). eauto. }
    rewrite Hnone.
    destruct (index c numerical_cols) as [j|] eqn:Ej; [|reflexivity].
    exfalso. apply Hc. unfold numerical_cols in Ej. cbn [index] in Ej.
    repeat match type of Ej with
           | context [String.eqb ?x c] =>
               destruct (String.eqb_spec x c) as [<-|_];
               [apply in_cats_elem; reflexivity|]
           end.
    discriminate Ej.
Qed.

Lemma unknown_manifest_column_is_zero_witness :
  ∃ X, predict_vector example_state request_unknown_lines = Ok X
       ∧ X !! 2%nat = Some 0%Q.
Proof.
  apply (unknown_manifest_column_is_zero example_state request_unknown_lines
           ["tenure"; "Contract_One year"; "PaymentMethod_Cash"] 2
           "PaymentMethod_Cash").
  - exact example_state_loaded.
  - reflexivity.
  - reflexivity.
  - intros H. apply in_cats_elem in H. discriminate H.
Defined.

(** ** Rounding and the confidence bands *)

Lemma round_half_even_comp (x y : Q) :
  (x == y)%Q → round_half_even x = round_half_even y.
Proof.
  intros H. unfold round_half_even.
  assert (Hf : Qfloor x = Qfloor y) by now rewrite H.
  rewrite Hf.
  assert (Hc : (x - inject_Z (Qfloor y) ?= 1 # 2)%Q
               = (y - inject_Z (Qfloor y) ?= 1 # 2)%Q) by now rewrite H.
  now rewrite Hc.
Qed.

Lemma round_half_even_Z (k : Z) : round_half_even (inject_Z k) = k.
Proof.
  unfold round_half_even. rewrite Qfloor_Z.
  destruct (Qcompare_spec (inject_Z k - inject_Z k) (1 # 2)) as [E|E|E];
    [lra|reflexivity|lra].
Qed.

Lemma round_half_even_mono (x y : Q) :
  (x <= y)%Q → (round_half_even x <= round_half_even y)%Z.
Proof.
  intros Hxy.
  destruct (round_half_even_near x) as [Hx _].
  destruct (round_half_even_near y) as [_ Hy].
  destruct (Z_le_gt_dec (round_half_even x) (round_half_even y))
    as [Hle|Hgt]; [exact Hle|].
  assert (Hk : (inject_Z (round_half_even y) + 1
                <= inject_Z (round_half_even x))%Q).
  { change 1%Q with (inject_Z 1). rewrite <- inject_Z_plus.
    apply inject_Z_le. lia. }
  assert (Heq : (x == y)%Q) by lra.
  apply round_half_even_comp in Heq. lia.
Qed.

(** Rounding to two decimals keeps the order of probabilities and
    changes nothing in a value that is already rounded. *)
Theorem round2_monotone_idempotent (p q : Q) :
  ((p <= q)%Q → (round2 p <= round2 q)%Q)
  ∧ round2 (round2 p) = round2 p.
Proof.
  split.
  - intros Hpq. unfold round2.
    assert (Hk : (round_half_even (p * 100) <= round_half_even (q * 100))%Z)
      by (apply round_half_even_mono; lra).
    apply inject_Z_le in Hk.
    assert (H1 : ∀ k, (inject_Z k / 100 == inject_Z k * (1 # 100))%Q)
      by (intros; field).
    rewrite !H1. lra.
  - unfold round2 at 1 3.
    rewrite (round_half_even_comp (round2 p * 100)
               (inject_Z (round_half_even (p * 100)))).
    + now rewrite round_half_even_Z.
    + unfold round2. field.
Qed.

Lemma round2_monotone_idempotent_witness :
  (round2 (124 # 1000) <= round2 (126 # 1000))%Q.
Proof.
  apply (round2_monotone_idempotent (124 # 1000) (126 # 1000)). lra.
Defined.


(* ------------------------------------------------------------------ *)
(** * Further properties of the training pipeline *)

(** ** Cleaning *)

Lemma df_get_drop_ne (names : list string) (name : string) (df : DataFrame) :
  in_cats names name = false → df_get name (df_drop names df) = df_get name df.
Proof.
  intros Hn. unfold df_drop.
  induction df as [|[n s] df IH]; [reflexivity|].
  cbn [List.filter fst df_get].
  destruct (String.eqb_spec n name) as [->|Hne].
  - unfold in_cats in Hn.
    replace (existsb (String.eqb name) names) with false.
    cbn [negb df_get]. now rewrite String.eqb_refl.
  - destruct (negb (existsb (String.eqb n) names)); [|exact IH].
    cbn [df_get]. destruct (String.eqb_spec n name); [contradiction|exact IH].
Qed.

Lemma df_get_drop_eq (name : string) (df : DataFrame) :
  df_get name (df_drop [name] df) = None.
Proof.
  unfold df_drop.
  induction df as [|[n s] df IH]; [reflexivity|].
  cbn [List.filter fst existsb].
  destruct (String.eqb_spec n name) as [->|Hne]; cbn [orb negb].
  - exact IH.
  - cbn [df_get]. destruct (String.eqb_spec n name); [contradiction|exact IH].
Qed.

Lemma has_column_drop (name : string) (df : DataFrame) :
  has_column name (df_drop [name] df) = false.
Proof. apply has_column_false, df_get_drop_eq. Qed.

Lemma has_column_set_ne (name other : string) (s : Series) (df : DataFrame) :
  name ≠ other →
  has_column other (df_set name s df) = has_column other df.
Proof.
  intros Hne.
  destruct (has_column other df) eqn:E.
  - apply has_column_get. rewrite df_get_set_ne by exact Hne.
    now apply has_column_get.
  - apply has_column_false. rewrite df_get_set_ne by exact Hne.
    now apply has_column_false.
Qed.

(** [load_and_clean_data] removes [customerID], and leaves every column
    other than [customerID] and [TotalCharges] as it was; a frame with
    neither column is returned unchanged. *)
Theorem cleaning_touches_two_columns (parse : string → option Q)
    (df : DataFrame) :
  has_column "customerID" (load_and_clean_data parse df) = false
  ∧ (∀ name, name ≠ "customerID" → name ≠ "TotalCharges" →
       df_get name (load_and_clean_data parse df) = df_get name df)
  ∧ (has_column "customerID" df = false →
     has_column "TotalCharges" df = false →
     load_and_clean_data parse df = df).
Proof.
  unfold load_and_clean_data.
  set (df1 := if has_column "customerID" df
              then df_drop ["customerID"] df else df).
  assert (H1 : has_column "customerID" df1 = false).
  { subst df1. destruct (has_column "customerID" df) eqn:E;
      [apply has_column_drop|exact E]. }
  assert (H2 : ∀ name, name ≠ "customerID" → df_get name df1 = df_get name df).
  { intros name Hn. subst df1.
    destruct (has_column "customerID" df); [|reflexivity].
    apply df_get_drop_ne. cbn. rewrite orb_false_r.
    apply String.eqb_neq. congruence. }
  split; [|split].
  - destruct (df_get "TotalCharges" df1); [|exact H1].
    rewrite has_column_set_ne by discriminate. exact H1.
  - intros name Hn Ht. destruct (df_get "TotalCharges" df1).
    + rewrite df_get_set_ne by congruence. now apply H2.
    + now apply H2.
  - intros Hc Ht. subst df1. rewrite Hc.
    apply has_column_false in Ht. now rewrite Ht.
Qed.

Lemma elem_of_insert_sorted_q (x y : Q) (l : list Q) :
  y ∈ insert_sorted_q x l ↔ y = x ∨ y ∈ l.
Proof.
  induction l as [|z l IH]; cbn [insert_sorted_q].
  - rewrite list_elem_of_singleton, elem_of_nil. tauto.
  - destruct (Qle_bool x z); rewrite !elem_of_cons; [tauto|].
    rewrite IH. tauto.
Qed.

Lemma length_insert_sorted_q (x : Q) (l : list Q) :
  length (insert_sorted_q x l) = S (length l).
Proof.
  induction l as [|z l IH]; cbn [insert_sorted_q]; [reflexivity|].
  destruct (Qle_bool x z); cbn [length]; [reflexivity|now rewrite IH].
Qed.

Lemma elem_of_sorted_present (vals : list (option Q)) (x : Q) :
  x ∈ sorted_present vals ↔ Some x ∈ vals.
Proof.
  unfold sorted_present.
  induction vals as [|[v|] vals IH]; cbn [foldr].
  - rewrite !elem_of_nil. tauto.
  - rewrite elem_of_insert_sorted_q, elem_of_cons, IH.
    split; (intros [H|H]; [left; congruence|now right]).
  - rewrite elem_of_cons, IH. split; [tauto|].
    intros [H|H]; [discriminate|exact H].
Qed.

Lemma sorted_present_nil (vals : list (option Q)) :
  sorted_present vals = [] ↔ ∀ x, Some x ∉ vals.
Proof.
  split.
  - intros H x Hx. apply elem_of_sorted_present in Hx.
    rewrite H in Hx. now apply elem_of_nil in Hx.
  - intros H. destruct (sorted_present vals) as [|y l] eqn:E; [reflexivity|].
    exfalso. apply (H y), elem_of_sorted_present. rewrite E.
    apply elem_of_cons. now left.
Qed.

(** The median of a column is missing exactly when every cell is, and
    otherwise lies between two of the column's values. *)
Lemma median_spec (vals : list (option Q)) :
  (median (NumS vals) = None ↔ ∀ x, Some x ∉ vals)
  ∧ ∀ m, median (NumS vals) = Some m →
      ∃ a b, Some a ∈ vals ∧ Some b ∈ vals ∧ (a <= m)%Q ∧ (m <= b)%Q.
Proof.
  unfold median. set (xs := sorted_present vals).
  assert (Hin : ∀ j a, xs !! j = Some a → Some a ∈ vals).
  { intros j a Hj. apply elem_of_sorted_present.
    apply list_elem_of_lookup. eauto. }
  destruct (Nat.eqb_spec (length xs) 0) as [Hz|Hnz].
  - apply length_zero_iff_nil in Hz.
    split; [|intros m H; discriminate H].
    split; [intros _|reflexivity]. now apply sorted_present_nil.
  - assert (Hne : ¬ ∀ x, Some x ∉ vals).
    { intros H. apply sorted_present_nil in H. fold xs in H.
      rewrite H in Hnz. now apply Hnz. }
    assert (Hhalf : (length xs / 2 < length xs)%nat)
      by (apply Nat.div_lt; lia).
    destruct (lookup_lt_is_Some_2 xs (length xs / 2) Hhalf) as [b Hb].
    destruct (Nat.odd (length xs)).
    + rewrite Hb. split; [split; [discriminate|contradiction]|].
      intros m [= <-]. exists b, b.
      split; [eauto|]. split; [eauto|]. split; lra.
    + assert (Hprev : (length xs / 2 - 1 < length xs)%nat) by lia.
      destruct (lookup_lt_is_Some_2 xs _ Hprev) as [a Ha].
      rewrite Ha, Hb. split; [split; [discriminate|contradiction]|].
      intros m [= <-].
      destruct (Qlt_le_dec a b).
      * exists a, b. split; [eauto|]. split; [eauto|].
        assert (Hd : ((a + b) / 2 == (a + b) * (1 # 2))%Q) by field.
        rewrite Hd. split; lra.
      * exists b, a. split; [eauto|]. split; [eauto|].
        assert (Hd : ((a + b) / 2 == (a + b) * (1 # 2))%Q) by field.
        rewrite Hd. split; lra.
Qed.

(** ** Binary columns *)

(** One turn of the loop of [encode_binary_columns]. *)
Lemma encode_step_get (df : DataFrame) (col name : string) :
  df_get name
    (match df_get col df with
     | None => df
     | Some s => df_set col (eq_astype_int "Yes" s) df
     end)
  = if String.eqb col name
    then eq_astype_int "Yes" <$> df_get name df
    else df_get name df.
Proof.
  destruct (String.eqb_spec col name) as [->|Hne].
  - destruct (df_get name df) as [s|] eqn:E; [|now rewrite E].
    now rewrite df_get_set_eq by exact s.
  - destruct (df_get col df); [|reflexivity].
    now apply df_get_set_ne.
Qed.

Lemma encode_fold_get (cols : list string) (df : DataFrame) (name : string) :
  NoDup cols →
  df_get name
    (foldl (fun df col =>
              match df_get col df with
              | None => df
              | Some s => df_set col (eq_astype_int "Yes" s) df
              end) df cols)
  = if in_cats cols name
    then eq_astype_int "Yes" <$> df_get name df
    else df_get name df.
Proof.
  intros Hnd. revert df.
  induction Hnd as [|col cols Hnotin Hnd IH]; intros df; [reflexivity|].
  cbn [foldl]. rewrite IH, encode_step_get.
  unfold in_cats. cbn [existsb]. rewrite (String.eqb_sym name col).
  destruct (String.eqb_spec col name) as [->|Hne]; cbn [orb]; [|reflexivity].
  replace (existsb (String.eqb name) cols) with false; [reflexivity|].
  symmetry. apply not_true_is_false. intros H.
  apply Hnotin. now apply in_cats_elem.
Qed.

Lemma encode_fold_columns (cols : list string) (df : DataFrame) :
  columns
    (foldl (fun df col =>
              match df_get col df with
              | None => df
              | Some s => df_set col (eq_astype_int "Yes" s) df
              end) df cols)
  = columns df.
Proof.
  revert df. induction cols as [|col cols IH]; intros df; [reflexivity|].
  cbn [foldl]. rewrite IH.
  destruct (df_get col df) eqn:E; [|reflexivity].
  apply columns_set. apply has_column_get. eauto.
Qed.

Lemma binary_cols_NoDup : NoDup binary_cols.
Proof.
  unfold binary_cols.
  repeat (apply NoDup_cons; split;
          [intros H; apply in_cats_elem in H; discriminate H|]).
  apply NoDup_nil. exact I.
Qed.

Lemma encode_binary_columns_get (df : DataFrame) (name : string) :
  df_get name (encode_binary_columns df)
  = if in_cats binary_cols name
    then eq_astype_int "Yes" <$> df_get name df
    else df_get name df.
Proof.
  rewrite encode_binary_columns_plain.
  apply encode_fold_get, binary_cols_NoDup.
Qed.

(** [encode_binary_columns] keeps the names and the order of the
    columns, leaves every column outside its list untouched, skips a
    listed column the frame does not have, and turns each listed column
    it has into 1 where the cell is the exact string "Yes" and 0 in
    every other cell, missing cells included. *)
Theorem binary_encoding_by_column (df : DataFrame) (name : string) :
  columns (encode_binary_columns df) = columns df
  ∧ (in_cats binary_cols name = false →
     df_get name (encode_binary_columns df) = df_get name df)
  ∧ (in_cats binary_cols name = true →
     match df_get name df with
     | None => df_get name (encode_binary_columns df) = None
     | Some s =>
         ∃ s', df_get name (encode_binary_columns df) = Some s'
               ∧ ∀ i c, cell_at s i = Some c →
                   num_at s' i = Some (if is_yes c then 1 else 0)%Q
     end).
Proof.
  split; [|split].
  - rewrite encode_binary_columns_plain. apply encode_fold_columns.
  - intros H. now rewrite encode_binary_columns_get, H.
  - intros H. rewrite encode_binary_columns_get, H.
    destruct (df_get name df) as [s|]; [|reflexivity].
    eexists. split; [reflexivity|]. apply eq_astype_int_cell.
Qed.

Lemma binary_encoding_by_column_witness :
  df_get "tenure" (encode_binary_columns (read_csv example_table))
  = df_get "tenure" (read_csv example_table).
Proof.
  apply (binary_encoding_by_column (read_csv example_table) "tenure").
  reflexivity.
Defined.

Lemma num_at_zeros {A} (l : list A) (i : nat) (x : A) :
  l !! i = Some x → num_at (NumS (map (fun _ => Some 0%Q) l)) i = Some 0%Q.
Proof. intros H. unfold num_at. now rewrite map_lookup, H. Qed.

(** Encoding is not meant to run twice: a second pass compares the 0/1
    numbers with "Yes" and writes 0 in every cell of every binary
    column. *)
Theorem binary_encoding_twice_zeroes (df : DataFrame) (name : string)
    (s : Series) (i : nat) (c : cell) :
  in_cats binary_cols name = true →
  df_get name df = Some s → cell_at s i = Some c →
  ∃ s', df_get name (encode_binary_columns (encode_binary_columns df))
        = Some s'
        ∧ num_at s' i = Some 0%Q.
Proof.
  intros Hb Hs Hc.
  rewrite !encode_binary_columns_get, Hb, Hs. cbn [fmap option_fmap option_map].
  eexists. split; [reflexivity|].
  unfold cell_at in Hc.
  destruct s as [vals|vals|cats vals]; cbn [eq_astype_int];
    destruct (vals !! i) as [v|] eqn:Ev; try discriminate Hc;
    rewrite map_map; eapply num_at_zeros; eassumption.
Qed.

Lemma binary_encoding_twice_zeroes_witness :
  ∃ s', df_get "Partner"
          (encode_binary_columns
             (encode_binary_columns (read_csv example_table)))
        = Some s'
        ∧ num_at s' 0 = Some 0%Q.
Proof.
  apply (binary_encoding_twice_zeroes (read_csv example_table) "Partner"
           (str_col c_Partner example_table) 0 (CStr "Yes"));
    reflexivity.
Defined.

(** The [gender] column is in the list of binary columns, so it is
    compared with "Yes" like the others: in the encoded training frame
    it is 0 for every record whose gender is not the string "Yes", that
    is for "Male" and "Female" alike. *)
Theorem gender_column_is_zero (parse : string → option Q) (q33 q66 : Q)
    (t : list TelcoRow) :
  (q33 < q66)%Q →
  ∃ df s,
    preprocess_encoded_at parse q33 q66 (read_csv t) = Ok df
    ∧ df_get "gender" df = Some s
    ∧ ∀ i r, t !! i = Some r → c_gender r ≠ "Yes" → num_at s i = Some 0%Q.
Proof.
  intros Hq. eexists. eexists.
  split; [now apply preprocess_encoded_at_read_csv|].
  split; [reflexivity|].
  intros i r Hi Hg. rewrite (num_at_yes t i r Hi).
  apply String.eqb_neq in Hg. now rewrite Hg.
Qed.

Lemma gender_column_is_zero_witness :
  ∃ df s,
    preprocess_encoded_at example_parse 45 75 (read_csv example_table) = Ok df
    ∧ df_get "gender" df = Some s
    ∧ ∀ i r, example_table !! i = Some r → c_gender r ≠ "Yes" →
        num_at s i = Some 0%Q.
Proof.
  apply (gender_column_is_zero example_parse 45 75 example_table).
  reflexivity.
Defined.

(** ** Feature engineering *)

Lemma add_engineered_features_from_inv
    (thresholds : Series → result (Q * Q)) (df df' : DataFrame) :
  add_engineered_features_from thresholds df = Ok df' →
  ∃ tv mv tg mb ts,
    df_get "tenure" df = Some (NumS tv)
    ∧ df_get "MonthlyCharges" df = Some (NumS mv)
    ∧ df' = df_set "total_spend" ts
              (df_set "monthly_charges_bucket" mb
                 (df_set "tenure_group" tg df))
    ∧ ts = NumS (zip_with (fun x y => match x, y with
                                      | Some u, Some v => Some (u * v)%Q
                                      | _, _ => None
                                      end) tv mv).
Proof.
  unfold add_engineered_features_from, getcol. intros H.
  destruct (df_get "tenure" df) as [tenure|] eqn:Ht; [|discriminate H].
  cbn [mbind result_bind] in H.
  destruct (pd_cut tenure bins_tenure labels_tenure false) as [tg|e] eqn:Hcut;
    [|discriminate H].
  cbn [mbind result_bind] in H.
  rewrite (df_get_set_ne "tenure_group" "MonthlyCharges") in H by discriminate.
  destruct (df_get "MonthlyCharges" df) as [mc|] eqn:Hm; [|discriminate H].
  cbn [mbind result_bind] in H.
  destruct (thresholds mc) as [q|e]; [|discriminate H].
  cbn [mbind result_bind] in H.
  destruct (cut_monthly mc q.1 q.2) as [mb|e] eqn:Hcm; [|discriminate H].
  cbn [mbind result_bind] in H.
  rewrite (df_get_set_ne "monthly_charges_bucket" "tenure") in H by discriminate.
  rewrite (df_get_set_ne "tenure_group" "tenure") in H by discriminate.
  rewrite (df_get_set_ne "monthly_charges_bucket" "MonthlyCharges") in H
    by discriminate.
  rewrite (df_get_set_ne "tenure_group" "MonthlyCharges") in H by discriminate.
  rewrite Ht, Hm in H. cbn [mbind result_bind] in H.
  destruct tenure as [?|tv|? ?]; try discriminate H;
    try (unfold pd_cut in Hcut; cbn in Hcut; discriminate Hcut).
  destruct mc as [?|mv|? ?]; try discriminate H.
  cbn [mul_series mbind result_bind] in H. injection H as <-.
  exists tv, mv, tg, mb. eexists. repeat split; reflexivity.
Qed.

(** [add_engineered_features] raises a [KeyError] on a frame without
    [tenure], or with [tenure] but without [MonthlyCharges]; when it
    returns, the frame has the three columns [tenure_group],
    [monthly_charges_bucket] and [total_spend], and every other column
    is as it was. *)
Theorem engineering_adds_three_columns (df : DataFrame) :
  (df_get "tenure" df = None →
   add_engineered_features df = Raise (KeyError "tenure"))
  ∧ (∀ tv, df_get "tenure" df = Some (NumS tv) →
       df_get "MonthlyCharges" df = None →
       add_engineered_features df = Raise (KeyError "MonthlyCharges"))
  ∧ ∀ df', add_engineered_features df = Ok df' →
      has_column "tenure_group" df' = true
      ∧ has_column "monthly_charges_bucket" df' = true
      ∧ has_column "total_spend" df' = true
      ∧ ∀ name, name ≠ "tenure_group" → name ≠ "monthly_charges_bucket" →
          name ≠ "total_spend" → df_get name df' = df_get name df.
Proof.
  split; [|split].
  - intros H. unfold add_engineered_features, add_engineered_features_from,
      getcol. now rewrite H.
  - intros tv Ht Hm.
    unfold add_engineered_features, add_engineered_features_from, getcol.
    rewrite Ht. cbn [mbind result_bind].
    change (pd_cut (NumS tv) bins_tenure labels_tenure false)
      with (Ok (CatS labels_tenure
                  (map (fun v => x ← v; find_bin false bins_tenure labels_tenure x)
                     tv))).
    cbn [mbind result_bind].
    rewrite (df_get_set_ne "tenure_group" "MonthlyCharges") by discriminate.
    now rewrite Hm.
  - intros df' H.
    apply add_engineered_features_from_inv
      in H as (tv & mv & tg & mb & ts & _ & _ & -> & _).
    repeat split.
    + apply has_column_get.
      rewrite !df_get_set_ne, df_get_set_eq by (discriminate || exact tg).
      eauto.
    + apply has_column_get.
      rewrite df_get_set_ne, df_get_set_eq by (discriminate || exact tg).
      eauto.
    + apply has_column_get. rewrite df_get_set_eq by exact tg. eauto.
    + intros name H1 H2 H3. now rewrite !df_get_set_ne by congruence.
Qed.

Lemma engineering_adds_three_columns_witness :
  add_engineered_features [("MonthlyCharges", NumS [Some 50%Q])]
  = Raise (KeyError "tenure").
Proof.
  apply (engineering_adds_three_columns [("MonthlyCharges", NumS [Some 50%Q])]).
  reflexivity.
Defined.

Lemma add_engineered_features_at_raises (q33 q66 : Q) (df : DataFrame)
    (tv mv : list (option Q)) :
  df_get "tenure" df = Some (NumS tv) →
  df_get "MonthlyCharges" df = Some (NumS mv) →
  (q66 <= q33)%Q →
  add_engineered_features_at q33 q66 df
  = Raise (ValueError "bins must increase monotonically and be unique").
Proof.
  intros Ht Hm Hq.
  unfold add_engineered_features_at, add_engineered_features_from, getcol.
  rewrite Ht. cbn [mbind result_bind].
  change (pd_cut (NumS tv) bins_tenure labels_tenure false)
    with (Ok (CatS labels_tenure
                (map (fun v => x ← v; find_bin false bins_tenure labels_tenure x)
                   tv))).
  cbn [mbind result_bind].
  rewrite (df_get_set_ne "tenure_group" "MonthlyCharges") by discriminate.
  rewrite Hm. cbn [mbind result_bind fst snd].
  now rewrite cut_monthly_raises by exact Hq.
Qed.

Lemma preprocess_encoded_at_raises (parse : string → option Q)
    (q33 q66 : Q) (t : list TelcoRow) :
  (q66 <= q33)%Q →
  preprocess_encoded_at parse q33 q66 (read_csv t)
  = Raise (ValueError "bins must increase monotonically and be unique").
Proof.
  intros Hq. unfold preprocess_encoded_at.
  set (D0 := load_and_clean_data parse (read_csv t)).
  assert (HT : encode_target D0
               = Ok (df_set "Churn" (eq_astype_int "Yes" (str_col c_Churn t)) D0))
    by reflexivity.
  rewrite HT. cbn [mbind result_bind].
  now rewrite (add_engineered_features_at_raises q33 q66 _
                 (map (fun r => Some (inject_Z (c_tenure r))) t)
                 (map (fun r => Some (c_MonthlyCharges r)) t)).
Qed.

Lemma sorted_present_all_some {A} (f : A → Q) (l : list A) :
  length (sorted_present (map (fun r => Some (f r)) l)) = length l.
Proof.
  unfold sorted_present. induction l as [|x l IH]; [reflexivity|].
  cbn [map foldr]. now rewrite length_insert_sorted_q, IH.
Qed.

(** On a column of [n >= 1] values, a quantile at a level between 0 and
    1 is an interpolation between two values of the column. *)
Lemma quantile_between (q : Q) (vals : list (option Q)) :
  (0 <= q)%Q → (q <= 1)%Q → sorted_present vals ≠ [] →
  ∃ a b fr,
    Some a ∈ vals ∧ Some b ∈ vals ∧ (0 <= fr)%Q ∧ (fr <= 1)%Q
    ∧ quantile q (NumS vals) = Ok (a + (b - a) * fr)%Q.
Proof.
  intros Hq0 Hq1 Hne. unfold quantile.
  set (xs := sorted_present vals) in *.
  set (n := length xs).
  assert (Hn : (1 <= n)%nat).
  { subst n. destruct xs; [contradiction|cbn; lia]. }
  set (pos := (q * inject_Z (Z.of_nat n - 1))%Q).
  assert (Hn1 : (0 <= inject_Z (Z.of_nat n - 1))%Q).
  { change 0%Q with (inject_Z 0). apply inject_Z_le. lia. }
  assert (Hpos0 : (0 <= pos)%Q) by (subst pos; now apply Qmult_le_0_compat).
  assert (Hpos1 : (pos <= inject_Z (Z.of_nat n - 1))%Q).
  { subst pos.
    pose proof (Qmult_le_0_compat (1 - q) (inject_Z (Z.of_nat n - 1))) as H.
    assert (0 <= 1 - q)%Q by lra. specialize (H ltac:(assumption) Hn1).
    lra. }
  assert (Hf0 : (0 <= Qfloor pos)%Z).
  { rewrite <- (Qfloor_Z 0). now apply Qfloor_resp_le. }
  assert (Hc1 : (Qceiling pos <= Z.of_nat n - 1)%Z).
  { rewrite <- (Qceiling_Z (Z.of_nat n - 1)). now apply Qceiling_resp_le. }
  pose proof (Qle_floor_ceiling pos) as Hfc.
  pose proof (Qfloor_le pos) as Hfl. pose proof (Qlt_floor pos) as Hfu.
  rewrite inject_Z_plus in Hfu. change (inject_Z 1) with 1%Q in Hfu.
  assert (Hfloor_ceil : (Qfloor pos <= Qceiling pos)%Z).
  { rewrite Zle_Qle. exact Hfc. }
  assert (Hlo : (Z.to_nat (Qfloor pos) < length xs)%nat) by (fold n; lia).
  assert (Hhi : (Z.to_nat (Qceiling pos) < length xs)%nat) by (fold n; lia).
  destruct (lookup_lt_is_Some_2 xs _ Hlo) as [a Ha].
  destruct (lookup_lt_is_Some_2 xs _ Hhi) as [b Hb].
  fold n. fold pos. rewrite Ha, Hb.
  exists a, b, (pos - inject_Z (Qfloor pos))%Q.
  split; [apply elem_of_sorted_present, list_elem_of_lookup; eauto|].
  split; [apply elem_of_sorted_present, list_elem_of_lookup; eauto|].
  split; [lra|]. split; [lra|reflexivity].
Qed.

(** When every record has the same monthly charge (in particular when
    the table has a single record), the two quantile thresholds coincide
    and the pipeline stops with the [ValueError] of [pd.cut]. *)
Theorem constant_charges_stop_the_pipeline (parse : string → option Q)
    (t : list TelcoRow) (v : Q) :
  t ≠ [] → Forall (fun r => c_MonthlyCharges r = v) t →
  preprocess_encoded parse (read_csv t)
  = Raise (ValueError "bins must increase monotonically and be unique").
Proof.
  intros Hne Hall.
  set (vals := map (fun r => Some (c_MonthlyCharges r)) t).
  assert (Hxs : sorted_present vals ≠ []).
  { intros H. apply (f_equal length) in H. subst vals.
    rewrite sorted_present_all_some in H. destruct t; [contradiction|].
    discriminate H. }
  assert (Hval : ∀ a, Some a ∈ vals → a = v).
  { intros a Ha. subst vals.
    apply list_elem_of_In, in_map_iff in Ha as (r & [= <-] & Hr).
    rewrite Forall_forall in Hall. apply Hall. now apply list_elem_of_In. }
  destruct (quantile_between (33 # 100) vals) as (a1 & b1 & f1 & Ha1 & Hb1 & _ & _ & H33);
    [lra|lra|exact Hxs|].
  destruct (quantile_between (66 # 100) vals) as (a2 & b2 & f2 & Ha2 & Hb2 & _ & _ & H66);
    [lra|lra|exact Hxs|].
  apply Hval in Ha1, Hb1, Ha2, Hb2. subst a1 b1 a2 b2.
  rewrite (preprocess_encoded_thresholds parse t _ _ H33 H66).
  apply preprocess_encoded_at_raises.
  assert (Hz : ∀ f, (v + (v - v) * f == v)%Q) by (intros; ring).
  rewrite !Hz. lra.
Qed.

Lemma constant_charges_stop_the_pipeline_witness :
  preprocess_encoded example_parse (read_csv [example_customer])
  = Raise (ValueError "bins must increase monotonically and be unique").
Proof.
  apply (constant_charges_stop_the_pipeline example_parse [example_customer] 50).
  - discriminate.
  - repeat constructor.
Defined.

(** ** Features and target *)

Lemma columns_drop (names : list string) (df : DataFrame) :
  columns (df_drop names df)
  = List.filter (fun c => negb (in_cats names c)) (columns df).
Proof.
  unfold columns, df_drop, in_cats.
  induction df as [|[n s] df IH]; [reflexivity|].
  cbn [List.filter map fst].
  destruct (existsb (String.eqb n) names); cbn [negb map fst]; now rewrite IH.
Qed.

(** [get_feature_matrix_and_target] raises exactly when the frame has
    no [Churn] column; otherwise the target is that column and the
    feature matrix is the frame without it: the other columns, in their
    order and with their cells. *)
Theorem features_and_target_split (df : DataFrame) :
  ((∃ e, get_feature_matrix_and_target df = Raise e)
   ↔ has_column "Churn" df = false)
  ∧ ∀ X y, get_feature_matrix_and_target df = Ok (X, y) →
      df_get "Churn" df = Some y
      ∧ has_column "Churn" X = false
      ∧ columns X
        = List.filter (fun c => negb (String.eqb c "Churn")) (columns df)
      ∧ ∀ name, name ≠ "Churn" → df_get name X = df_get name df.
Proof.
  unfold get_feature_matrix_and_target. split.
  - rewrite has_column_false.
    destruct (df_get "Churn" df); split; eauto; try discriminate.
    intros [e He]. discriminate.
  - intros X y H. destruct (df_get "Churn" df) as [s|]; [|discriminate H].
    injection H as <- <-.
    split; [reflexivity|]. split; [apply has_column_drop|].
    split.
    + rewrite columns_drop. apply filter_ext. intros c. unfold in_cats.
      cbn. now rewrite orb_false_r.
    + intros name Hn. apply df_get_drop_ne. cbn. rewrite orb_false_r.
      now apply String.eqb_neq.
Qed.

Lemma features_and_target_split_witness :
  has_column "Churn" (df_drop ["Churn"] (read_csv example_table)) = false.
Proof.
  destruct (features_and_target_split (read_csv example_table)) as [_ H].
  apply (H (df_drop ["Churn"] (read_csv example_table))
           (str_col c_Churn example_table)).
  reflexivity.
Defined.

(** ** The order of the thresholds *)

Lemma ascending_insert (x : Q) (l : list Q) :
  ascending l → ascending (insert_sorted_q x l).
Proof.
  induction l as [|y l IH]; cbn [insert_sorted_q ascending].
  - intros _. split; [constructor|exact I].
  - intros [Hy Hl]. qcases x y.
    + cbn [ascending]. split; [|tauto].
      constructor; [exact E|].
      eapply Forall_impl; [exact Hy|]. intros z Hz. cbn in Hz. lra.
    + cbn [ascending]. split; [|now apply IH].
      apply Forall_forall. intros z Hz.
      apply elem_of_insert_sorted_q in Hz as [->|Hz]; [lra|].
      rewrite Forall_forall in Hy. now apply Hy.
Qed.

Lemma ascending_sorted_present (vals : list (option Q)) :
  ascending (sorted_present vals).
Proof.
  unfold sorted_present.
  induction vals as [|[v|] vals IH]; cbn [foldr];
    [exact I|now apply ascending_insert|exact IH].
Qed.

Lemma ascending_lookup (l : list Q) (i j : nat) (a b : Q) :
  ascending l → (i <= j)%nat → l !! i = Some a → l !! j = Some b →
  (a <= b)%Q.
Proof.
  revert i j. induction l as [|x l IH]; intros i j Hl Hij Hi Hj;
    [discriminate Hi|].
  destruct Hl as [Hx Hl]. destruct i as [|i], j as [|j]; try lia.
  - cbn in Hi, Hj. injection Hi as <-. injection Hj as <-. lra.
  - cbn in Hi, Hj. injection Hi as <-.
    rewrite Forall_forall in Hx. apply Hx.
    apply list_elem_of_lookup. eauto.
  - cbn in Hi, Hj. apply (IH i j); [exact Hl|lia|assumption..].
Qed.

(** [quantile] is monotone in its level: on a column, a quantile at a
    lower level is never above one at a higher level.  The thresholds
    of the engineering stage are therefore ordered, q33 <= q66. *)
Theorem quantile_monotone (s : Series) (p q a b : Q) :
  (0 <= p)%Q → (p <= q)%Q → (q <= 1)%Q →
  quantile p s = Ok a → quantile q s = Ok b →
  (a <= b)%Q.
Proof.
  intros Hp Hpq Hq Ha Hb. unfold quantile in Ha, Hb.
  destruct s as [?|vals|? ?]; try discriminate Ha.
  set (xs := sorted_present vals) in *.
  pose proof (ascending_sorted_present vals) as Hasc. fold xs in Hasc.
  set (m := inject_Z (Z.of_nat (length xs) - 1)) in *.
  set (x := (p * m)%Q) in *. set (y := (q * m)%Q) in *.
  assert (Hn : (1 <= length xs)%nat).
  { destruct (xs !! Z.to_nat (Qfloor x)) eqn:E; [|discriminate Ha].
    apply lookup_lt_Some in E. lia. }
  assert (Hm : (0 <= m)%Q).
  { subst m. change 0%Q with (inject_Z 0). apply inject_Z_le. lia. }
  assert (Hpm : (0 <= x)%Q) by (subst x; now apply Qmult_le_0_compat).
  assert (Hpq' : (x <= y)%Q).
  { subst x y. pose proof (Qmult_le_0_compat (q - p) m) as H.
    assert (0 <= q - p)%Q by lra. specialize (H ltac:(assumption) Hm). lra. }
  clearbody x y. clear Hp Hpq Hq.
  destruct (xs !! Z.to_nat (Qfloor x)) as [a1|] eqn:Ea1;
    [|discriminate Ha].
  destruct (xs !! Z.to_nat (Qceiling x)) as [b1|] eqn:Eb1;
    [|discriminate Ha].
  destruct (xs !! Z.to_nat (Qfloor y)) as [a2|] eqn:Ea2;
    [|discriminate Hb].
  destruct (xs !! Z.to_nat (Qceiling y)) as [b2|] eqn:Eb2;
    [|discriminate Hb].
  assert (Ha' : a = (a1 + (b1 - a1) * (x - inject_Z (Qfloor x)))%Q)
    by congruence.
  assert (Hb' : b = (a2 + (b2 - a2) * (y - inject_Z (Qfloor y)))%Q)
    by congruence.
  subst a b. clear Ha Hb.
  assert (Hfx0 : (0 <= Qfloor x)%Z)
    by (rewrite <- (Qfloor_Z 0); now apply Qfloor_resp_le).
  assert (Hfxy : (Qfloor x <= Qfloor y)%Z) by now apply Qfloor_resp_le.
  assert (Hcxy : (Qceiling x <= Qceiling y)%Z) by now apply Qceiling_resp_le.
  pose proof (Qfloor_le x) as Hx1. pose proof (Qlt_floor x) as Hx2.
  pose proof (Qfloor_le y) as Hy1. pose proof (Qlt_floor y) as Hy2.
  rewrite inject_Z_plus in Hx2, Hy2. change (inject_Z 1) with 1%Q in Hx2, Hy2.
  assert (Hfcx : (Qfloor x <= Qceiling x)%Z)
    by (rewrite Zle_Qle; apply Qle_floor_ceiling).
  assert (Hfcy : (Qfloor y <= Qceiling y)%Z)
    by (rewrite Zle_Qle; apply Qle_floor_ceiling).
  assert (Hcx : (Qceiling x <= Qfloor x + 1)%Z).
  { pose proof (Qceiling_lt x) as H.
    assert (Qceiling x - 1 < Qfloor x + 1)%Z; [|lia].
    rewrite Zlt_Qlt, inject_Z_plus. change (inject_Z 1) with 1%Q. lra. }
  assert (Hab1 : (a1 <= b1)%Q)
    by (apply (ascending_lookup xs _ _ _ _ Hasc) with (3 := Eb1) (2 := Ea1); lia).
  assert (Hab2 : (a2 <= b2)%Q)
    by (apply (ascending_lookup xs _ _ _ _ Hasc) with (3 := Eb2) (2 := Ea2); lia).
  assert (Hbb : (b1 <= b2)%Q)
    by (apply (ascending_lookup xs _ _ _ _ Hasc) with (3 := Eb2) (2 := Eb1); lia).
  set (fx := (x - inject_Z (Qfloor x))%Q).
  set (fy := (y - inject_Z (Qfloor y))%Q).
  assert (Hfx : (0 <= fx)%Q ∧ (fx <= 1)%Q) by (subst fx; split; lra).
  assert (Hfy : (0 <= fy)%Q ∧ (fy <= 1)%Q) by (subst fy; split; lra).
  destruct (Z.eq_dec (Qfloor x) (Qfloor y)) as [Heq|Hne].
  - assert (a1 = a2) as <- by (rewrite Heq in Ea1; congruence).
    assert (Hfxy' : (fx <= fy)%Q) by (subst fx fy; rewrite Heq; lra).
    clearbody fx fy.
    pose proof (Qmult_le_0_compat (b2 - a1) (fy - fx)) as H1.
    pose proof (Qmult_le_0_compat (b2 - b1) fx) as H2.
    assert (0 <= b2 - a1)%Q by lra. assert (0 <= fy - fx)%Q by lra.
    assert (0 <= b2 - b1)%Q by lra.
    specialize (H1 ltac:(assumption) ltac:(assumption)).
    specialize (H2 ltac:(assumption) ltac:(tauto)).
    destruct Hfx, Hfy. nra.
  - assert (Hba : (b1 <= a2)%Q)
      by (apply (ascending_lookup xs _ _ _ _ Hasc) with (3 := Ea2) (2 := Eb1);
          lia).
    clearbody fx fy.
    pose proof (Qmult_le_0_compat (b1 - a1) (1 - fx)) as H1.
    pose proof (Qmult_le_0_compat (b2 - a2) fy) as H2.
    assert (0 <= b1 - a1)%Q by lra. assert (0 <= 1 - fx)%Q by lra.
    assert (0 <= b2 - a2)%Q by lra.
    specialize (H1 ltac:(assumption) ltac:(assumption)).
    specialize (H2 ltac:(assumption) ltac:(tauto)).
    destruct Hfx, Hfy. nra.
Qed.

Lemma quantile_monotone_witness : (5990 # 100 <= 6980 # 100)%Q.
Proof.
  apply (quantile_monotone (float_col c_MonthlyCharges example_table)
           (33 # 100) (66 # 100) (5990 # 100) (6980 # 100));
    try reflexivity; lra.
Defined.

(** ** Buckets at training and at inference *)

(** [add_engineered_features] on a frame with numeric [tenure] and
    [MonthlyCharges] columns: the two quantiles, then the stage at
    them. *)
Lemma add_engineered_features_quantiles (df : DataFrame)
    (tv mv : list (option Q)) :
  df_get "tenure" df = Some (NumS tv) →
  df_get "MonthlyCharges" df = Some (NumS mv) →
  add_engineered_features df
  = (q33 ← quantile (33 # 100) (NumS mv);
     q66 ← quantile (66 # 100) (NumS mv);
     add_engineered_features_at q33 q66 df).
Proof.
  intros Ht Hm.
  destruct (quantile (33 # 100) (NumS mv)) as [a|e] eqn:Ea;
    [destruct (quantile (66 # 100) (NumS mv)) as [b|e] eqn:Eb|];
    cbn [mbind result_bind].
  - now apply (add_engineered_features_thresholds df tv mv).
  - unfold add_engineered_features, add_engineered_features_from, getcol.
    rewrite Ht. cbn [mbind result_bind].
    change (pd_cut (NumS tv) bins_tenure labels_tenure false)
      with (Ok (CatS labels_tenure
                  (map (fun v => x ← v;
                          find_bin false bins_tenure labels_tenure x) tv))).
    cbn [mbind result_bind].
    rewrite (df_get_set_ne "tenure_group" "MonthlyCharges") by discriminate.
    rewrite Hm. cbn [mbind result_bind].
    rewrite Ea. cbn [mbind result_bind]. now rewrite Eb.
  - unfold add_engineered_features, add_engineered_features_from, getcol.
    rewrite Ht. cbn [mbind result_bind].
    change (pd_cut (NumS tv) bins_tenure labels_tenure false)
      with (Ok (CatS labels_tenure
                  (map (fun v => x ← v;
                          find_bin false bins_tenure labels_tenure x) tv))).
    cbn [mbind result_bind].
    rewrite (df_get_set_ne "tenure_group" "MonthlyCharges") by discriminate.
    rewrite Hm. cbn [mbind result_bind].
    now rewrite Ea.
Qed.

(** When [add_engineered_features] returns, the frame had numeric
    [tenure] and [MonthlyCharges] columns, the quantiles of the latter
    differ, and the result is that of the stage at those quantiles. *)
Lemma add_engineered_features_Ok (df df' : DataFrame) :
  add_engineered_features df = Ok df' →
  ∃ tv mv q33 q66,
    df_get "tenure" df = Some (NumS tv)
    ∧ df_get "MonthlyCharges" df = Some (NumS mv)
    ∧ quantile (33 # 100) (NumS mv) = Ok q33
    ∧ quantile (66 # 100) (NumS mv) = Ok q66
    ∧ (q33 < q66)%Q
    ∧ add_engineered_features_at q33 q66 df = Ok df'.
Proof.
  intros H. pose proof H as H0.
  apply add_engineered_features_from_inv
    in H0 as (tv & mv & tg & mb & ts & Ht & Hm & _).
  exists tv, mv.
  rewrite (add_engineered_features_quantiles df tv mv Ht Hm) in H.
  destruct (quantile (33 # 100) (NumS mv)) as [a|e]; [|discriminate H].
  destruct (quantile (66 # 100) (NumS mv)) as [b|e]; [|discriminate H].
  cbn [mbind result_bind] in H.
  exists a, b. repeat split; try assumption; try reflexivity.
  destruct (Qlt_le_dec a b) as [Hlt|Hle]; [exact Hlt|].
  rewrite (add_engineered_features_at_raises a b df tv mv Ht Hm Hle) in H.
  discriminate H.
Qed.

(** C5. Tenure bucketing follows the five half-open bins [0,13), [13,25),
    [25,49), [49,61), [61,inf) at training and at inference.  Training:
    whenever [add_engineered_features] returns on a frame with a numeric
    [tenure] column, the frame it returns has a [tenure_group] column
    with the five labels for categories and, in every row whose tenure
    is a non-negative integer, the label [_bucket_tenure] gives that
    tenure; and the stage does return when the frame's monthly charges
    have distinct 0.33 and 0.66 quantiles.  Inference: for a tenure that
    is not negative, the row has 1 at the indicator of that label and 0
    at the other four.  The label is that of the bin that holds the
    tenure; 12, 13, 24, 25, 60 and 61 fall in "0-12", "13-24", "13-24",
    "25-48", "49-60", "60+". *)
Theorem tenure_bucket_bins (df : DataFrame) (tv : list (option Q)) :
  df_get "tenure" df = Some (NumS tv) →
  (∀ df', add_engineered_features df = Ok df' →
     ∃ labels,
       df_get "tenure_group" df' = Some (CatS labels_tenure labels)
       ∧ length labels = length tv
       ∧ ∀ i t, tv !! i = Some (Some (inject_Z t)) → (0 <= t)%Z →
           labels !! i = Some (Some (_bucket_tenure t)))
  ∧ (∀ mv a b, df_get "MonthlyCharges" df = Some (NumS mv) →
       quantile (33 # 100) (NumS mv) = Ok a →
       quantile (66 # 100) (NumS mv) = Ok b →
       (a < b)%Q →
       ∃ df', add_engineered_features df = Ok df')
  ∧ (∀ req q33 q66 cat, cat ∈ labels_tenure →
       build_feature_row req q33 q66 !! ("tenure_group_" +:+ cat)
       = Some (if String.eqb (_bucket_tenure (tenure req)) cat
               then 1 else 0)%Q)
  ∧ (∀ t, (0 <= t)%Z →
       (_bucket_tenure t = "0-12" ↔ (0 <= t < 13)%Z)
       ∧ (_bucket_tenure t = "13-24" ↔ (13 <= t < 25)%Z)
       ∧ (_bucket_tenure t = "25-48" ↔ (25 <= t < 49)%Z)
       ∧ (_bucket_tenure t = "49-60" ↔ (49 <= t < 61)%Z)
       ∧ (_bucket_tenure t = "60+" ↔ (61 <= t)%Z))
  ∧ map _bucket_tenure [12; 13; 24; 25; 60; 61]%Z
    = ["0-12"; "13-24"; "13-24"; "25-48"; "49-60"; "60+"].
Proof.
  intros Ht. split; [|split; [|split; [|split; [|reflexivity]]]].
  - intros df' H.
    apply add_engineered_features_Ok
      in H as (tv' & mv & a & b & Ht' & Hm & _ & _ & Hab & Hat).
    assert (Htv : tv' = tv) by congruence. subst tv'.
    rewrite (add_engineered_features_at_ok a b df tv mv Ht Hm Hab) in Hat.
    eexists. split; [|split].
    + assert (Hdf : df' = df_set "total_spend"
          (NumS (zip_with (fun x y => match x, y with
                                      | Some u, Some v => Some (u * v)%Q
                                      | _, _ => None
                                      end) tv mv))
          (df_set "monthly_charges_bucket"
             (CatS ["low"; "medium"; "high"]
                (map (fun v => (fun x => _bucket_monthly x a b) <$> v) mv))
             (df_set "tenure_group"
                (CatS labels_tenure
                   (map (fun v => x ← v;
                           find_bin false bins_tenure labels_tenure x) tv))
                df))) by congruence.
      rewrite Hdf.
      rewrite !df_get_set_ne by discriminate.
      apply (df_get_set_eq _ _ (NumS [])).
    + apply length_map.
    + intros i t Hi Hpos. rewrite map_lookup, Hi. cbn.
      f_equal. now apply find_bin_tenure.
  - intros mv a b Hm Ha Hb Hab. eexists.
    rewrite (add_engineered_features_thresholds df tv mv a b Ht Hm Ha Hb).
    apply (add_engineered_features_at_ok a b df tv mv Ht Hm Hab).
  - intros req a b cat Hcat. rewrite row_tenure_group.
    rewrite bool_decide_eq_true_2 by exact Hcat.
    now destruct (String.eqb _ cat).
  - intros t Hpos.
    pose proof (bucket_tenure_bins t) as (H1 & H2 & H3 & H4 & H5).
    repeat split; try tauto; try lia; intros; tauto || (apply H1; lia).
Qed.

Lemma tenure_bucket_bins_witness :
  (∀ df', add_engineered_features (read_csv example_table) = Ok df' →
     ∃ labels,
       df_get "tenure_group" df' = Some (CatS labels_tenure labels)
       ∧ length labels
         = length (map (fun r => Some (inject_Z (c_tenure r))) example_table)
       ∧ ∀ i t,
           map (fun r => Some (inject_Z (c_tenure r))) example_table !! i
           = Some (Some (inject_Z t)) → (0 <= t)%Z →
           labels !! i = Some (Some (_bucket_tenure t)))
  ∧ (∀ mv a b,
       df_get "MonthlyCharges" (read_csv example_table) = Some (NumS mv) →
       quantile (33 # 100) (NumS mv) = Ok a →
       quantile (66 # 100) (NumS mv) = Ok b →
       (a < b)%Q →
       ∃ df', add_engineered_features (read_csv example_table) = Ok df')
  ∧ (∀ req q33 q66 cat, cat ∈ labels_tenure →
       build_feature_row req q33 q66 !! ("tenure_group_" +:+ cat)
       = Some (if String.eqb (_bucket_tenure (tenure req)) cat
               then 1 else 0)%Q)
  ∧ (∀ t, (0 <= t)%Z →
       (_bucket_tenure t = "0-12" ↔ (0 <= t < 13)%Z)
       ∧ (_bucket_tenure t = "13-24" ↔ (13 <= t < 25)%Z)
       ∧ (_bucket_tenure t = "25-48" ↔ (25 <= t < 49)%Z)
       ∧ (_bucket_tenure t = "49-60" ↔ (49 <= t < 61)%Z)
       ∧ (_bucket_tenure t = "60+" ↔ (61 <= t)%Z))
  ∧ map _bucket_tenure [12; 13; 24; 25; 60; 61]%Z
    = ["0-12"; "13-24"; "13-24"; "25-48"; "49-60"; "60+"].
Proof.
  apply (tenure_bucket_bins (read_csv example_table)
           (map (fun r => Some (inject_Z (c_tenure r))) example_table)).
  reflexivity.
Defined.

(** C6, as the specification states it, fails at equal thresholds, and
    a frame reaches them: when every record has the monthly charge 50,
    the fitted thresholds are q33 = q66 = 50, the charge 50 is at most
    q33, yet the training stage does not label it "low": [pd.cut]
    refuses the repeated bin edge and the stage raises. *)
Lemma monthly_bucket_equal_thresholds :
  ¬ (∀ (df : DataFrame) (tv mv : list (option Q)) (q33 q66 : Q),
       df_get "tenure" df = Some (NumS tv) →
       df_get "MonthlyCharges" df = Some (NumS mv) →
       quantile (33 # 100) (NumS mv) = Ok q33 →
       quantile (66 # 100) (NumS mv) = Ok q66 →
       (q33 <= q66)%Q →
       ∃ df' labels,
         add_engineered_features df = Ok df'
         ∧ df_get "monthly_charges_bucket" df'
           = Some (CatS monthly_cats labels)
         ∧ ∀ i v, mv !! i = Some (Some v) →
             ((v <= q33)%Q → labels !! i = Some (Some "low"))
             ∧ ((q33 < v)%Q ∧ (v <= q66)%Q →
                labels !! i = Some (Some "medium"))
             ∧ ((q66 < v)%Q → labels !! i = Some (Some "high"))).
Proof.
  intros H.
  destruct (H [("tenure", NumS [Some 1%Q; Some 2%Q]);
               ("MonthlyCharges", NumS [Some 50%Q; Some 50%Q])]
              [Some 1%Q; Some 2%Q] [Some 50%Q; Some 50%Q] _ _
              eq_refl eq_refl eq_refl eq_refl)
    as (df' & labels & Hok & _).
  - apply Qle_bool_iff. vm_compute. reflexivity.
  - vm_compute in Hok. discriminate Hok.
Qed.

(** C6, amended. Let q33 <= q66 be the thresholds fitted on a frame: the
    0.33 and 0.66 quantiles of its monthly charges.  The inference
    bucket of a charge v is "low" when v <= q33, "medium" when
    q33 < v <= q66 and "high" when v > q66, and the row has 1 at the
    indicator of that bucket and 0 at the other two.  When q33 < q66 the
    training stage returns a frame whose [monthly_charges_bucket] column
    holds that same bucket in every row that has a charge; when
    q33 = q66 the stage raises instead of labelling. *)
Theorem monthly_bucket_thresholds (df : DataFrame)
    (tv mv : list (option Q)) (q33 q66 : Q) :
  df_get "tenure" df = Some (NumS tv) →
  df_get "MonthlyCharges" df = Some (NumS mv) →
  quantile (33 # 100) (NumS mv) = Ok q33 →
  quantile (66 # 100) (NumS mv) = Ok q66 →
  (q33 <= q66)%Q →
  (∀ v,
     ((v <= q33)%Q → _bucket_monthly v q33 q66 = "low")
     ∧ ((q33 < v)%Q ∧ (v <= q66)%Q → _bucket_monthly v q33 q66 = "medium")
     ∧ ((q66 < v)%Q → _bucket_monthly v q33 q66 = "high"))
  ∧ (∀ req cat, cat ∈ monthly_cats →
       build_feature_row req q33 q66 !! ("monthly_charges_bucket_" +:+ cat)
       = Some (if String.eqb (_bucket_monthly (monthly_charges req) q33 q66)
                    cat
               then 1 else 0)%Q)
  ∧ ((q33 < q66)%Q →
     ∃ df' labels,
       add_engineered_features df = Ok df'
       ∧ df_get "monthly_charges_bucket" df'
         = Some (CatS monthly_cats labels)
       ∧ length labels = length mv
       ∧ ∀ i v, mv !! i = Some (Some v) →
           labels !! i = Some (Some (_bucket_monthly v q33 q66)))
  ∧ ((q33 == q66)%Q →
     ∃ e, add_engineered_features df = Raise e).
Proof.
  intros Ht Hm Ha Hb Hq. split; [|split; [|split]].
  - intros v. now apply bucket_monthly_spec.
  - intros req cat Hcat. rewrite row_monthly_bucket.
    rewrite bool_decide_eq_true_2 by exact Hcat.
    now destruct (String.eqb _ cat).
  - intros Hlt.
    rewrite (add_engineered_features_thresholds df tv mv q33 q66 Ht Hm Ha Hb).
    rewrite (add_engineered_features_at_ok q33 q66 df tv mv Ht Hm Hlt).
    eexists. eexists. split; [reflexivity|]. split; [|split].
    + rewrite df_get_set_ne by discriminate.
      apply (df_get_set_eq _ _ (NumS [])).
    + apply length_map.
    + intros i v Hi. rewrite map_lookup, Hi. reflexivity.
  - intros Heq. eexists.
    rewrite (add_engineered_features_thresholds df tv mv q33 q66 Ht Hm Ha Hb).
    apply (add_engineered_features_at_raises q33 q66 df tv mv Ht Hm). lra.
Qed.

Lemma monthly_bucket_thresholds_witness :
  ∃ df' labels,
    add_engineered_features (read_csv example_table) = Ok df'
    ∧ df_get "monthly_charges_bucket" df' = Some (CatS monthly_cats labels)
    ∧ length labels = 2%nat
    ∧ ∀ i v,
        map (fun r => Some (c_MonthlyCharges r)) example_table !! i
        = Some (Some v) →
        labels !! i
        = Some (Some (_bucket_monthly v (5990 # 100) (6980 # 100))).
Proof.
  apply (monthly_bucket_thresholds (read_csv example_table)
           (map (fun r => Some (inject_Z (c_tenure r))) example_table)
           (map (fun r => Some (c_MonthlyCharges r)) example_table)
           (5990 # 100) (6980 # 100)); try reflexivity; lra.
Defined.

(** ** The imputed total charge *)

Lemma insert_sorted_q_perm (x : Q) (l : list Q) :
  insert_sorted_q x l ≡ₚ x :: l.
Proof.
  induction l as [|y l IH]; cbn [insert_sorted_q]; [reflexivity|].
  destruct (Qle_bool x y); [reflexivity|].
  rewrite IH. apply Permutation_swap.
Qed.

(** [sorted_present] holds the numbers of the column, each as often as
    the column does. *)
Lemma sorted_present_perm {A} (f : A → option Q) (l : list A) :
  sorted_present (map f l) ≡ₚ omap f l.
Proof.
  unfold sorted_present. induction l as [|c l IH]; [reflexivity|].
  cbn [map foldr omap list_omap]. destruct (f c) as [x|]; [|exact IH].
  rewrite insert_sorted_q_perm. now rewrite IH.
Qed.

(** Cleaning [TotalCharges].  The column keeps its length and a cell
    that reads as a number keeps that number.  Every cell that does not
    is filled with one and the same value, the median of the numbers
    read: with those numbers in ascending order, the middle one, or the
    mean of the two middle ones when their count is even.  When no cell
    reads as a number there is no median and the column stays missing
    throughout. *)
Theorem total_charges_imputation (parse : string → option Q)
    (df : DataFrame) (cells : list (option string)) :
  df_get "TotalCharges" df = Some (ObjectS cells) →
  ∃ vals sorted,
    df_get "TotalCharges" (load_and_clean_data parse df) = Some (NumS vals)
    ∧ length vals = length cells
    ∧ (∀ i c x, cells !! i = Some c → c ≫= parse = Some x →
         vals !! i = Some (Some x))
    ∧ sorted ≡ₚ omap (fun c => c ≫= parse) cells
    ∧ ascending sorted
    ∧ (∀ i c, cells !! i = Some c → c ≫= parse = None →
         vals !! i = Some (middle_of sorted))
    ∧ (middle_of sorted = None
       ↔ ∀ j d, cells !! j = Some d → d ≫= parse = None).
Proof.
  intros Ht. unfold load_and_clean_data.
  set (df1 := if has_column "customerID" df
              then df_drop ["customerID"] df else df).
  assert (Ht1 : df_get "TotalCharges" df1 = Some (ObjectS cells)).
  { subst df1. destruct (has_column "customerID" df); [|exact Ht].
    now rewrite df_get_drop_ne by reflexivity. }
  rewrite Ht1. rewrite df_get_set_eq by exact (ObjectS cells).
  cbn [to_numeric].
  set (parsed := map (fun v => v ≫= parse) cells).
  assert (Hmed : median (NumS parsed) = middle_of (sorted_present parsed))
    by reflexivity.
  destruct (median_spec parsed) as [Hnone _].
  assert (Hiff : middle_of (sorted_present parsed) = None
                 ↔ ∀ j d, cells !! j = Some d → d ≫= parse = None).
  { rewrite <- Hmed, Hnone. subst parsed. split.
    - intros H j d Hj. destruct (d ≫= parse) as [x|] eqn:Ed; [|reflexivity].
      exfalso. apply (H x). apply list_elem_of_In, in_map_iff.
      exists d. split; [exact Ed|].
      apply list_elem_of_In, list_elem_of_lookup. eauto.
    - intros H x Hx.
      apply list_elem_of_In, in_map_iff in Hx as (d & Hd & Hin).
      apply list_elem_of_In, list_elem_of_lookup in Hin as [j Hj].
      rewrite (H j d Hj) in Hd. discriminate Hd. }
  exists (match median (NumS parsed) with
          | Some x => map (fun c => Some (default x c)) parsed
          | None => parsed
          end), (sorted_present parsed).
  split; [now destruct (median (NumS parsed))|].
  split; [destruct (median (NumS parsed)); subst parsed;
          now rewrite ?length_map|].
  split.
  { intros i c x Hi Hx. destruct (median (NumS parsed)); subst parsed;
      rewrite ?map_lookup, Hi; cbn; now rewrite Hx. }
  split; [apply sorted_present_perm|].
  split; [apply ascending_sorted_present|].
  split; [|exact Hiff].
  intros i c Hi Hx. rewrite <- Hmed.
  destruct (median (NumS parsed)); subst parsed;
    rewrite ?map_lookup, Hi; cbn; now rewrite Hx.
Qed.

Lemma total_charges_imputation_witness :
  ∃ vals sorted,
    df_get "TotalCharges"
      (load_and_clean_data example_parse
         [("TotalCharges", ObjectS [Some "105"; Some " "])])
    = Some (NumS vals)
    ∧ length vals = 2%nat
    ∧ sorted ≡ₚ omap (fun c => c ≫= example_parse) [Some "105"; Some " "]
    ∧ vals !! 1%nat = Some (middle_of sorted).
Proof.
  destruct (total_charges_imputation example_parse
              [("TotalCharges", ObjectS [Some "105"; Some " "])]
              [Some "105"; Some " "] eq_refl)
    as (vals & sorted & H1 & H2 & _ & H4 & _ & H6 & _).
  exists vals, sorted. repeat split; try assumption.
  apply (H6 1%nat (Some " ")); reflexivity.
Defined.

(** ** Scaling *)

Lemma assign_columns_get_ne (df : DataFrame) (cols : list string)
    (X : list (list (option Q))) (name : string) :
  in_cats cols name = false →
  df_get name (assign_columns df cols X) = df_get name df.
Proof.
  unfold assign_columns. revert df X.
  induction cols as [|c cols IH]; intros df X Hn; [reflexivity|].
  destruct X as [|x X]; [reflexivity|]. cbn [zip zip_with foldl fst snd].
  unfold in_cats in Hn. cbn [existsb] in Hn.
  apply orb_false_iff in Hn as [Hc Hn].
  rewrite IH by exact Hn. apply df_get_set_ne.
  apply String.eqb_neq in Hc. congruence.
Qed.

Lemma assign_columns_columns (df : DataFrame) (cols : list string)
    (X : list (list (option Q))) :
  forallb (fun c => has_column c df) cols = true →
  columns (assign_columns df cols X) = columns df.
Proof.
  unfold assign_columns. revert df X.
  induction cols as [|c cols IH]; intros df X Hall; [reflexivity|].
  destruct X as [|x X]; [reflexivity|]. cbn [zip zip_with foldl fst snd].
  cbn [forallb] in Hall. apply andb_true_iff in Hall as [Hc Hall].
  rewrite IH.
  - now apply columns_set.
  - rewrite forallb_forall in Hall |- *. intros c' Hc'.
    unfold has_column. rewrite columns_set by exact Hc. now apply Hall.
Qed.

Lemma filter_forallb {A} (f : A → bool) (l : list A) :
  forallb f (List.filter f l) = true.
Proof.
  apply forallb_forall. intros x Hx. now apply filter_In in Hx.
Qed.

(** Scaling keeps the names and the order of the columns and touches
    nothing but [tenure], [MonthlyCharges], [TotalCharges] and
    [total_spend]; a frame with none of the four is returned as it is,
    with no scaler fitted. *)
Theorem scaling_touches_numerical_columns (to_float : string → option Q)
    (fit : list (list (option Q)) → StandardScaler) (df : DataFrame) :
  (forallb (fun c => negb (has_column c df)) numerical_cols = true →
   scale_numerical_features to_float fit df = Ok (df, None))
  ∧ ∀ df' sc, scale_numerical_features to_float fit df = Ok (df', sc) →
      columns df' = columns df
      ∧ ∀ name, in_cats numerical_cols name = false →
          df_get name df' = df_get name df.
Proof.
  unfold scale_numerical_features. split.
  - intros H. unfold numerical_cols in *. cbn [forallb] in H.
    repeat (apply andb_true_iff in H as [?%negb_true_iff H]).
    cbn [List.filter].
    repeat match goal with Hx : has_column _ df = false |- _ =>
             rewrite Hx; clear Hx end.
    reflexivity.
  - intros df' sc H.
    set (existing := List.filter (fun c => has_column c df) numerical_cols)
      in *.
    assert (Hsub : ∀ name, in_cats numerical_cols name = false →
                     in_cats existing name = false).
    { intros name Hn. apply not_true_is_false. intros Hin.
      apply in_cats_elem, list_elem_of_In, filter_In in Hin as [Hin _].
      apply list_elem_of_In, in_cats_elem in Hin. congruence. }
    assert (Hall : forallb (fun c => has_column c df) existing = true)
      by apply filter_forallb.
    destruct existing as [|c0 rest] eqn:E.
    { injection H as <- <-. split; reflexivity || (intros; reflexivity). }
    rewrite <- E in *. clear E.
    destruct (numeric_block to_float df existing) as [X|e];
      [|discriminate H].
    cbn [mbind result_bind] in H.
    destruct (transform_columns (fit X) X) as [Xs|e]; [|discriminate H].
    cbn [mbind result_bind] in H. injection H as <- <-.
    split; [now apply assign_columns_columns|].
    intros name Hn. apply assign_columns_get_ne. now apply Hsub.
Qed.

Lemma scaling_touches_numerical_columns_witness :
  scale_numerical_features (fun _ => None)
    (fun X => {| mean_ := map (fun _ => 0%Q) X; scale_ := map (fun _ => 1%Q) X |})
    [("Churn", NumS [Some 1%Q])]
  = Ok ([("Churn", NumS [Some 1%Q])], None).
Proof.
  apply (scaling_touches_numerical_columns (fun _ => None)
           (fun X => {| mean_ := map (fun _ => 0%Q) X;
                        scale_ := map (fun _ => 1%Q) X |})
           [("Churn", NumS [Some 1%Q])]).
  reflexivity.
Defined.

(** ** From the training matrix to the served vector *)

Lemma cleaned_total_charges_numeric (parse : string → option Q)
    (t : list TelcoRow) :
  cleaned_total_charges parse t
  = NumS (cells_of (cleaned_total_charges parse t)).
Proof.
  unfold cleaned_total_charges, str_col. cbn [to_numeric].
  destruct (median _); reflexivity.
Qed.

Lemma transform_columns_four (sc : StandardScaler)
    (c0 c1 c2 c3 : list (option Q)) :
  (∃ Xs, transform_columns sc [c0; c1; c2; c3] = Ok Xs)
  ↔ length (mean_ sc) = 4%nat ∧ length (scale_ sc) = 4%nat.
Proof.
  unfold transform_columns. cbn [length].
  destruct (Nat.eqb_spec 4 (length (mean_ sc))) as [E1|E1];
    destruct (Nat.eqb_spec 4 (length (scale_ sc))) as [E2|E2];
    cbn [andb]; split; try (intros [Xs H]; discriminate H);
    try (intros [? ?]; congruence); eauto.
Qed.

Lemma transform_columns_scaled (sc : StandardScaler)
    (c0 c1 c2 c3 : list (option Q)) :
  length (mean_ sc) = 4%nat → length (scale_ sc) = 4%nat →
  transform_columns sc [c0; c1; c2; c3]
  = Ok (zip_with (scale_cells sc) [0; 1; 2; 3]%nat [c0; c1; c2; c3]).
Proof.
  intros Hm Hs. unfold transform_columns, scale_cells, scaled.
  rewrite Hm, Hs. cbn [length Nat.eqb andb].
  destruct sc as [m s]. cbn in *.
  destruct m as [|m0 [|m1 [|m2 [|m3 [|]]]]]; try discriminate.
  destruct s as [|s0 [|s1 [|s2 [|s3 [|]]]]]; try discriminate.
  reflexivity.
Qed.

(** What [preprocess] returns for a training table. *)
Lemma preprocess_read_csv (to_float parse : string → option Q)
    (fit : list (list (option Q)) → StandardScaler)
    (t : list TelcoRow) (q33 q66 : Q) :
  quantile (33 # 100) (float_col c_MonthlyCharges t) = Ok q33 →
  quantile (66 # 100) (float_col c_MonthlyCharges t) = Ok q66 →
  (q33 < q66)%Q →
  let sc := fit (numerical_block parse t) in
  preprocess to_float fit parse (read_csv t)
  = if (length (mean_ sc) =? 4)%nat && (length (scale_ sc) =? 4)%nat
    then Ok (scaled_frame sc parse q33 q66 t, Some sc)
    else Raise (ValueError "X has a different number of features").
Proof.
  intros Ha Hb Hq sc. unfold preprocess.
  rewrite (preprocess_encoded_thresholds parse t q33 q66 Ha Hb).
  rewrite preprocess_encoded_at_read_csv by exact Hq.
  cbn [mbind result_bind]. unfold scale_numerical_features.
  change (List.filter (fun c => has_column c (encoded_frame parse q33 q66 t))
            numerical_cols) with numerical_cols.
  unfold numerical_cols at 1.
  assert (Hblock : numeric_block to_float (encoded_frame parse q33 q66 t)
                     numerical_cols
                   = Ok (numerical_block parse t)).
  { unfold numerical_cols, numeric_block, getcol.
    change (df_get "tenure" (encoded_frame parse q33 q66 t))
      with (Some (int_col c_tenure t)).
    change (df_get "MonthlyCharges" (encoded_frame parse q33 q66 t))
      with (Some (float_col c_MonthlyCharges t)).
    change (df_get "TotalCharges" (encoded_frame parse q33 q66 t))
      with (Some (cleaned_total_charges parse t)).
    change (df_get "total_spend" (encoded_frame parse q33 q66 t))
      with (Some (NumS (map (fun r => Some (inject_Z (c_tenure r)
                                            * c_MonthlyCharges r)%Q) t))).
    cbn [mbind result_bind int_col float_col astype_float].
    rewrite (cleaned_total_charges_numeric parse t) at 1.
    reflexivity. }
  rewrite Hblock. cbn [mbind result_bind]. fold sc.
  unfold numerical_block at 1.
  destruct (Nat.eqb_spec (length (mean_ sc)) 4) as [Hm|Hm];
    destruct (Nat.eqb_spec (length (scale_ sc)) 4) as [Hs|Hs];
    cbn [andb].
  - rewrite transform_columns_scaled by assumption. reflexivity.
  - unfold transform_columns. cbn [length]. rewrite Hm.
    destruct (Nat.eqb_spec 4 (length (scale_ sc))); [congruence|reflexivity].
  - unfold transform_columns. cbn [length].
    destruct (Nat.eqb_spec 4 (length (mean_ sc))); [congruence|reflexivity].
  - unfold transform_columns. cbn [length].
    destruct (Nat.eqb_spec 4 (length (mean_ sc))); [congruence|reflexivity].
Qed.

Lemma scaled_frame_columns (sc : StandardScaler) (parse : string → option Q)
    (q33 q66 : Q) (t : list TelcoRow) :
  scaled_frame sc parse q33 q66 t
  = ([("gender", eq_astype_int "Yes" (str_col c_gender t));
      ("SeniorCitizen", int_col c_SeniorCitizen t);
      ("Partner", eq_astype_int "Yes" (str_col c_Partner t));
      ("Dependents", eq_astype_int "Yes" (str_col c_Dependents t));
      ("tenure",
       NumS (scale_cells sc 0 (map (fun r => Some (inject_Z (c_tenure r))) t)));
      ("PhoneService", eq_astype_int "Yes" (str_col c_PhoneService t));
      ("OnlineSecurity", eq_astype_int "Yes" (str_col c_OnlineSecurity t));
      ("OnlineBackup", eq_astype_int "Yes" (str_col c_OnlineBackup t));
      ("DeviceProtection", eq_astype_int "Yes" (str_col c_DeviceProtection t));
      ("TechSupport", eq_astype_int "Yes" (str_col c_TechSupport t));
      ("StreamingTV", eq_astype_int "Yes" (str_col c_StreamingTV t));
      ("StreamingMovies", eq_astype_int "Yes" (str_col c_StreamingMovies t));
      ("PaperlessBilling", eq_astype_int "Yes" (str_col c_PaperlessBilling t));
      ("MonthlyCharges",
       NumS (scale_cells sc 1 (map (fun r => Some (c_MonthlyCharges r)) t)));
      ("TotalCharges",
       NumS (scale_cells sc 2 (cells_of (cleaned_total_charges parse t))));
      ("Churn", eq_astype_int "Yes" (str_col c_Churn t));
      ("total_spend",
       NumS (scale_cells sc 3
               (map (fun r => Some (inject_Z (c_tenure r)
                                    * c_MonthlyCharges r)%Q) t)))]
     ++ dummies "Contract" (str_col c_Contract t)
     ++ dummies "InternetService" (str_col c_InternetService t)
     ++ dummies "PaymentMethod" (str_col c_PaymentMethod t)
     ++ dummies "MultipleLines" (str_col c_MultipleLines t)
     ++ dummies "tenure_group"
          (CatS labels_tenure
             (map (fun r => find_bin false bins_tenure labels_tenure
                              (inject_Z (c_tenure r))) t))
     ++ dummies "monthly_charges_bucket"
          (CatS monthly_cats
             (map (fun r => Some (_bucket_monthly (c_MonthlyCharges r) q33 q66))
                t)))%list.
Proof. reflexivity. Qed.

Lemma dummies_names (name : string) (ser : Series) (c : string) (s : Series) :
  (c, s) ∈ dummies name ser → ∃ cat, c = name +:+ "_" +:+ cat.
Proof.
  intros H.
  assert (Hmk : ∃ cats vals, (c, s) ∈ map (fun cat =>
             (name +:+ "_" +:+ cat,
              NumS (map (fun v => Some (b2q (bool_decide (v = Some cat))))
                      vals))) cats).
  { destruct ser; cbn in H; eauto. now apply elem_of_nil in H. }
  destruct Hmk as (cats & vals & Hmk).
  apply list_elem_of_In, in_map_iff in Hmk as (cat & [= <- _] & _). eauto.
Qed.

(** A cell of the scaled frame against the entry [predict] computes for
    the column's name. *)
Lemma scaled_frame_agrees (sc : StandardScaler) (parse : string → option Q)
    (q33 q66 : Q) (t : list TelcoRow) (i : nat) (r : TelcoRow)
    (c : string) (s : Series) :
  t !! i = Some r → (0 <= c_tenure r)%Z → canonical_row r = true →
  (c, s) ∈ scaled_frame sc parse q33 q66 t →
  c ≠ "Churn" → c ≠ "gender" → c ≠ "TotalCharges" →
  num_at s i
  = Some (vector_entry sc (build_feature_row (request_of_row r) q33 q66) c).
Proof.
  intros Hi Hten Hc Hin H1 H2 H3.
  assert (Hplain : (c, s) ∈ encoded_frame parse q33 q66 t →
                   index c numerical_cols = None →
                   num_at s i
                   = Some (vector_entry sc
                             (build_feature_row (request_of_row r) q33 q66) c)).
  { intros He Hidx. unfold vector_entry. rewrite Hidx.
    apply (encoded_frame_agrees parse q33 q66 t i r Hi Hten Hc c s He).
    rewrite !not_elem_of_cons. repeat split; try assumption.
    apply not_elem_of_nil. }
  assert (Hdum : ∀ name ser, (c, s) ∈ dummies name ser →
            (c, s) ∈ encoded_frame parse q33 q66 t →
            (∀ cat, index (name +:+ "_" +:+ cat) numerical_cols = None) →
            num_at s i
            = Some (vector_entry sc
                      (build_feature_row (request_of_row r) q33 q66) c)).
  { intros name ser Hd He Hidx. apply Hplain; [exact He|].
    apply dummies_names in Hd as [cat ->]. apply Hidx. }
  rewrite scaled_frame_columns in Hin.
  rewrite !elem_of_app in Hin.
  destruct Hin as [Hin|[Hin|[Hin|[Hin|[Hin|[Hin|Hin]]]]]].
  - repeat (apply elem_of_cons in Hin as [Hin|Hin];
            [apply pair_equal_spec in Hin as [-> ->]|]);
      try (now apply elem_of_nil in Hin);
      try congruence;
      try (apply Hplain; [|reflexivity]; unfold encoded_frame;
           apply elem_of_app; left; apply list_elem_of_In; cbn; tauto).
    + unfold vector_entry, num_at, scale_cells.
      rewrite !map_lookup, Hi. cbn [fmap option_fmap option_map mjoin option_join].
      rewrite build_feature_row_base by (apply in_cats_elem; reflexivity).
      reflexivity.
    + unfold vector_entry, num_at, scale_cells.
      rewrite !map_lookup, Hi. cbn [fmap option_fmap option_map mjoin option_join].
      rewrite build_feature_row_base by (apply in_cats_elem; reflexivity).
      reflexivity.
    + unfold vector_entry, num_at, scale_cells.
      rewrite !map_lookup, Hi. cbn [fmap option_fmap option_map mjoin option_join].
      rewrite build_feature_row_base by (apply in_cats_elem; reflexivity).
      reflexivity.
  - apply (Hdum _ _ Hin); [|reflexivity].
    unfold encoded_frame. rewrite !elem_of_app. tauto.
  - apply (Hdum _ _ Hin); [|reflexivity].
    unfold encoded_frame. rewrite !elem_of_app. tauto.
  - apply (Hdum _ _ Hin); [|reflexivity].
    unfold encoded_frame. rewrite !elem_of_app. tauto.
  - apply (Hdum _ _ Hin); [|reflexivity].
    unfold encoded_frame. rewrite !elem_of_app. tauto.
  - apply (Hdum _ _ Hin); [|reflexivity].
    unfold encoded_frame. rewrite !elem_of_app. tauto.
  - apply (Hdum _ _ Hin); [|reflexivity].
    unfold encoded_frame. rewrite !elem_of_app. tauto.
Qed.

(** End to end.  Take a training table whose thresholds are q33 < q66
    and a [fit] that, as sklearn's does, returns one mean and one scale
    per column.  Then [preprocess] returns a frame and a scaler, and the
    service started on the artifacts of that run (this scaler, the
    columns of the feature matrix as manifest) and on the same file
    assembles, for a record of the table in the words of the dataset, a
    vector as long as the feature matrix is wide, whose entry at every
    column other than [gender] and [TotalCharges] is the cell of the
    record's row in the scaled training matrix. *)
Theorem served_vector_is_training_row (to_float parse : string → option Q)
    (fit : list (list (option Q)) → StandardScaler)
    (predict_proba : list Q → Q)
    (t : list TelcoRow) (q33 q66 : Q) (i : nat) (r : TelcoRow) :
  (∀ B, length (mean_ (fit B)) = length B
        ∧ length (scale_ (fit B)) = length B) →
  quantile (33 # 100) (float_col c_MonthlyCharges t) = Ok q33 →
  quantile (66 # 100) (float_col c_MonthlyCharges t) = Ok q66 →
  (q33 < q66)%Q →
  t !! i = Some r → canonical_row r = true →
  valid_request (request_of_row r) →
  ∃ df sc X y st V,
    preprocess to_float fit parse (read_csv t) = Ok (df, Some sc)
    ∧ get_feature_matrix_and_target df = Ok (X, y)
    ∧ startup_state parse predict_proba sc (columns X) (read_csv t) = Ok st
    ∧ predict_vector st (request_of_row r) = Ok V
    ∧ length V = length X
    ∧ ∀ j c s, X !! j = Some (c, s) → c ≠ "gender" → c ≠ "TotalCharges" →
        V !! j = num_at s i.
Proof.
  intros Hfit Ha Hb Hq Hi Hc (Hten & _ & _).
  pose proof (preprocess_read_csv to_float parse fit t q33 q66 Ha Hb Hq)
    as Hpre.
  cbv zeta in Hpre.
  destruct (Hfit (numerical_block parse t)) as [Hm Hs].
  change (length (numerical_block parse t)) with 4%nat in Hm, Hs.
  rewrite Hm, Hs in Hpre. cbn [Nat.eqb andb] in Hpre.
  set (sc := fit (numerical_block parse t)) in *. clearbody sc.
  destruct (df_get "Churn" (scaled_frame sc parse q33 q66 t)) as [y0|] eqn:Hy.
  2:{ rewrite scaled_frame_columns in Hy. discriminate Hy. }
  exists (scaled_frame sc parse q33 q66 t), sc,
    (df_drop ["Churn"] (scaled_frame sc parse q33 q66 t)), y0.
  eexists. eexists. split; [exact Hpre|]. split; [|split; [|split; [|split]]].
  - unfold get_feature_matrix_and_target. now rewrite Hy.
  - unfold startup_state.
    rewrite (lifespan_thresholds_read_csv parse t q33 q66 Ha Hb). reflexivity.
  - apply (predict_vector_loaded _ (request_of_row r) predict_proba sc
             (columns (df_drop ["Churn"] (scaled_frame sc parse q33 q66 t)))
             q33 q66); reflexivity || assumption.
  - unfold columns. now rewrite !length_map.
  - intros j c s Hj Hg Ht. unfold columns. rewrite !map_lookup.
    unfold DataFrame in Hj. rewrite Hj. cbn.
    symmetry.
    assert (Hin : (c, s) ∈ df_drop ["Churn"] (scaled_frame sc parse q33 q66 t))
      by (apply list_elem_of_lookup; eauto).
    apply elem_of_df_drop in Hin as [Hin Hchurn].
    apply (scaled_frame_agrees sc parse q33 q66 t i r c s Hi Hten Hc Hin);
      try assumption.
    cbn in Hchurn. rewrite orb_false_r in Hchurn.
    now apply String.eqb_neq in Hchurn.
Qed.

Lemma served_vector_is_training_row_witness :
  ∃ df sc X y st V,
    preprocess example_parse
      (fun B => {| mean_ := map (fun _ => 0%Q) B;
                   scale_ := map (fun _ => 1%Q) B |})
      example_parse (read_csv example_table) = Ok (df, Some sc)
    ∧ get_feature_matrix_and_target df = Ok (X, y)
    ∧ startup_state example_parse (fun _ => (1 # 2)%Q) sc (columns X)
        (read_csv example_table) = Ok st
    ∧ predict_vector st (request_of_row example_new_customer) = Ok V
    ∧ length V = length X
    ∧ ∀ j c s, X !! j = Some (c, s) → c ≠ "gender" → c ≠ "TotalCharges" →
        V !! j = num_at s 1.
Proof.
  apply (served_vector_is_training_row example_parse example_parse
           (fun B => {| mean_ := map (fun _ => 0%Q) B;
                        scale_ := map (fun _ => 1%Q) B |})
           (fun _ => (1 # 2)%Q) example_table
           (5990 # 100) (6980 # 100) 1 example_new_customer);
    try reflexivity.
  - intros B. cbn. now rewrite !length_map.
  - unfold valid_request. cbn. repeat split; (lia || lra).
Defined.

(** ** The manifest *)

Lemma elem_of_insert_sorted (x s : string) (l : list string) :
  x ∈ insert_sorted s l → x = s ∨ x ∈ l.
Proof.
  induction l as [|a l IH]; cbn [insert_sorted]; intros H.
  - apply elem_of_cons in H as [->|H]; [now left|now right].
  - destruct (String.compare s a).
    + now right.
    + apply elem_of_cons in H as [->|H]; [now left|now right].
    + apply elem_of_cons in H as [->|H]; [right; now left|].
      destruct (IH H) as [->|Hl]; [now left|right; now right].
Qed.

Lemma elem_of_sorted_unique (x : string) (vals : list (option string)) :
  x ∈ sorted_unique vals → Some x ∈ vals.
Proof.
  unfold sorted_unique. induction vals as [|v vals IH]; cbn [foldr]; intros H.
  - now apply elem_of_nil in H.
  - destruct v as [s|].
    + apply elem_of_insert_sorted in H as [->|H]; [now left|].
      right. now apply IH.
    + right. now apply IH.
Qed.

(** The indicator columns of a column of strings are named after values
    the column holds. *)
Lemma dummies_object_names (name : string) (f : TelcoRow → string)
    (t : list TelcoRow) (c : string) (s : Series) :
  (c, s) ∈ dummies name (str_col f t) →
  ∃ r, r ∈ t ∧ c = name +:+ "_" +:+ f r.
Proof.
  unfold str_col. cbn [dummies]. intros H.
  apply list_elem_of_In, in_map_iff in H as (cat & Heq & Hcat).
  apply list_elem_of_In, elem_of_sorted_unique, list_elem_of_In, in_map_iff
    in Hcat as (r & Hr & Hin).
  exists r. split; [now apply list_elem_of_In|].
  congruence.
Qed.

(** Those of a categorical column after its categories. *)
Lemma dummies_category_names (name : string) (cats : list string)
    (vals : list (option string)) (c : string) (s : Series) :
  (c, s) ∈ dummies name (CatS cats vals) →
  ∃ cat, cat ∈ cats ∧ c = name +:+ "_" +:+ cat.
Proof.
  cbn [dummies]. intros H.
  apply list_elem_of_In, in_map_iff in H as (cat & Heq & Hcat).
  exists cat. split; [now apply list_elem_of_In|congruence].
Qed.

(** When every record of the training table is in the words of the
    dataset, every column of the feature matrix, and so every name
    [main] writes to the manifest, is a key of the dict
    [build_feature_row] returns, whatever the request: [predict] never
    takes the default of [row.get(c, 0)] for a column of such a run. *)
Theorem manifest_within_row_keys (to_float parse : string → option Q)
    (fit : list (list (option Q)) → StandardScaler)
    (t : list TelcoRow) (q33 q66 : Q)
    (df X : DataFrame) (y : Series) (o : option StandardScaler) :
  quantile (33 # 100) (float_col c_MonthlyCharges t) = Ok q33 →
  quantile (66 # 100) (float_col c_MonthlyCharges t) = Ok q66 →
  (q33 < q66)%Q →
  (∀ r, r ∈ t → canonical_row r = true) →
  preprocess to_float fit parse (read_csv t) = Ok (df, o) →
  get_feature_matrix_and_target df = Ok (X, y) →
  ∀ c, c ∈ columns X →
    ∀ req a b, is_Some (build_feature_row req a b !! c).
Proof.
  intros Ha Hb Hq Hcan Hpre HX c Hc req a b.
  apply (proj2 (row_is_Some req a b c)).
  rewrite (preprocess_read_csv to_float parse fit t q33 q66 Ha Hb Hq) in Hpre.
  cbv zeta in Hpre.
  set (sc := fit (numerical_block parse t)) in *. clearbody sc.
  destruct ((length (mean_ sc) =? 4)%nat && (length (scale_ sc) =? 4)%nat);
    [|discriminate Hpre].
  assert (Hdf : df = scaled_frame sc parse q33 q66 t) by congruence.
  clear Hpre. subst df.
  unfold get_feature_matrix_and_target in HX.
  destruct (df_get "Churn" (scaled_frame sc parse q33 q66 t)) as [y0|];
    [|discriminate HX].
  assert (HXe : X = df_drop ["Churn"] (scaled_frame sc parse q33 q66 t))
    by congruence.
  clear HX. subst X.
  unfold columns in Hc.
  apply list_elem_of_In, in_map_iff in Hc as ([c' s] & Hfst & Hin).
  cbn in Hfst. subst c'.
  apply list_elem_of_In, elem_of_df_drop in Hin as [Hin Hchurn].
  cbn in Hchurn. rewrite orb_false_r in Hchurn.
  apply String.eqb_neq in Hchurn.
  rewrite scaled_frame_columns in Hin. rewrite !elem_of_app in Hin.
  destruct Hin as [Hin|[Hin|[Hin|[Hin|[Hin|[Hin|Hin]]]]]].
  - repeat (apply elem_of_cons in Hin as [Hin|Hin];
            [apply pair_equal_spec in Hin as [-> _]|]);
      try (now apply elem_of_nil in Hin);
      try congruence;
      apply in_cats_elem; reflexivity.
  - apply dummies_object_names in Hin as (r & Hr & ->).
    specialize (Hcan r Hr). unfold canonical_row in Hcan.
    repeat (apply andb_prop in Hcan as [Hcan ?]).
    change ("Contract" +:+ "_" +:+ c_Contract r)
      with ("Contract_" +:+ c_Contract r).
    now apply contract_key_in_row_keys, in_cats_elem.
  - apply dummies_object_names in Hin as (r & Hr & ->).
    specialize (Hcan r Hr). unfold canonical_row in Hcan.
    repeat (apply andb_prop in Hcan as [Hcan ?]).
    change ("InternetService" +:+ "_" +:+ c_InternetService r)
      with ("InternetService_" +:+ c_InternetService r).
    now apply internet_key_in_row_keys, in_cats_elem.
  - apply dummies_object_names in Hin as (r & Hr & ->).
    specialize (Hcan r Hr). unfold canonical_row in Hcan.
    repeat (apply andb_prop in Hcan as [Hcan ?]).
    change ("PaymentMethod" +:+ "_" +:+ c_PaymentMethod r)
      with ("PaymentMethod_" +:+ c_PaymentMethod r).
    now apply payment_key_in_row_keys, in_cats_elem.
  - apply dummies_object_names in Hin as (r & Hr & ->).
    specialize (Hcan r Hr). unfold canonical_row in Hcan.
    repeat (apply andb_prop in Hcan as [Hcan ?]).
    change ("MultipleLines" +:+ "_" +:+ c_MultipleLines r)
      with ("MultipleLines_" +:+ c_MultipleLines r).
    now apply multiple_lines_key_in_row_keys, in_cats_elem.
  - apply dummies_category_names in Hin as (cat & Hcat & ->).
    change ("tenure_group" +:+ "_" +:+ cat) with ("tenure_group_" +:+ cat).
    now apply tenure_group_key_in_row_keys.
  - apply dummies_category_names in Hin as (cat & Hcat & ->).
    change ("monthly_charges_bucket" +:+ "_" +:+ cat)
      with ("monthly_charges_bucket_" +:+ cat).
    now apply monthly_bucket_key_in_row_keys.
Qed.

Lemma manifest_within_row_keys_witness :
  Forall (fun c => is_Some (build_feature_row
                              (request_of_row example_customer) 45 75 !! c))
    (columns
       (df_drop ["Churn"]
          (scaled_frame {| mean_ := [0; 0; 0; 0]%Q;
                           scale_ := [1; 1; 1; 1]%Q |}
             example_parse (5990 # 100) (6980 # 100) example_table))).
Proof.
  apply Forall_forall. intros c Hc.
  apply (manifest_within_row_keys example_parse example_parse
           (fun _ => {| mean_ := [0; 0; 0; 0]%Q; scale_ := [1; 1; 1; 1]%Q |})
           example_table (5990 # 100) (6980 # 100)
           (scaled_frame {| mean_ := [0; 0; 0; 0]%Q;
                            scale_ := [1; 1; 1; 1]%Q |}
              example_parse (5990 # 100) (6980 # 100) example_table)
           (df_drop ["Churn"]
              (scaled_frame {| mean_ := [0; 0; 0; 0]%Q;
                               scale_ := [1; 1; 1; 1]%Q |}
                 example_parse (5990 # 100) (6980 # 100) example_table))
           (eq_astype_int "Yes" (str_col c_Churn example_table))
           (Some {| mean_ := [0; 0; 0; 0]%Q; scale_ := [1; 1; 1; 1]%Q |}));
    try reflexivity; [|exact Hc].
  intros r Hr.
  repeat (apply elem_of_cons in Hr as [->|Hr]; [reflexivity|]).
  now apply elem_of_nil in Hr.
Defined.

(* ------------------------------------------------------------------ *)
(** * The choice of the final model *)

Lemma Qle_bool_true (a b : Q) : Qle_bool a b = true → (a <= b)%Q.
Proof. apply Qle_bool_iff. Qed.

(** The model [main] saves has the greatest ROC-AUC of the four
    candidates.  It is the tuned XGBoost exactly when that one's score is
    strictly above all three baselines, and the logistic regression, the
    first one trained, exactly when no other candidate scores strictly
    above it: ties go to the earlier candidate. *)
Theorem final_model_is_best (lr rf xgb tuned : Q) :
  let final := select_final lr rf xgb tuned in
  (lr <= snd final ∧ rf <= snd final ∧ xgb <= snd final
   ∧ tuned <= snd final)%Q
  ∧ (fst final = "XGBoost_tuned" ↔ (lr < tuned ∧ rf < tuned ∧ xgb < tuned)%Q)
  ∧ (fst final = "Logistic Regression"
     ↔ (rf <= lr ∧ xgb <= lr ∧ tuned <= lr)%Q).
Proof.
  cbv zeta. unfold select_final. cbn [idxmax_from snd fst].
  destruct (Qle_bool rf lr) eqn:E1;
    [apply Qle_bool_true in E1|apply Qle_bool_false in E1];
    [destruct (Qle_bool xgb lr) eqn:E2;
       [apply Qle_bool_true in E2|apply Qle_bool_false in E2]
    |destruct (Qle_bool xgb rf) eqn:E2;
       [apply Qle_bool_true in E2|apply Qle_bool_false in E2]];
    cbn [snd fst];
    match goal with
    | |- context [Qle_bool ?a ?b] =>
        destruct (Qle_bool a b) eqn:E3;
        [apply Qle_bool_true in E3|apply Qle_bool_false in E3]
    end;
    cbn [snd fst];
    (split; [repeat split; lra|]);
    split; (split; [intros Hn; try discriminate Hn; repeat split; lra
                   |intros (? & ? & ?); try reflexivity; exfalso; lra]).
Qed.
